(** * SnipX video editor: job tracking and subtitle timing

    A shallow embedding of the [Features] page component
    (src/pages/Features.tsx and its revision with the subtitle player),
    followed by the properties of the specification that were checked
    against it.

    Layout:
    - [JS]         the fragment of JavaScript values the component relies
                   on: strings, [padStart], and numbers, as the IEEE-754
                   binary64 values the code computes with and, for
                   comparison, as exact rationals;
    - [Subtitle]   cues, the canned generator, the SRT writer and the
                   active-cue lookup;
    - [Page]       the component state, its timers and pending calls, and
                   its handlers as run-to-completion tasks of the event
                   loop;
    - [Reference]  the notions of the specification that the code has no
                   name for: the layout of SRT text, an SRT reader, the
                   invariant of a track, a polling run on its own;
    - [Scenario]   sample sessions;
    - [Widgets]    the clock, the seek bar, the progress bar, the subtitle
                   download and the thumbnail handler;
    - [Auth]       the authentication context and the navigation bar;
    - [Handles]    what the timers and the pending calls keep true of the
                   timer handles, with the sessions of [Sessions];
    - the properties. *)

From Stdlib Require Import ZArith QArith Qround List String Ascii Bool Lia.
From Stdlib Require Import Floats.SpecFloat DecimalString DecimalZ.
Import ListNotations.

Open Scope string_scope.

(* ================================================================== *)
(** ** JavaScript values *)
(* ================================================================== *)

Module JS.

(** The line feed written [\n] in the source. *)
Definition nl : string := String (ascii_of_nat 10) EmptyString.

(** [s.repeat(n)] *)
Fixpoint repeat_string (s : string) (n : nat) : string :=
  match n with
  | O => ""
  | S k => s ++ repeat_string s k
  end.

(** [s.padStart(targetLength, padString)]: the filler is [padString]
    repeated and cut to the missing length; an empty filler or a string
    that is already long enough leaves [s] unchanged. *)
Definition padStart (s : string) (targetLength : nat) (padString : string)
  : string :=
  let missing := (targetLength - String.length s)%nat in
  substring 0 missing (repeat_string padString missing) ++ s.

(** The decimal numeral of an integer, with a minus sign below zero. *)
Definition numeral (n : Z) : string :=
  NilZero.string_of_int (Z.to_int n).

(** The operations on [number] that the component uses on times. *)
Class Number (N : Type) : Type := {
  (** an integer literal or an array index *)
  of_Z : Z -> N;
  (** a decimal literal: [decimal m k] is [m] with the point moved [k]
      places to the left, so [decimal 59999 3] is the literal 59.999 *)
  decimal : Z -> nat -> N;
  mul : N -> N -> N;
  sub : N -> N -> N;
  div : N -> N -> N;
  (** the remainder operator [%]: the result has the sign of the dividend *)
  rem : N -> N -> N;
  (** [Math.floor] *)
  floor : N -> N;
  (** [Number.prototype.toString], also behind a template literal *)
  Number_toString : N -> string;
  (** [a <= b] *)
  leb : N -> N -> bool
}.

(** [a >= b] *)
Definition geb {N} `{Number N} (a b : N) : bool := leb b a.

(** *** Exact interpretation: numbers are rationals in lowest terms

    This is arithmetic without rounding.  It is not what the code
    computes; it is what the results on doubles are compared with. *)

Module Exact.

Definition Qtruncate (q : Q) : Z :=
  if (Qnum q <? 0)%Z then Qceiling q else Qfloor q.

Definition Qrem (a b : Q) : Q :=
  Qred (a - b * inject_Z (Qtruncate (a / b))).

(** The digits behind the point of [num / den], as far as [fuel] goes. *)
Fixpoint fraction_digits (fuel : nat) (num den : Z) : string :=
  match fuel with
  | O => ""
  | S k =>
      if (num =? 0)%Z then ""
      else numeral (num * 10 / den) ++
           fraction_digits k ((num * 10) mod den) den
  end.

(** A rational in decimal notation: an integer as its numeral, any other
    rational with up to twenty digits behind the point. *)
Definition Qprint (q : Q) : string :=
  let z := Qfloor q in
  if Qeq_bool q (inject_Z z) then numeral z
  else
    let a := if (Qnum q <? 0)%Z then Qopp q else q in
    (if (Qnum q <? 0)%Z then "-" else "") ++
    numeral (Qfloor a) ++ "." ++
    fraction_digits 20 (Qnum a mod Zpos (Qden a)) (Zpos (Qden a)).

#[export] Instance number : Number Q := {
  of_Z := inject_Z;
  decimal m k := Qred (m # Pos.of_nat (10 ^ k));
  mul a b := Qred (a * b);
  sub a b := Qred (a - b);
  div a b := Qred (a / b);
  rem := Qrem;
  floor q := inject_Z (Qfloor q);
  Number_toString := Qprint;
  leb := Qle_bool
}.

End Exact.

(** *** IEEE-754 binary64 interpretation, on the Standard Library's
    specification of floating-point arithmetic: the numbers of the code *)

Module Binary64.

Definition prec : Z := 53.
Definition emax : Z := 1024.

(** The double nearest to the integer [z]. *)
Definition b64_of_Z (z : Z) : spec_float := binary_normalize prec emax z 0 false.

(** A decimal literal denotes the double nearest to the decimal value.
    For [m] and [10^k] below 2^53 that is the correctly rounded quotient
    of the two integers. *)
Definition b64_decimal (m : Z) (k : nat) : spec_float :=
  SFdiv prec emax (b64_of_Z m) (b64_of_Z (10 ^ Z.of_nat k)).

(** The double nearest to a rational with numerator and denominator that
    are doubles themselves (below 2^53, or a power of two). *)
Definition b64_of_Q (q : Q) : spec_float :=
  SFdiv prec emax (b64_of_Z (Qnum q)) (b64_of_Z (Zpos (Qden q))).

Definition is_finite (x : spec_float) : bool :=
  match x with
  | S754_zero _ | S754_finite _ _ _ => true
  | _ => false
  end.

(** The rational that a finite double is.  (For NaN and the infinities,
    which are no rationals, the value is 0; [is_finite] tells.) *)
Definition b64_value (x : spec_float) : Q :=
  match x with
  | S754_finite s m e => Qred (inject_Z (cond_Zopp s (Zpos m)) * Qpower 2 e)
  | _ => 0
  end.

(** The integer below a finite double: [m * 2^e] rounded towards minus
    infinity ([Z.shiftl] by a negative amount is the flooring shift). *)
Definition b64_floorZ (x : spec_float) : Z :=
  match x with
  | S754_finite s m e => Z.shiftl (cond_Zopp s (Zpos m)) e
  | _ => 0
  end.

(** [Math.floor]: NaN, the infinities and the zeros are returned as they
    are; the integer below a finite double is a double. *)
Definition b64_floor (x : spec_float) : spec_float :=
  match x with
  | S754_finite _ _ _ => b64_of_Z (b64_floorZ x)
  | _ => x
  end.

(** [x % y].  The remainder of two finite doubles is computed without
    rounding: both mantissas are aligned on the smaller exponent and the
    integer remainder is taken; it has the sign of the dividend. *)
Definition b64_rem (x y : spec_float) : spec_float :=
  match x, y with
  | S754_nan, _ | _, S754_nan => S754_nan
  | S754_infinity _, _ => S754_nan
  | _, S754_zero _ => S754_nan
  | _, S754_infinity _ => x
  | S754_zero _, _ => x
  | S754_finite sx mx ex, S754_finite sy my ey =>
      let ez := Z.min ex ey in
      let ax := Zpos (fst (shl_align mx ex ez)) in
      let ay := Zpos (fst (shl_align my ey ez)) in
      binary_normalize prec emax (cond_Zopp sx (Z.modulo ax ay)) ez sx
  end.

(** **** [Number.prototype.toString]

    For a finite double other than zero the language takes the shortest
    decimal digit string [s] (of [k] digits) and the exponent [n] such
    that [s * 10^(n-k)] denotes the double, the closest to it if there are
    several, and lays it out in positional notation for [-6 < n <= 21] and
    in exponent notation otherwise. *)

Definition Qlt_bool (a b : Q) : bool := negb (Qle_bool b a).

Definition pow10 (n : Z) : Q := Qpower (10 # 1) n.

(** The [n] with [10^(n-1) <= v < 10^n], for [0 < v]. *)
Fixpoint magnitude_below (fuel : nat) (v : Q) (n : Z) : Z :=
  match fuel with
  | O => n
  | S k => if Qle_bool (pow10 (n - 1)) v then n
           else magnitude_below k v (n - 1)
  end.

Definition magnitude (v : Q) : Z :=
  if Qle_bool 1 v then Z.of_nat (String.length (numeral (Qfloor v)))
  else magnitude_below 400 v 0.

(** The [k]-digit decimals next to [v] that still denote the double, that
    is, lie in its rounding interval from [low] to [high] (the ends count
    when the mantissa is even); of two, the closer one. *)
Definition shortest_at (v low high : Q) (closed : bool) (n k : Z) : option Z :=
  let unit := pow10 (n - k) in
  let s1 := Qfloor (v / unit) in
  let s2 := (s1 + 1)%Z in
  let inside q := if closed then Qle_bool low q && Qle_bool q high
                  else Qlt_bool low q && Qlt_bool q high in
  let c1 := inject_Z s1 * unit in
  let c2 := inject_Z s2 * unit in
  match inside c1, inside c2 with
  | true, false => Some s1
  | false, true => Some s2
  | true, true =>
      if Qlt_bool (v - c1) (c2 - v) then Some s1
      else if Qlt_bool (c2 - v) (v - c1) then Some s2
      else if Z.even s1 then Some s1 else Some s2
  | false, false => None
  end.

(** The least [k] that has such a decimal; seventeen digits always do. *)
Fixpoint shortest (fuel : nat) (v low high : Q) (closed : bool) (n k : Z)
  : Z * Z :=
  match fuel with
  | O => (Qfloor (v / pow10 (n - k)), k)
  | S f =>
      match shortest_at v low high closed n k with
      | Some s => (s, k)
      | None => shortest f v low high closed n (k + 1)
      end
  end.

Fixpoint strip_zeros (s : string) : string :=
  match s with
  | EmptyString => EmptyString
  | String c rest =>
      let rest' := strip_zeros rest in
      if String.eqb rest' "" && Ascii.eqb c "0" then "" else String c rest'
  end.

(** The layout of the digits [s] with the point after the [n]-th digit. *)
Definition format_digits (digits : string) (n : Z) : string :=
  let k := Z.of_nat (String.length digits) in
  if (k <=? n)%Z && (n <=? 21)%Z then
    digits ++ repeat_string "0" (Z.to_nat (n - k))
  else if (0 <? n)%Z && (n <=? 21)%Z then
    substring 0 (Z.to_nat n) digits ++ "." ++
    substring (Z.to_nat n) (Z.to_nat (k - n)) digits
  else if (-6 <? n)%Z && (n <=? 0)%Z then
    "0." ++ repeat_string "0" (Z.to_nat (- n)) ++ digits
  else
    let e := (n - 1)%Z in
    (if (k =? 1)%Z then digits
     else substring 0 1 digits ++ "." ++ substring 1 (Z.to_nat (k - 1)) digits)
    ++ "e" ++ (if (0 <=? e)%Z then "+" else "-") ++ numeral (Z.abs e).

(** The positive double [m * 2^e], [m] of 53 bits (fewer for a subnormal
    number).  The next double above is one unit of the last place away,
    the next below as well, or half a unit when [m] is the least
    mantissa. *)
Definition print_positive (m : positive) (e : Z) : string :=
  let v := inject_Z (Zpos m) * Qpower 2 e in
  let gap := Qpower 2 e in
  let gap_below :=
    if (Zpos m =? 2 ^ (prec - 1))%Z && (3 - emax - prec <? e)%Z
    then Qpower 2 (e - 1) else gap in
  let low := v - gap_below / 2 in
  let high := v + gap / 2 in
  let n := magnitude v in
  let '(s, k) := shortest 17 v low high (Z.even (Zpos m)) n 1 in
  let all := numeral s in
  format_digits (strip_zeros all)
                (n + (Z.of_nat (String.length all) - k)).

Definition b64_toString (x : spec_float) : string :=
  match x with
  | S754_nan => "NaN"
  | S754_infinity false => "Infinity"
  | S754_infinity true => "-Infinity"
  | S754_zero _ => "0"
  | S754_finite s m e =>
      (if s then "-" else "") ++
      match binary_normalize prec emax (Zpos m) e false with
      | S754_finite _ m' e' => print_positive m' e'
      | S754_infinity _ => "Infinity"
      | _ => "0"
      end
  end.

#[export] Instance number : Number spec_float := {
  of_Z := b64_of_Z;
  decimal := b64_decimal;
  mul := SFmul prec emax;
  sub := SFsub prec emax;
  div := SFdiv prec emax;
  rem := b64_rem;
  floor := b64_floor;
  Number_toString := b64_toString;
  leb := SFleb
}.

End Binary64.

(** [n.toString()] on a number that is an integer, such as an array index
    or a time stamp of the clock: the double nearest to [n], printed.
    Below 2^53 that is the numeral of [n]. *)
Definition toString (n : Z) : string :=
  Binary64.b64_toString (Binary64.b64_of_Z n).

End JS.

(* ================================================================== *)
(** ** Subtitle model *)
(* ================================================================== *)

Module Subtitle.
Import JS.

(** How a call ends: with a value, or with an exception whose message is
    kept. *)
Inductive Completion (A : Type) : Type :=
  | Returns (value : A)
  | Throws (message : string).

Arguments Returns {A} value.
Arguments Throws {A} message.

(** What [subtitleTexts[language]] can find.  [subtitleTexts] is an object
    literal: besides the arrays under its own keys, a property access
    finds the members that every object inherits from [Object.prototype],
    which are functions (and, under [__proto__], the prototype object
    itself) and no arrays. *)
Inductive Property : Type :=
  | Lines (texts : list string)
  | Inherited.

Definition Object_prototype : list string :=
  [ "constructor"; "__proto__"; "hasOwnProperty"; "isPrototypeOf";
    "propertyIsEnumerable"; "toLocaleString"; "toString"; "valueOf";
    "__defineGetter__"; "__defineSetter__"; "__lookupGetter__";
    "__lookupSetter__" ].

(** The array under an own key. *)
Fixpoint own_property (key : string) (table : list (string * list string))
  : option (list string) :=
  match table with
  | [] => None
  | (k, v) :: rest => if String.eqb key k then Some v else own_property key rest
  end.

(** [subtitleTexts[language]]: own keys first, then the prototype;
    [None] is [undefined]. *)
Definition lookup (key : string) (table : list (string * list string))
  : option Property :=
  match own_property key table with
  | Some texts => Some (Lines texts)
  | None =>
      if existsb (String.eqb key) Object_prototype then Some Inherited
      else None
  end.

(** [a || b] on what a property access finds: an array, a function and an
    object are all truthy, [undefined] is not. *)
Definition or_else {A : Type} (a : option A) (b : option A) : option A :=
  match a with
  | Some v => Some v
  | None => b
  end.

Section WithNumber.

Context {N : Type} `{Number N}.

(** [interface SubtitleCue] *)
Record SubtitleCue : Type := mkCue {
  cue_start : N;
  cue_end : N;
  cue_text : string
}.

(** [interface SubtitleData] *)
Record SubtitleData : Type := mkSubtitleData {
  language : string;
  cues : list SubtitleCue;
  srt : string
}.

(** [array.map((x, index) => ...)] *)
Fixpoint map_from {A B : Type} (f : A -> nat -> B) (index : nat) (l : list A)
  : list B :=
  match l with
  | [] => []
  | x :: rest => f x index :: map_from f (S index) rest
  end.

Definition map_indexed {A B : Type} (f : A -> nat -> B) (l : list A) : list B :=
  map_from f 0 l.

(** [formatSRTTime] *)
Definition formatSRTTime (seconds : N) : string :=
  let hours := floor (div seconds (of_Z 3600)) in
  let minutes := floor (div (rem seconds (of_Z 3600)) (of_Z 60)) in
  let secs := floor (rem seconds (of_Z 60)) in
  let milliseconds := floor (mul (rem seconds (of_Z 1)) (of_Z 1000)) in
  padStart (Number_toString hours) 2 "0" ++ ":" ++
  padStart (Number_toString minutes) 2 "0" ++ ":" ++
  padStart (Number_toString secs) 2 "0" ++ "," ++
  padStart (Number_toString milliseconds) 3 "0".

(** The canned lines of [generateMockSubtitleData], in source order. *)
Definition subtitleTexts : list (string * list string) :=
  [ ("en",
     [ "Welcome to this video demonstration.";
       "This showcases our advanced subtitle system.";
       "Powered by OpenAI Whisper technology.";
       "With precise word-level timing synchronization.";
       "Supporting multiple languages and styles." ]);
    ("ur",
     [ "اس ویڈیو ڈیمونسٹریشن میں خوش آمدید۔";
       "یہ ہمارے جدید سب ٹائٹل سسٹم کو ظاہر کرتا ہے۔";
       "OpenAI Whisper ٹیکنالوجی سے طاقت یافتہ۔";
       "درست لفظ کی سطح کے وقت کی ہم آہنگی کے ساتھ۔";
       "متعدد زبانوں اور انداز کی حمایت کرتا ہے۔" ]);
    ("ru-ur",
     [ "Is video demonstration mein khush aamdeed.";
       "Yeh hamara advanced subtitle system dikhata hai.";
       "OpenAI Whisper technology se powered.";
       "Precise word-level timing sync ke saath.";
       "Multiple languages aur styles support karta hai." ]);
    ("es",
     [ "Bienvenido a esta demostración de video.";
       "Esto muestra nuestro sistema avanzado de subtítulos.";
       "Impulsado por la tecnología OpenAI Whisper.";
       "Con sincronización precisa a nivel de palabra.";
       "Compatible con múltiples idiomas y estilos." ]);
    ("fr",
     [ "Bienvenue dans cette démonstration vidéo.";
       "Ceci présente notre système de sous-titres avancé.";
       "Alimenté par la technologie OpenAI Whisper.";
       "Avec synchronisation précise au niveau des mots.";
       "Prenant en charge plusieurs langues et styles." ]);
    ("de",
     [ "Willkommen zu dieser Video-Demonstration.";
       "Dies zeigt unser fortschrittliches Untertitelsystem.";
       "Angetrieben von OpenAI Whisper-Technologie.";
       "Mit präziser Synchronisation auf Wortebene.";
       "Unterstützt mehrere Sprachen und Stile." ]) ].

(** [languageOptions]: the codes and names offered by the selector (the
    flag of each entry is presentation only). *)
Definition languageOptions : list (string * string) :=
  [ ("en", "English"); ("ur", "Urdu"); ("ru-ur", "Roman Urdu");
    ("es", "Spanish"); ("fr", "French"); ("de", "German");
    ("it", "Italian"); ("pt", "Portuguese"); ("ru", "Russian");
    ("ja", "Japanese"); ("ko", "Korean"); ("zh", "Chinese") ].

(** The arrow function mapped over the lines. *)
Definition cue_of_line (text : string) (index : nat) : SubtitleCue :=
  {| cue_start := mul (of_Z (Z.of_nat index)) (of_Z 4);
     cue_end := sub (mul (of_Z (Z.of_nat index + 1)) (of_Z 4)) (decimal 5 1);
     cue_text := text |}.

(** The arrow function that renders one SRT block. *)
Definition srt_block (cue : SubtitleCue) (index : nat) : string :=
  let startTime := formatSRTTime (cue_start cue) in
  let endTime := formatSRTTime (cue_end cue) in
  toString (Z.of_nat index + 1) ++ nl ++
  startTime ++ " --> " ++ endTime ++ nl ++
  cue_text cue ++ nl.

(** The SRT writer: the second half of [generateMockSubtitleData]. *)
Definition encodeSRT (cs : list SubtitleCue) : string :=
  String.concat nl (map_indexed srt_block cs).

(** [generateMockSubtitleData].  [texts.map] is a call of the method
    [map] of an array.  On a function or an object found on the prototype
    the member [map] is [undefined], and calling it throws a [TypeError]
    (the message is the one of V8); on [undefined] the member access
    itself throws. *)
Definition generateMockSubtitleData (lang : string) : Completion SubtitleData :=
  match or_else (lookup lang subtitleTexts) (lookup "en" subtitleTexts) with
  | Some (Lines texts) =>
      let cs := map_indexed cue_of_line texts in
      let s := encodeSRT cs in
      Returns {| language := lang; cues := cs; srt := s |}
  | Some Inherited => Throws "texts.map is not a function"
  | None => Throws "Cannot read properties of undefined (reading 'map')"
  end.

(** The lookup inside [handleVideoTimeUpdate]:
    [cues.find(cue => time >= cue.start && time <= cue.end)] followed by
    [currentCue ? currentCue.text : ''] *)
Definition active (time : N) (cue : SubtitleCue) : bool :=
  geb time (cue_start cue) && leb time (cue_end cue).

Definition activeCueText (cs : list SubtitleCue) (time : N) : string :=
  match find (active time) cs with
  | Some currentCue => cue_text currentCue
  | None => ""
  end.

End WithNumber.

Arguments SubtitleCue N : clear implicits.
Arguments SubtitleData N : clear implicits.

End Subtitle.

(* ================================================================== *)
(** ** The page component *)
(* ================================================================== *)

Module Page.
Import JS Subtitle.

(** The two revisions of the component: src/pages/Features.tsx, and the
    later one that adds the subtitle player. *)
Inductive Revision : Type := Pages | Player.

(** The part of a [File] that the component reads. *)
Record File : Type := mkFile {
  file_name : string;
  file_size : Z
}.

(** [interface VideoData], with the [error] field that [checkStatus] reads *)
Record Metadata : Type := mkMetadata {
  duration : option Q;
  format : option string;
  resolution : option string;
  fps : option Q
}.

Record Outputs : Type := mkOutputs {
  processed_video : option string;
  thumbnail : option string;
  subtitles : option string;
  summary : option string
}.

Record VideoData : Type := mkVideoData {
  vd_id : string;
  vd_filename : string;
  vd_status : string;
  vd_metadata : option Metadata;
  vd_outputs : option Outputs;
  vd_error : option string
}.

(** [interface ProgressState].  A percentage is kept as the rational that
    the double is; where the code computes one with rounding, the
    computation is done on doubles (see [processingRamp_tick]). *)
Record ProgressState : Type := mkProgress {
  visible : bool;
  percentage : Q;
  status : string
}.

(** [interface ConsoleLog]; the wall-clock [timestamp] is left out. *)
Inductive LogType : Type := info | success | error.

Record ConsoleLog : Type := mkLog {
  message : string;
  type : LogType
}.

(** The five progress bars, named after their setters. *)
Inductive Feature : Type :=
  Audio | Subtitles | Summarization | Enhancement | Thumbnail.

Definition Feature_eqb (a b : Feature) : bool :=
  match a, b with
  | Audio, Audio | Subtitles, Subtitles | Summarization, Summarization
  | Enhancement, Enhancement | Thumbnail, Thumbnail => true
  | _, _ => false
  end.

(** The [options] argument of [processVideo]: optional switches. *)
Record Options : Type := mkOptions {
  cut_silence : option bool;
  enhance_audio : option bool;
  generate_thumbnail : option bool;
  generate_subtitles : option bool;
  summarize : option bool
}.

(** *** The runtime: timers and pending promises *)

(** The functions handed to [setInterval] and [setTimeout], with the
    variables their closures capture. *)
Inductive Callback : Type :=
  (** the upload ramp of [uploadVideo] *)
  | UploadRamp
  (** [checkStatus] of [startStatusCheck videoId] *)
  | CheckStatus (videoId : string)
  (** the ramp of [processVideo]; [progress] is its local counter, a
      double *)
  | ProcessingRamp (progressSetter : Feature) (successMessage : string)
                   (uploadedVideoId : option string) (progress : spec_float)
  (** the delayed tab switch after an upload, [Player] revision only *)
  | SwitchToEnhancement
  (** the pause before a stage of [generateAdvancedSubtitles]: the stages
      still to come and the language the call was made with *)
  | SubtitleStage (stages : list (Q * string)) (subtitleLanguage : string).

Record Timer : Type := mkTimer {
  timer_id : nat;
  timer_delay : Z;             (* milliseconds *)
  timer_repeats : bool;        (* [setInterval] or [setTimeout] *)
  timer_callback : Callback
}.

(** What runs when an awaited [ApiService] call settles. *)
Inductive Continuation : Type :=
  (** rest of [uploadVideo]; [progressInterval] is its local constant *)
  | AwaitUpload (progressInterval : nat)
  (** rest of [checkStatus] *)
  | AwaitStatus (videoId : string)
  (** rest of [processVideo] *)
  | AwaitProcess (progressSetter : Feature) (successMessage : string)
                 (uploadedVideoId : option string).

(** The calls made on [ApiService], in the order they were made. *)
Inductive Request : Type :=
  | UploadVideo (file : File)
  | GetVideoStatus (videoId : string)
  | ProcessVideo (videoId : string) (options : Options).

(** How a call settles.  A rejection carries the message of the thrown
    value when that value is an [Error]. *)
Inductive Response : Type :=
  | Uploaded (video_id : option string)
  | Status (data : VideoData)
  | Processing
  | Rejected (reason : option string).

(** [toast.error] and [toast.success] *)
Inductive Toast : Type :=
  | ErrorToast (msg : string)
  | SuccessToast (msg : string).

Section WithNumber.

Context {N : Type} `{Number N}.

(** [formatFileSize] goes through [Math.log] and [toFixed]; only the log
    line of [uploadVideo] uses it, and it is left abstract. *)
Variable formatFileSize : Z -> string.

Record State : Type := mkState {
  (* component state *)
  selectedFile : option File;
  videoSrc : option nat;                 (* object URL handle *)
  uploadedVideoId : option string;
  videoData : option VideoData;
  consoleLogs : list ConsoleLog;
  isUploading : bool;
  uploadProgress : Q;
  activeTab : string;
  currentTime : N;
  subtitleData : option (SubtitleData N);
  showSubtitles : bool;
  currentSubtitle : string;
  subtitleLanguage : string;
  subtitleStyle : string;
  isGeneratingSubtitles : bool;
  brightnessLevel : Z;
  contrastLevel : Z;
  previewFilters : string;
  thumbnailFrames : list string;
  selectedFrameIndex : option nat;
  generatedThumbnail : option string;
  progressOf : Feature -> ProgressState;
  (* refs *)
  statusCheckIntervalRef : option nat;
  (* runtime *)
  timers : list Timer;                   (* the timers that are set *)
  next_timer : nat;
  pending : list (nat * Continuation);   (* calls not yet settled *)
  next_request : nat;
  next_url : nat;
  (* effects on the outside *)
  requests : list Request;
  toasts : list Toast
}.

(** The state setters of the component, and updates of the runtime. *)
Definition setSelectedFile v (s : State) : State :=
  {| selectedFile := v; videoSrc := videoSrc s; uploadedVideoId :=
     uploadedVideoId s; videoData := videoData s; consoleLogs := consoleLogs
     s; isUploading := isUploading s; uploadProgress := uploadProgress s;
     activeTab := activeTab s; currentTime := currentTime s; subtitleData :=
     subtitleData s; showSubtitles := showSubtitles s; currentSubtitle :=
     currentSubtitle s; subtitleLanguage := subtitleLanguage s; subtitleStyle
     := subtitleStyle s; isGeneratingSubtitles := isGeneratingSubtitles s;
     brightnessLevel := brightnessLevel s; contrastLevel := contrastLevel s;
     previewFilters := previewFilters s; thumbnailFrames := thumbnailFrames s;
     selectedFrameIndex := selectedFrameIndex s; generatedThumbnail :=
     generatedThumbnail s; progressOf := progressOf s; statusCheckIntervalRef
     := statusCheckIntervalRef s; timers := timers s; next_timer := next_timer
     s; pending := pending s; next_request := next_request s; next_url :=
     next_url s; requests := requests s; toasts := toasts s |}.
Definition setVideoSrc v (s : State) : State :=
  {| selectedFile := selectedFile s; videoSrc := v; uploadedVideoId :=
     uploadedVideoId s; videoData := videoData s; consoleLogs := consoleLogs
     s; isUploading := isUploading s; uploadProgress := uploadProgress s;
     activeTab := activeTab s; currentTime := currentTime s; subtitleData :=
     subtitleData s; showSubtitles := showSubtitles s; currentSubtitle :=
     currentSubtitle s; subtitleLanguage := subtitleLanguage s; subtitleStyle
     := subtitleStyle s; isGeneratingSubtitles := isGeneratingSubtitles s;
     brightnessLevel := brightnessLevel s; contrastLevel := contrastLevel s;
     previewFilters := previewFilters s; thumbnailFrames := thumbnailFrames s;
     selectedFrameIndex := selectedFrameIndex s; generatedThumbnail :=
     generatedThumbnail s; progressOf := progressOf s; statusCheckIntervalRef
     := statusCheckIntervalRef s; timers := timers s; next_timer := next_timer
     s; pending := pending s; next_request := next_request s; next_url :=
     next_url s; requests := requests s; toasts := toasts s |}.
Definition setUploadedVideoId v (s : State) : State :=
  {| selectedFile := selectedFile s; videoSrc := videoSrc s; uploadedVideoId
     := v; videoData := videoData s; consoleLogs := consoleLogs s; isUploading
     := isUploading s; uploadProgress := uploadProgress s; activeTab :=
     activeTab s; currentTime := currentTime s; subtitleData := subtitleData
     s; showSubtitles := showSubtitles s; currentSubtitle := currentSubtitle
     s; subtitleLanguage := subtitleLanguage s; subtitleStyle := subtitleStyle
     s; isGeneratingSubtitles := isGeneratingSubtitles s; brightnessLevel :=
     brightnessLevel s; contrastLevel := contrastLevel s; previewFilters :=
     previewFilters s; thumbnailFrames := thumbnailFrames s;
     selectedFrameIndex := selectedFrameIndex s; generatedThumbnail :=
     generatedThumbnail s; progressOf := progressOf s; statusCheckIntervalRef
     := statusCheckIntervalRef s; timers := timers s; next_timer := next_timer
     s; pending := pending s; next_request := next_request s; next_url :=
     next_url s; requests := requests s; toasts := toasts s |}.
Definition setVideoData v (s : State) : State :=
  {| selectedFile := selectedFile s; videoSrc := videoSrc s; uploadedVideoId
     := uploadedVideoId s; videoData := v; consoleLogs := consoleLogs s;
     isUploading := isUploading s; uploadProgress := uploadProgress s;
     activeTab := activeTab s; currentTime := currentTime s; subtitleData :=
     subtitleData s; showSubtitles := showSubtitles s; currentSubtitle :=
     currentSubtitle s; subtitleLanguage := subtitleLanguage s; subtitleStyle
     := subtitleStyle s; isGeneratingSubtitles := isGeneratingSubtitles s;
     brightnessLevel := brightnessLevel s; contrastLevel := contrastLevel s;
     previewFilters := previewFilters s; thumbnailFrames := thumbnailFrames s;
     selectedFrameIndex := selectedFrameIndex s; generatedThumbnail :=
     generatedThumbnail s; progressOf := progressOf s; statusCheckIntervalRef
     := statusCheckIntervalRef s; timers := timers s; next_timer := next_timer
     s; pending := pending s; next_request := next_request s; next_url :=
     next_url s; requests := requests s; toasts := toasts s |}.
Definition setConsoleLogs v (s : State) : State :=
  {| selectedFile := selectedFile s; videoSrc := videoSrc s; uploadedVideoId
     := uploadedVideoId s; videoData := videoData s; consoleLogs := v;
     isUploading := isUploading s; uploadProgress := uploadProgress s;
     activeTab := activeTab s; currentTime := currentTime s; subtitleData :=
     subtitleData s; showSubtitles := showSubtitles s; currentSubtitle :=
     currentSubtitle s; subtitleLanguage := subtitleLanguage s; subtitleStyle
     := subtitleStyle s; isGeneratingSubtitles := isGeneratingSubtitles s;
     brightnessLevel := brightnessLevel s; contrastLevel := contrastLevel s;
     previewFilters := previewFilters s; thumbnailFrames := thumbnailFrames s;
     selectedFrameIndex := selectedFrameIndex s; generatedThumbnail :=
     generatedThumbnail s; progressOf := progressOf s; statusCheckIntervalRef
     := statusCheckIntervalRef s; timers := timers s; next_timer := next_timer
     s; pending := pending s; next_request := next_request s; next_url :=
     next_url s; requests := requests s; toasts := toasts s |}.
Definition setIsUploading v (s : State) : State :=
  {| selectedFile := selectedFile s; videoSrc := videoSrc s; uploadedVideoId
     := uploadedVideoId s; videoData := videoData s; consoleLogs :=
     consoleLogs s; isUploading := v; uploadProgress := uploadProgress s;
     activeTab := activeTab s; currentTime := currentTime s; subtitleData :=
     subtitleData s; showSubtitles := showSubtitles s; currentSubtitle :=
     currentSubtitle s; subtitleLanguage := subtitleLanguage s; subtitleStyle
     := subtitleStyle s; isGeneratingSubtitles := isGeneratingSubtitles s;
     brightnessLevel := brightnessLevel s; contrastLevel := contrastLevel s;
     previewFilters := previewFilters s; thumbnailFrames := thumbnailFrames s;
     selectedFrameIndex := selectedFrameIndex s; generatedThumbnail :=
     generatedThumbnail s; progressOf := progressOf s; statusCheckIntervalRef
     := statusCheckIntervalRef s; timers := timers s; next_timer := next_timer
     s; pending := pending s; next_request := next_request s; next_url :=
     next_url s; requests := requests s; toasts := toasts s |}.
Definition setUploadProgress v (s : State) : State :=
  {| selectedFile := selectedFile s; videoSrc := videoSrc s; uploadedVideoId
     := uploadedVideoId s; videoData := videoData s; consoleLogs :=
     consoleLogs s; isUploading := isUploading s; uploadProgress := v;
     activeTab := activeTab s; currentTime := currentTime s; subtitleData :=
     subtitleData s; showSubtitles := showSubtitles s; currentSubtitle :=
     currentSubtitle s; subtitleLanguage := subtitleLanguage s; subtitleStyle
     := subtitleStyle s; isGeneratingSubtitles := isGeneratingSubtitles s;
     brightnessLevel := brightnessLevel s; contrastLevel := contrastLevel s;
     previewFilters := previewFilters s; thumbnailFrames := thumbnailFrames s;
     selectedFrameIndex := selectedFrameIndex s; generatedThumbnail :=
     generatedThumbnail s; progressOf := progressOf s; statusCheckIntervalRef
     := statusCheckIntervalRef s; timers := timers s; next_timer := next_timer
     s; pending := pending s; next_request := next_request s; next_url :=
     next_url s; requests := requests s; toasts := toasts s |}.
Definition setActiveTab v (s : State) : State :=
  {| selectedFile := selectedFile s; videoSrc := videoSrc s; uploadedVideoId
     := uploadedVideoId s; videoData := videoData s; consoleLogs :=
     consoleLogs s; isUploading := isUploading s; uploadProgress :=
     uploadProgress s; activeTab := v; currentTime := currentTime s;
     subtitleData := subtitleData s; showSubtitles := showSubtitles s;
     currentSubtitle := currentSubtitle s; subtitleLanguage :=
     subtitleLanguage s; subtitleStyle := subtitleStyle s;
     isGeneratingSubtitles := isGeneratingSubtitles s; brightnessLevel :=
     brightnessLevel s; contrastLevel := contrastLevel s; previewFilters :=
     previewFilters s; thumbnailFrames := thumbnailFrames s;
     selectedFrameIndex := selectedFrameIndex s; generatedThumbnail :=
     generatedThumbnail s; progressOf := progressOf s; statusCheckIntervalRef
     := statusCheckIntervalRef s; timers := timers s; next_timer := next_timer
     s; pending := pending s; next_request := next_request s; next_url :=
     next_url s; requests := requests s; toasts := toasts s |}.
Definition setCurrentTime v (s : State) : State :=
  {| selectedFile := selectedFile s; videoSrc := videoSrc s; uploadedVideoId
     := uploadedVideoId s; videoData := videoData s; consoleLogs :=
     consoleLogs s; isUploading := isUploading s; uploadProgress :=
     uploadProgress s; activeTab := activeTab s; currentTime := v;
     subtitleData := subtitleData s; showSubtitles := showSubtitles s;
     currentSubtitle := currentSubtitle s; subtitleLanguage :=
     subtitleLanguage s; subtitleStyle := subtitleStyle s;
     isGeneratingSubtitles := isGeneratingSubtitles s; brightnessLevel :=
     brightnessLevel s; contrastLevel := contrastLevel s; previewFilters :=
     previewFilters s; thumbnailFrames := thumbnailFrames s;
     selectedFrameIndex := selectedFrameIndex s; generatedThumbnail :=
     generatedThumbnail s; progressOf := progressOf s; statusCheckIntervalRef
     := statusCheckIntervalRef s; timers := timers s; next_timer := next_timer
     s; pending := pending s; next_request := next_request s; next_url :=
     next_url s; requests := requests s; toasts := toasts s |}.
Definition setSubtitleData v (s : State) : State :=
  {| selectedFile := selectedFile s; videoSrc := videoSrc s; uploadedVideoId
     := uploadedVideoId s; videoData := videoData s; consoleLogs :=
     consoleLogs s; isUploading := isUploading s; uploadProgress :=
     uploadProgress s; activeTab := activeTab s; currentTime := currentTime s;
     subtitleData := v; showSubtitles := showSubtitles s; currentSubtitle :=
     currentSubtitle s; subtitleLanguage := subtitleLanguage s; subtitleStyle
     := subtitleStyle s; isGeneratingSubtitles := isGeneratingSubtitles s;
     brightnessLevel := brightnessLevel s; contrastLevel := contrastLevel s;
     previewFilters := previewFilters s; thumbnailFrames := thumbnailFrames s;
     selectedFrameIndex := selectedFrameIndex s; generatedThumbnail :=
     generatedThumbnail s; progressOf := progressOf s; statusCheckIntervalRef
     := statusCheckIntervalRef s; timers := timers s; next_timer := next_timer
     s; pending := pending s; next_request := next_request s; next_url :=
     next_url s; requests := requests s; toasts := toasts s |}.
Definition setShowSubtitles v (s : State) : State :=
  {| selectedFile := selectedFile s; videoSrc := videoSrc s; uploadedVideoId
     := uploadedVideoId s; videoData := videoData s; consoleLogs :=
     consoleLogs s; isUploading := isUploading s; uploadProgress :=
     uploadProgress s; activeTab := activeTab s; currentTime := currentTime s;
     subtitleData := subtitleData s; showSubtitles := v; currentSubtitle :=
     currentSubtitle s; subtitleLanguage := subtitleLanguage s; subtitleStyle
     := subtitleStyle s; isGeneratingSubtitles := isGeneratingSubtitles s;
     brightnessLevel := brightnessLevel s; contrastLevel := contrastLevel s;
     previewFilters := previewFilters s; thumbnailFrames := thumbnailFrames s;
     selectedFrameIndex := selectedFrameIndex s; generatedThumbnail :=
     generatedThumbnail s; progressOf := progressOf s; statusCheckIntervalRef
     := statusCheckIntervalRef s; timers := timers s; next_timer := next_timer
     s; pending := pending s; next_request := next_request s; next_url :=
     next_url s; requests := requests s; toasts := toasts s |}.
Definition setCurrentSubtitle v (s : State) : State :=
  {| selectedFile := selectedFile s; videoSrc := videoSrc s; uploadedVideoId
     := uploadedVideoId s; videoData := videoData s; consoleLogs :=
     consoleLogs s; isUploading := isUploading s; uploadProgress :=
     uploadProgress s; activeTab := activeTab s; currentTime := currentTime s;
     subtitleData := subtitleData s; showSubtitles := showSubtitles s;
     currentSubtitle := v; subtitleLanguage := subtitleLanguage s;
     subtitleStyle := subtitleStyle s; isGeneratingSubtitles :=
     isGeneratingSubtitles s; brightnessLevel := brightnessLevel s;
     contrastLevel := contrastLevel s; previewFilters := previewFilters s;
     thumbnailFrames := thumbnailFrames s; selectedFrameIndex :=
     selectedFrameIndex s; generatedThumbnail := generatedThumbnail s;
     progressOf := progressOf s; statusCheckIntervalRef :=
     statusCheckIntervalRef s; timers := timers s; next_timer := next_timer s;
     pending := pending s; next_request := next_request s; next_url :=
     next_url s; requests := requests s; toasts := toasts s |}.
Definition setSubtitleLanguage v (s : State) : State :=
  {| selectedFile := selectedFile s; videoSrc := videoSrc s; uploadedVideoId
     := uploadedVideoId s; videoData := videoData s; consoleLogs :=
     consoleLogs s; isUploading := isUploading s; uploadProgress :=
     uploadProgress s; activeTab := activeTab s; currentTime := currentTime s;
     subtitleData := subtitleData s; showSubtitles := showSubtitles s;
     currentSubtitle := currentSubtitle s; subtitleLanguage := v;
     subtitleStyle := subtitleStyle s; isGeneratingSubtitles :=
     isGeneratingSubtitles s; brightnessLevel := brightnessLevel s;
     contrastLevel := contrastLevel s; previewFilters := previewFilters s;
     thumbnailFrames := thumbnailFrames s; selectedFrameIndex :=
     selectedFrameIndex s; generatedThumbnail := generatedThumbnail s;
     progressOf := progressOf s; statusCheckIntervalRef :=
     statusCheckIntervalRef s; timers := timers s; next_timer := next_timer s;
     pending := pending s; next_request := next_request s; next_url :=
     next_url s; requests := requests s; toasts := toasts s |}.
Definition setSubtitleStyle v (s : State) : State :=
  {| selectedFile := selectedFile s; videoSrc := videoSrc s; uploadedVideoId
     := uploadedVideoId s; videoData := videoData s; consoleLogs :=
     consoleLogs s; isUploading := isUploading s; uploadProgress :=
     uploadProgress s; activeTab := activeTab s; currentTime := currentTime s;
     subtitleData := subtitleData s; showSubtitles := showSubtitles s;
     currentSubtitle := currentSubtitle s; subtitleLanguage :=
     subtitleLanguage s; subtitleStyle := v; isGeneratingSubtitles :=
     isGeneratingSubtitles s; brightnessLevel := brightnessLevel s;
     contrastLevel := contrastLevel s; previewFilters := previewFilters s;
     thumbnailFrames := thumbnailFrames s; selectedFrameIndex :=
     selectedFrameIndex s; generatedThumbnail := generatedThumbnail s;
     progressOf := progressOf s; statusCheckIntervalRef :=
     statusCheckIntervalRef s; timers := timers s; next_timer := next_timer s;
     pending := pending s; next_request := next_request s; next_url :=
     next_url s; requests := requests s; toasts := toasts s |}.
Definition setIsGeneratingSubtitles v (s : State) : State :=
  {| selectedFile := selectedFile s; videoSrc := videoSrc s; uploadedVideoId
     := uploadedVideoId s; videoData := videoData s; consoleLogs :=
     consoleLogs s; isUploading := isUploading s; uploadProgress :=
     uploadProgress s; activeTab := activeTab s; currentTime := currentTime s;
     subtitleData := subtitleData s; showSubtitles := showSubtitles s;
     currentSubtitle := currentSubtitle s; subtitleLanguage :=
     subtitleLanguage s; subtitleStyle := subtitleStyle s;
     isGeneratingSubtitles := v; brightnessLevel := brightnessLevel s;
     contrastLevel := contrastLevel s; previewFilters := previewFilters s;
     thumbnailFrames := thumbnailFrames s; selectedFrameIndex :=
     selectedFrameIndex s; generatedThumbnail := generatedThumbnail s;
     progressOf := progressOf s; statusCheckIntervalRef :=
     statusCheckIntervalRef s; timers := timers s; next_timer := next_timer s;
     pending := pending s; next_request := next_request s; next_url :=
     next_url s; requests := requests s; toasts := toasts s |}.
Definition setBrightnessLevel v (s : State) : State :=
  {| selectedFile := selectedFile s; videoSrc := videoSrc s; uploadedVideoId
     := uploadedVideoId s; videoData := videoData s; consoleLogs :=
     consoleLogs s; isUploading := isUploading s; uploadProgress :=
     uploadProgress s; activeTab := activeTab s; currentTime := currentTime s;
     subtitleData := subtitleData s; showSubtitles := showSubtitles s;
     currentSubtitle := currentSubtitle s; subtitleLanguage :=
     subtitleLanguage s; subtitleStyle := subtitleStyle s;
     isGeneratingSubtitles := isGeneratingSubtitles s; brightnessLevel := v;
     contrastLevel := contrastLevel s; previewFilters := previewFilters s;
     thumbnailFrames := thumbnailFrames s; selectedFrameIndex :=
     selectedFrameIndex s; generatedThumbnail := generatedThumbnail s;
     progressOf := progressOf s; statusCheckIntervalRef :=
     statusCheckIntervalRef s; timers := timers s; next_timer := next_timer s;
     pending := pending s; next_request := next_request s; next_url :=
     next_url s; requests := requests s; toasts := toasts s |}.
Definition setContrastLevel v (s : State) : State :=
  {| selectedFile := selectedFile s; videoSrc := videoSrc s; uploadedVideoId
     := uploadedVideoId s; videoData := videoData s; consoleLogs :=
     consoleLogs s; isUploading := isUploading s; uploadProgress :=
     uploadProgress s; activeTab := activeTab s; currentTime := currentTime s;
     subtitleData := subtitleData s; showSubtitles := showSubtitles s;
     currentSubtitle := currentSubtitle s; subtitleLanguage :=
     subtitleLanguage s; subtitleStyle := subtitleStyle s;
     isGeneratingSubtitles := isGeneratingSubtitles s; brightnessLevel :=
     brightnessLevel s; contrastLevel := v; previewFilters := previewFilters
     s; thumbnailFrames := thumbnailFrames s; selectedFrameIndex :=
     selectedFrameIndex s; generatedThumbnail := generatedThumbnail s;
     progressOf := progressOf s; statusCheckIntervalRef :=
     statusCheckIntervalRef s; timers := timers s; next_timer := next_timer s;
     pending := pending s; next_request := next_request s; next_url :=
     next_url s; requests := requests s; toasts := toasts s |}.
Definition setPreviewFilters v (s : State) : State :=
  {| selectedFile := selectedFile s; videoSrc := videoSrc s; uploadedVideoId
     := uploadedVideoId s; videoData := videoData s; consoleLogs :=
     consoleLogs s; isUploading := isUploading s; uploadProgress :=
     uploadProgress s; activeTab := activeTab s; currentTime := currentTime s;
     subtitleData := subtitleData s; showSubtitles := showSubtitles s;
     currentSubtitle := currentSubtitle s; subtitleLanguage :=
     subtitleLanguage s; subtitleStyle := subtitleStyle s;
     isGeneratingSubtitles := isGeneratingSubtitles s; brightnessLevel :=
     brightnessLevel s; contrastLevel := contrastLevel s; previewFilters := v;
     thumbnailFrames := thumbnailFrames s; selectedFrameIndex :=
     selectedFrameIndex s; generatedThumbnail := generatedThumbnail s;
     progressOf := progressOf s; statusCheckIntervalRef :=
     statusCheckIntervalRef s; timers := timers s; next_timer := next_timer s;
     pending := pending s; next_request := next_request s; next_url :=
     next_url s; requests := requests s; toasts := toasts s |}.
Definition setThumbnailFrames v (s : State) : State :=
  {| selectedFile := selectedFile s; videoSrc := videoSrc s; uploadedVideoId
     := uploadedVideoId s; videoData := videoData s; consoleLogs :=
     consoleLogs s; isUploading := isUploading s; uploadProgress :=
     uploadProgress s; activeTab := activeTab s; currentTime := currentTime s;
     subtitleData := subtitleData s; showSubtitles := showSubtitles s;
     currentSubtitle := currentSubtitle s; subtitleLanguage :=
     subtitleLanguage s; subtitleStyle := subtitleStyle s;
     isGeneratingSubtitles := isGeneratingSubtitles s; brightnessLevel :=
     brightnessLevel s; contrastLevel := contrastLevel s; previewFilters :=
     previewFilters s; thumbnailFrames := v; selectedFrameIndex :=
     selectedFrameIndex s; generatedThumbnail := generatedThumbnail s;
     progressOf := progressOf s; statusCheckIntervalRef :=
     statusCheckIntervalRef s; timers := timers s; next_timer := next_timer s;
     pending := pending s; next_request := next_request s; next_url :=
     next_url s; requests := requests s; toasts := toasts s |}.
Definition setSelectedFrameIndex v (s : State) : State :=
  {| selectedFile := selectedFile s; videoSrc := videoSrc s; uploadedVideoId
     := uploadedVideoId s; videoData := videoData s; consoleLogs :=
     consoleLogs s; isUploading := isUploading s; uploadProgress :=
     uploadProgress s; activeTab := activeTab s; currentTime := currentTime s;
     subtitleData := subtitleData s; showSubtitles := showSubtitles s;
     currentSubtitle := currentSubtitle s; subtitleLanguage :=
     subtitleLanguage s; subtitleStyle := subtitleStyle s;
     isGeneratingSubtitles := isGeneratingSubtitles s; brightnessLevel :=
     brightnessLevel s; contrastLevel := contrastLevel s; previewFilters :=
     previewFilters s; thumbnailFrames := thumbnailFrames s;
     selectedFrameIndex := v; generatedThumbnail := generatedThumbnail s;
     progressOf := progressOf s; statusCheckIntervalRef :=
     statusCheckIntervalRef s; timers := timers s; next_timer := next_timer s;
     pending := pending s; next_request := next_request s; next_url :=
     next_url s; requests := requests s; toasts := toasts s |}.
Definition setGeneratedThumbnail v (s : State) : State :=
  {| selectedFile := selectedFile s; videoSrc := videoSrc s; uploadedVideoId
     := uploadedVideoId s; videoData := videoData s; consoleLogs :=
     consoleLogs s; isUploading := isUploading s; uploadProgress :=
     uploadProgress s; activeTab := activeTab s; currentTime := currentTime s;
     subtitleData := subtitleData s; showSubtitles := showSubtitles s;
     currentSubtitle := currentSubtitle s; subtitleLanguage :=
     subtitleLanguage s; subtitleStyle := subtitleStyle s;
     isGeneratingSubtitles := isGeneratingSubtitles s; brightnessLevel :=
     brightnessLevel s; contrastLevel := contrastLevel s; previewFilters :=
     previewFilters s; thumbnailFrames := thumbnailFrames s;
     selectedFrameIndex := selectedFrameIndex s; generatedThumbnail := v;
     progressOf := progressOf s; statusCheckIntervalRef :=
     statusCheckIntervalRef s; timers := timers s; next_timer := next_timer s;
     pending := pending s; next_request := next_request s; next_url :=
     next_url s; requests := requests s; toasts := toasts s |}.
Definition set_progressOf v (s : State) : State :=
  {| selectedFile := selectedFile s; videoSrc := videoSrc s; uploadedVideoId
     := uploadedVideoId s; videoData := videoData s; consoleLogs :=
     consoleLogs s; isUploading := isUploading s; uploadProgress :=
     uploadProgress s; activeTab := activeTab s; currentTime := currentTime s;
     subtitleData := subtitleData s; showSubtitles := showSubtitles s;
     currentSubtitle := currentSubtitle s; subtitleLanguage :=
     subtitleLanguage s; subtitleStyle := subtitleStyle s;
     isGeneratingSubtitles := isGeneratingSubtitles s; brightnessLevel :=
     brightnessLevel s; contrastLevel := contrastLevel s; previewFilters :=
     previewFilters s; thumbnailFrames := thumbnailFrames s;
     selectedFrameIndex := selectedFrameIndex s; generatedThumbnail :=
     generatedThumbnail s; progressOf := v; statusCheckIntervalRef :=
     statusCheckIntervalRef s; timers := timers s; next_timer := next_timer s;
     pending := pending s; next_request := next_request s; next_url :=
     next_url s; requests := requests s; toasts := toasts s |}.
Definition set_statusCheckIntervalRef v (s : State) : State :=
  {| selectedFile := selectedFile s; videoSrc := videoSrc s; uploadedVideoId
     := uploadedVideoId s; videoData := videoData s; consoleLogs :=
     consoleLogs s; isUploading := isUploading s; uploadProgress :=
     uploadProgress s; activeTab := activeTab s; currentTime := currentTime s;
     subtitleData := subtitleData s; showSubtitles := showSubtitles s;
     currentSubtitle := currentSubtitle s; subtitleLanguage :=
     subtitleLanguage s; subtitleStyle := subtitleStyle s;
     isGeneratingSubtitles := isGeneratingSubtitles s; brightnessLevel :=
     brightnessLevel s; contrastLevel := contrastLevel s; previewFilters :=
     previewFilters s; thumbnailFrames := thumbnailFrames s;
     selectedFrameIndex := selectedFrameIndex s; generatedThumbnail :=
     generatedThumbnail s; progressOf := progressOf s; statusCheckIntervalRef
     := v; timers := timers s; next_timer := next_timer s; pending := pending
     s; next_request := next_request s; next_url := next_url s; requests :=
     requests s; toasts := toasts s |}.
Definition set_timers v (s : State) : State :=
  {| selectedFile := selectedFile s; videoSrc := videoSrc s; uploadedVideoId
     := uploadedVideoId s; videoData := videoData s; consoleLogs :=
     consoleLogs s; isUploading := isUploading s; uploadProgress :=
     uploadProgress s; activeTab := activeTab s; currentTime := currentTime s;
     subtitleData := subtitleData s; showSubtitles := showSubtitles s;
     currentSubtitle := currentSubtitle s; subtitleLanguage :=
     subtitleLanguage s; subtitleStyle := subtitleStyle s;
     isGeneratingSubtitles := isGeneratingSubtitles s; brightnessLevel :=
     brightnessLevel s; contrastLevel := contrastLevel s; previewFilters :=
     previewFilters s; thumbnailFrames := thumbnailFrames s;
     selectedFrameIndex := selectedFrameIndex s; generatedThumbnail :=
     generatedThumbnail s; progressOf := progressOf s; statusCheckIntervalRef
     := statusCheckIntervalRef s; timers := v; next_timer := next_timer s;
     pending := pending s; next_request := next_request s; next_url :=
     next_url s; requests := requests s; toasts := toasts s |}.
Definition set_next_timer v (s : State) : State :=
  {| selectedFile := selectedFile s; videoSrc := videoSrc s; uploadedVideoId
     := uploadedVideoId s; videoData := videoData s; consoleLogs :=
     consoleLogs s; isUploading := isUploading s; uploadProgress :=
     uploadProgress s; activeTab := activeTab s; currentTime := currentTime s;
     subtitleData := subtitleData s; showSubtitles := showSubtitles s;
     currentSubtitle := currentSubtitle s; subtitleLanguage :=
     subtitleLanguage s; subtitleStyle := subtitleStyle s;
     isGeneratingSubtitles := isGeneratingSubtitles s; brightnessLevel :=
     brightnessLevel s; contrastLevel := contrastLevel s; previewFilters :=
     previewFilters s; thumbnailFrames := thumbnailFrames s;
     selectedFrameIndex := selectedFrameIndex s; generatedThumbnail :=
     generatedThumbnail s; progressOf := progressOf s; statusCheckIntervalRef
     := statusCheckIntervalRef s; timers := timers s; next_timer := v; pending
     := pending s; next_request := next_request s; next_url := next_url s;
     requests := requests s; toasts := toasts s |}.
Definition set_pending v (s : State) : State :=
  {| selectedFile := selectedFile s; videoSrc := videoSrc s; uploadedVideoId
     := uploadedVideoId s; videoData := videoData s; consoleLogs :=
     consoleLogs s; isUploading := isUploading s; uploadProgress :=
     uploadProgress s; activeTab := activeTab s; currentTime := currentTime s;
     subtitleData := subtitleData s; showSubtitles := showSubtitles s;
     currentSubtitle := currentSubtitle s; subtitleLanguage :=
     subtitleLanguage s; subtitleStyle := subtitleStyle s;
     isGeneratingSubtitles := isGeneratingSubtitles s; brightnessLevel :=
     brightnessLevel s; contrastLevel := contrastLevel s; previewFilters :=
     previewFilters s; thumbnailFrames := thumbnailFrames s;
     selectedFrameIndex := selectedFrameIndex s; generatedThumbnail :=
     generatedThumbnail s; progressOf := progressOf s; statusCheckIntervalRef
     := statusCheckIntervalRef s; timers := timers s; next_timer := next_timer
     s; pending := v; next_request := next_request s; next_url := next_url s;
     requests := requests s; toasts := toasts s |}.
Definition set_next_request v (s : State) : State :=
  {| selectedFile := selectedFile s; videoSrc := videoSrc s; uploadedVideoId
     := uploadedVideoId s; videoData := videoData s; consoleLogs :=
     consoleLogs s; isUploading := isUploading s; uploadProgress :=
     uploadProgress s; activeTab := activeTab s; currentTime := currentTime s;
     subtitleData := subtitleData s; showSubtitles := showSubtitles s;
     currentSubtitle := currentSubtitle s; subtitleLanguage :=
     subtitleLanguage s; subtitleStyle := subtitleStyle s;
     isGeneratingSubtitles := isGeneratingSubtitles s; brightnessLevel :=
     brightnessLevel s; contrastLevel := contrastLevel s; previewFilters :=
     previewFilters s; thumbnailFrames := thumbnailFrames s;
     selectedFrameIndex := selectedFrameIndex s; generatedThumbnail :=
     generatedThumbnail s; progressOf := progressOf s; statusCheckIntervalRef
     := statusCheckIntervalRef s; timers := timers s; next_timer := next_timer
     s; pending := pending s; next_request := v; next_url := next_url s;
     requests := requests s; toasts := toasts s |}.
Definition set_next_url v (s : State) : State :=
  {| selectedFile := selectedFile s; videoSrc := videoSrc s; uploadedVideoId
     := uploadedVideoId s; videoData := videoData s; consoleLogs :=
     consoleLogs s; isUploading := isUploading s; uploadProgress :=
     uploadProgress s; activeTab := activeTab s; currentTime := currentTime s;
     subtitleData := subtitleData s; showSubtitles := showSubtitles s;
     currentSubtitle := currentSubtitle s; subtitleLanguage :=
     subtitleLanguage s; subtitleStyle := subtitleStyle s;
     isGeneratingSubtitles := isGeneratingSubtitles s; brightnessLevel :=
     brightnessLevel s; contrastLevel := contrastLevel s; previewFilters :=
     previewFilters s; thumbnailFrames := thumbnailFrames s;
     selectedFrameIndex := selectedFrameIndex s; generatedThumbnail :=
     generatedThumbnail s; progressOf := progressOf s; statusCheckIntervalRef
     := statusCheckIntervalRef s; timers := timers s; next_timer := next_timer
     s; pending := pending s; next_request := next_request s; next_url := v;
     requests := requests s; toasts := toasts s |}.
Definition set_requests v (s : State) : State :=
  {| selectedFile := selectedFile s; videoSrc := videoSrc s; uploadedVideoId
     := uploadedVideoId s; videoData := videoData s; consoleLogs :=
     consoleLogs s; isUploading := isUploading s; uploadProgress :=
     uploadProgress s; activeTab := activeTab s; currentTime := currentTime s;
     subtitleData := subtitleData s; showSubtitles := showSubtitles s;
     currentSubtitle := currentSubtitle s; subtitleLanguage :=
     subtitleLanguage s; subtitleStyle := subtitleStyle s;
     isGeneratingSubtitles := isGeneratingSubtitles s; brightnessLevel :=
     brightnessLevel s; contrastLevel := contrastLevel s; previewFilters :=
     previewFilters s; thumbnailFrames := thumbnailFrames s;
     selectedFrameIndex := selectedFrameIndex s; generatedThumbnail :=
     generatedThumbnail s; progressOf := progressOf s; statusCheckIntervalRef
     := statusCheckIntervalRef s; timers := timers s; next_timer := next_timer
     s; pending := pending s; next_request := next_request s; next_url :=
     next_url s; requests := v; toasts := toasts s |}.
Definition set_toasts v (s : State) : State :=
  {| selectedFile := selectedFile s; videoSrc := videoSrc s; uploadedVideoId
     := uploadedVideoId s; videoData := videoData s; consoleLogs :=
     consoleLogs s; isUploading := isUploading s; uploadProgress :=
     uploadProgress s; activeTab := activeTab s; currentTime := currentTime s;
     subtitleData := subtitleData s; showSubtitles := showSubtitles s;
     currentSubtitle := currentSubtitle s; subtitleLanguage :=
     subtitleLanguage s; subtitleStyle := subtitleStyle s;
     isGeneratingSubtitles := isGeneratingSubtitles s; brightnessLevel :=
     brightnessLevel s; contrastLevel := contrastLevel s; previewFilters :=
     previewFilters s; thumbnailFrames := thumbnailFrames s;
     selectedFrameIndex := selectedFrameIndex s; generatedThumbnail :=
     generatedThumbnail s; progressOf := progressOf s; statusCheckIntervalRef
     := statusCheckIntervalRef s; timers := timers s; next_timer := next_timer
     s; pending := pending s; next_request := next_request s; next_url :=
     next_url s; requests := requests s; toasts := v |}.

(** The initial value of every progress bar. *)
Definition noProgress : ProgressState :=
  {| visible := false; percentage := 0; status := "" |}.

(** [brightnessLevel / 100] in a template literal: the quotient is a
    double, printed as the language prints numbers. *)
Definition level_fraction (level : Z) : string :=
  Binary64.b64_toString
    (SFdiv Binary64.prec Binary64.emax (Binary64.b64_of_Z level)
           (Binary64.b64_of_Z 100)).

(** The [filterString] of the effect that follows the sliders. *)
Definition filterString (brightnessLevel contrastLevel : Z) : string :=
  "brightness(" ++ level_fraction brightnessLevel ++ ") contrast(" ++
  level_fraction contrastLevel ++ ")".

(** The component after it has mounted: the initial values of [useState],
    and in [Player] the preview filter that the effect on the sliders
    sets on mount; empty refs, no timer set (handles count from 1), no
    call under way. *)
Definition initial (rev : Revision) : State :=
  {| selectedFile := None; videoSrc := None; uploadedVideoId := None;
     videoData := None;
     consoleLogs :=
       [ {| message := match rev with
                       | Pages => "[System] SnipX Video Editor API Ready"
                       | Player => "[System] SnipX Advanced Video Editor Ready"
                       end;
            type := info |} ];
     isUploading := false; uploadProgress := 0;
     activeTab := match rev with Pages => "audio" | Player => "upload" end;
     currentTime := of_Z 0; subtitleData := None; showSubtitles := true;
     currentSubtitle := ""; subtitleLanguage := "en";
     subtitleStyle := match rev with Pages => "clean" | Player => "modern" end;
     isGeneratingSubtitles := false;
     brightnessLevel := 100; contrastLevel := 100;
     previewFilters := match rev with
                       | Pages => ""
                       | Player => filterString 100 100
                       end;
     thumbnailFrames := []; selectedFrameIndex := None;
     generatedThumbnail := None; progressOf := fun _ => noProgress;
     statusCheckIntervalRef := None; timers := []; next_timer := 1;
     pending := []; next_request := 0; next_url := 0; requests := [];
     toasts := [] |}.

(** One progress bar is written through its setter. *)
Definition progressSetter (f : Feature) (update : ProgressState -> ProgressState)
  (s : State) : State :=
  set_progressOf
    (fun g => if Feature_eqb g f then update (progressOf s g) else progressOf s g)
    s.

(** [logToConsole] *)
Definition logToConsole (msg : string) (t : LogType) (s : State) : State :=
  setConsoleLogs (consoleLogs s ++ [ {| message := msg; type := t |} ]) s.

(** [toast.error], [toast.success] *)
Definition toast_error (msg : string) (s : State) : State :=
  set_toasts (toasts s ++ [ErrorToast msg]) s.

Definition toast_success (msg : string) (s : State) : State :=
  set_toasts (toasts s ++ [SuccessToast msg]) s.

(** [setInterval] and [setTimeout]: the new timer gets a fresh handle.
    Handles are positive integers, so the truth test that the component
    makes on a stored handle before clearing it always passes. *)
Definition setTimer (repeats : bool) (cb : Callback) (delay : Z) (s : State)
  : nat * State :=
  let id := next_timer s in
  (id,
   set_next_timer (S id)
     (set_timers
        (timers s ++ [ {| timer_id := id; timer_delay := delay;
                          timer_repeats := repeats; timer_callback := cb |} ])
        s)).

Definition setInterval := setTimer true.
Definition setTimeout := setTimer false.

(** [clearInterval]: a handle that is not set is ignored. *)
Definition clearInterval (id : nat) (s : State) : State :=
  set_timers (filter (fun t => negb (Nat.eqb (timer_id t) id)) (timers s)) s.

(** An [ApiService] call is made and the caller suspends on it. *)
Definition call (r : Request) (k : Continuation) (s : State) : State :=
  let id := next_request s in
  set_next_request (S id)
    (set_pending (pending s ++ [(id, k)])
       (set_requests (requests s ++ [r]) s)).

(** A truthy string: present and not empty. *)
Definition truthy (v : option string) : bool :=
  match v with
  | Some x => negb (String.eqb x "")
  | None => false
  end.

(** [error instanceof Error ? error.message : fallback] *)
Definition error_message (reason : option string) (fallback : string) : string :=
  match reason with
  | Some m => m
  | None => fallback
  end.

(** [Math.round] and [Math.min] on percentages *)
Definition Math_round (q : Q) : Z := Qfloor (q + (1 # 2)).
Definition Math_min (a b : Q) : Q := if Qle_bool a b then a else b.

(** *** [startStatusCheck] *)

(** [checkStatus] up to its [await]: the status request goes out. *)
Definition checkStatus (videoId : string) (s : State) : State :=
  call (GetVideoStatus videoId) (AwaitStatus videoId) s.

(** [checkStatus] after its [await]. *)
Definition checkStatus_settled (videoId : string) (r : Response) (s : State)
  : State :=
  match r with
  | Status data =>
      let s := setVideoData (Some data) s in
      if String.eqb (vd_status data) "completed"
         || String.eqb (vd_status data) "failed"
      then
        let s :=
          match statusCheckIntervalRef s with
          | Some id => set_statusCheckIntervalRef None (clearInterval id s)
          | None => s
          end in
        if String.eqb (vd_status data) "completed"
        then logToConsole "Video processing completed successfully!" success s
        else logToConsole
               ("Video processing failed: " ++
                (if truthy (vd_error data)
                 then error_message (vd_error data) ""
                 else "Unknown error"))
               error s
      else s
  | Rejected reason =>
      logToConsole
        ("Status check failed: " ++ error_message reason "Unknown error")
        error s
  | _ => s
  end.

Definition startStatusCheck (videoId : string) (s : State) : State :=
  let s := checkStatus videoId s in
  let '(id, s) := setInterval (CheckStatus videoId) 2000 s in
  set_statusCheckIntervalRef (Some id) s.

(** *** [uploadVideo] *)

(** Up to the [await]: the ramp is set, the upload goes out. *)
Definition uploadVideo (file : File) (s : State) : State :=
  let s := setIsUploading true s in
  let s := setUploadProgress 0 s in
  let s := logToConsole
             ("Starting upload: " ++ file_name file ++ " (" ++
              formatFileSize (file_size file) ++ ")") info s in
  let '(progressInterval, s) := setInterval UploadRamp 200 s in
  call (UploadVideo file) (AwaitUpload progressInterval) s.

(** After the [await]: the [try] block continues on success, the [catch]
    block runs on rejection, [finally] runs in both cases. *)
Definition uploadVideo_settled (rev : Revision) (progressInterval : nat)
  (r : Response) (s : State) : State :=
  let s :=
    match r with
    | Uploaded video_id =>
        let s := clearInterval progressInterval s in
        let s := setUploadProgress 100 s in
        if truthy video_id then
          let id := error_message video_id "" in
          let s := setUploadedVideoId video_id s in
          let s := logToConsole ("Upload successful! Video ID: " ++ id) success s in
          let s := startStatusCheck id s in
          match rev with
          | Pages => s
          | Player => snd (setTimeout SwitchToEnhancement 1000 s)
          end
        else s
    | Rejected reason =>
        let s := logToConsole
                   ("Upload failed: " ++ error_message reason "Unknown error")
                   error s in
        toast_error "Upload failed. Please try again." s
    | _ => s
    end in
  setIsUploading false s.

(** The upload ramp: [prev => Math.min(prev + Math.random() * 15, 95)] *)
Definition uploadRamp_tick (random : Q) (s : State) : State :=
  setUploadProgress (Math_min (Qred (uploadProgress s + random * 15)) 95) s.

(** *** [processVideo] *)

Definition processVideo (options : Options) (setter : Feature)
  (successMessage : string) (s : State) : State :=
  if negb (truthy (uploadedVideoId s)) then
    toast_error "Please upload a video first" s
  else
    let s := progressSetter setter
               (fun _ => {| visible := true; percentage := 0;
                            status := "Starting processing..." |}) s in
    call (ProcessVideo (error_message (uploadedVideoId s) "") options)
         (AwaitProcess setter successMessage (uploadedVideoId s)) s.

Definition processVideo_settled (setter : Feature) (successMessage : string)
  (capturedVideoId : option string) (r : Response) (s : State) : State :=
  match r with
  | Processing =>
      snd (setInterval
             (ProcessingRamp setter successMessage capturedVideoId
                             (Binary64.b64_of_Z 0)) 300 s)
  | Rejected reason =>
      let errorMessage := error_message reason "Processing failed" in
      let s := logToConsole ("Processing failed: " ++ errorMessage) error s in
      let s := progressSetter setter
                 (fun prev => {| visible := visible prev;
                                 percentage := percentage prev;
                                 status := "Error: " ++ errorMessage |}) s in
      toast_error errorMessage s
  | _ => s
  end.

(** The closure variable [progress] lives in the timer. *)
Definition set_callback (id : nat) (cb : Callback) (s : State) : State :=
  set_timers
    (map (fun t => if Nat.eqb (timer_id t) id
                   then {| timer_id := id; timer_delay := timer_delay t;
                           timer_repeats := timer_repeats t;
                           timer_callback := cb |}
                   else t)
         (timers s)) s.

(** [progress += Math.random() * 10], on doubles.  [random] stands for
    the double that [Math.random()] returned: the double of that value,
    or the correctly rounded quotient of two integers below 2^53. *)
Definition ramp_next (progress : spec_float) (random : Q) : spec_float :=
  SFadd Binary64.prec Binary64.emax progress
    (SFmul Binary64.prec Binary64.emax (Binary64.b64_of_Q random)
           (Binary64.b64_of_Z 10)).

(** [progress >= 100] *)
Definition ramp_finished (progress : spec_float) : bool :=
  SFleb (Binary64.b64_of_Z 100) progress.

(** One tick of the ramp.  [Math.random()] is in [0, 1), so the counter is
    a finite double, and the percentage shown is the rational that it
    is. *)
Definition processingRamp_tick (progressInterval : nat) (setter : Feature)
  (successMessage : string) (capturedVideoId : option string)
  (progress : spec_float) (random : Q) (s : State) : State :=
  let progress := ramp_next progress random in
  if ramp_finished progress then
    let s := clearInterval progressInterval s in
    let s := progressSetter setter
               (fun prev => {| visible := visible prev; percentage := 100;
                               status := successMessage |}) s in
    let s := logToConsole successMessage success s in
    if truthy capturedVideoId
    then startStatusCheck (error_message capturedVideoId "") s
    else s
  else
    let s := set_callback progressInterval
               (ProcessingRamp setter successMessage capturedVideoId progress) s in
    progressSetter setter
      (fun prev => {| visible := visible prev;
                      percentage := Binary64.b64_value progress;
                      status := toString (Math_round (Binary64.b64_value progress))
                                ++ "% - Processing..." |}) s.

(** *** [generateAdvancedSubtitles] ([Player] revision) *)

(** [getLanguageName] *)
Definition getLanguageName (code : string) : string :=
  match find (fun l => String.eqb (fst l) code) languageOptions with
  | Some lang => snd lang
  | None => "English"
  end.

Definition stages : list (Q * string) :=
  [ (20, "Extracting audio track...");
    (40, "Running Whisper speech recognition...");
    (60, "Processing word-level timestamps...");
    (80, "Generating subtitle formats...");
    (100, "Subtitles generated successfully!") ].

(** Up to the first [await]: the first one-second pause is set. *)
Definition generateAdvancedSubtitles (s : State) : State :=
  if negb (truthy (uploadedVideoId s)) then
    toast_error "Please upload a video first" s
  else
    let s := setIsGeneratingSubtitles true s in
    let s := progressSetter Subtitles
               (fun _ => {| visible := true; percentage := 0;
                            status := "Initializing Whisper AI..." |}) s in
    let s := logToConsole
               ("Starting advanced subtitle generation: Language=" ++
                subtitleLanguage s ++ ", Style=" ++ subtitleStyle s) info s in
    snd (setTimeout (SubtitleStage stages (subtitleLanguage s)) 1000 s).

(** After a pause: the stage is shown; then either the next pause is set
    or, after the last stage, the track is generated and stored.  When the
    generator throws, the [catch] block logs and shows the message of the
    error; [finally] drops the flag in both cases. *)
Definition subtitleStage_tick (remaining : list (Q * string)) (lang : string)
  (s : State) : State :=
  match remaining with
  | [] => s
  | stage :: rest =>
      let s := progressSetter Subtitles
                 (fun prev => {| visible := visible prev;
                                 percentage := fst stage;
                                 status := snd stage |}) s in
      match rest with
      | _ :: _ => snd (setTimeout (SubtitleStage rest lang) 1000 s)
      | [] =>
          let s :=
            match generateMockSubtitleData lang with
            | Returns mockSubtitleData =>
                let s := setSubtitleData (Some mockSubtitleData) s in
                let s := logToConsole
                           ("Advanced subtitles generated in " ++
                            getLanguageName lang ++ " with word-level timing")
                           success s in
                toast_success "Subtitles generated with Whisper AI!" s
            | Throws errorMessage =>
                let s := logToConsole
                           ("Subtitle generation failed: " ++ errorMessage)
                           error s in
                toast_error errorMessage s
            end in
          setIsGeneratingSubtitles false s
      end
  end.

(** *** [handleFileSelect] *)

(** The handler up to the first [await] it suspends on.  [Pages] has no
    subtitle or enhancement state to reset. *)
Definition handleFileSelect (rev : Revision) (file : option File) (s : State)
  : State :=
  match file with
  | Some file =>
      let s := setSelectedFile (Some file) s in
      let objectUrl := next_url s in
      let s := set_next_url (S objectUrl) s in
      let s := setVideoSrc (Some objectUrl) s in
      let s := setUploadedVideoId None s in
      let s := setVideoData None s in
      let s :=
        match rev with
        | Pages => s
        | Player => setCurrentSubtitle "" (setSubtitleData None s)
        end in
      let s := setGeneratedThumbnail None s in
      let s := setThumbnailFrames [] s in
      let s := setSelectedFrameIndex None s in
      let s :=
        match rev with
        | Pages => s
        | Player =>
            setPreviewFilters "" (setContrastLevel 100 (setBrightnessLevel 100 s))
        end in
      uploadVideo file s
  | None => s
  end.

(** The cleanup of the effect, as far as the status poll goes.  In
    [Player] the effect depends on [videoSrc], so the cleanup also runs
    when a render commits a new [videoSrc]; it clears the interval named
    by the ref and leaves the ref as it is.  In [Pages] it runs at unmount
    only. *)
Definition effect_cleanup (s : State) : State :=
  match statusCheckIntervalRef s with
  | Some id => clearInterval id s
  | None => s
  end.

(** *** The subtitle player ([Player] revision) *)

(** [handleVideoTimeUpdate] *)
Definition handleVideoTimeUpdate (time : N) (s : State) : State :=
  let s := setCurrentTime time s in
  match subtitleData s with
  | Some data =>
      if showSubtitles s
      then setCurrentSubtitle (activeCueText (cues data) time) s
      else s
  | None => s
  end.

(** The overlay: [showSubtitles && currentSubtitle && <div>...</div>],
    inside the player that is rendered when [videoSrc] is set. *)
Definition overlay (s : State) : option string :=
  match videoSrc s with
  | Some _ =>
      if showSubtitles s && negb (String.eqb (currentSubtitle s) "")
      then Some (currentSubtitle s)
      else None
  | None => None
  end.

(** *** The event loop *)

(** What the environment can do to the component; each event is one task
    that runs to completion. *)
Inductive Event : Type :=
  (** the file input changes: [handleFileSelect] *)
  | FileSelected (file : option File)
  (** a processing handler of [Pages] calls [processVideo] *)
  | ProcessRequested (options : Options) (setter : Feature)
                     (successMessage : string)
  (** the generate button of [Player]: [generateAdvancedSubtitles] *)
  | GenerateSubtitlesClicked
  (** the language selector of [Player]: [setSubtitleLanguage] *)
  | LanguageSelected (code : string)
  (** a timer is due; [random] is what [Math.random] returns in it *)
  | TimerFired (id : nat) (random : Q)
  (** an [ApiService] call settles *)
  | Settled (request : nat) (r : Response)
  (** the video element reports its playback time *)
  | TimeUpdate (time : N)
  (** the show/hide button: [setShowSubtitles(!showSubtitles)] *)
  | SubtitlesToggled
  (** the sliders: [setBrightnessLevel(Number(e.target.value))] and
      [setContrastLevel(...)]; a range input gives whole numbers *)
  | BrightnessChanged (level : Z)
  | ContrastChanged (level : Z)
  (** the button "Reset to Original" of [Player] *)
  | EnhancementReset.

Definition find_timer (id : nat) (s : State) : option Timer :=
  find (fun t => Nat.eqb (timer_id t) id) (timers s).

Definition find_pending (request : nat) (s : State) : option Continuation :=
  option_map snd (find (fun p => Nat.eqb (fst p) request) (pending s)).

Definition remove_pending (request : nat) (s : State) : State :=
  set_pending (filter (fun p => negb (Nat.eqb (fst p) request)) (pending s)) s.

(** A timer that has been cleared does not fire; a timeout fires once. *)
Definition fire (id : nat) (random : Q) (s : State) : State :=
  match find_timer id s with
  | None => s
  | Some t =>
      let s := if timer_repeats t then s else clearInterval id s in
      match timer_callback t with
      | UploadRamp => uploadRamp_tick random s
      | CheckStatus videoId => checkStatus videoId s
      | ProcessingRamp setter msg captured progress =>
          processingRamp_tick id setter msg captured progress random s
      | SwitchToEnhancement =>
          logToConsole "Switched to Enhancement tab - ready for processing" info
            (setActiveTab "enhancement" s)
      | SubtitleStage remaining lang => subtitleStage_tick remaining lang s
      end
  end.

Definition settle (rev : Revision) (request : nat) (r : Response) (s : State)
  : State :=
  match find_pending request s with
  | None => s
  | Some k =>
      let s := remove_pending request s in
      match k with
      | AwaitUpload progressInterval =>
          uploadVideo_settled rev progressInterval r s
      | AwaitStatus videoId => checkStatus_settled videoId r s
      | AwaitProcess setter msg captured =>
          processVideo_settled setter msg captured r s
      end
  end.

(** The handler of an event, up to the point where it returns or
    suspends.  An event of a control that the revision does not have
    changes nothing. *)
Definition handle (rev : Revision) (e : Event) (s : State) : State :=
  match e, rev with
  | FileSelected file, Pages => handleFileSelect rev file s
  | FileSelected file, Player =>
      let s := handleFileSelect rev file s in
      match file with
      | Some _ => effect_cleanup s
      | None => s
      end
  | ProcessRequested options setter msg, Pages =>
      processVideo options setter msg s
  | GenerateSubtitlesClicked, Player => generateAdvancedSubtitles s
  | LanguageSelected code, Player => setSubtitleLanguage code s
  | TimerFired id random, _ => fire id random s
  | Settled request r, _ => settle rev request r s
  | TimeUpdate time, Player => handleVideoTimeUpdate time s
  | SubtitlesToggled, Player => setShowSubtitles (negb (showSubtitles s)) s
  | BrightnessChanged level, _ => setBrightnessLevel level s
  | ContrastChanged level, _ => setContrastLevel level s
  | EnhancementReset, Player => setContrastLevel 100 (setBrightnessLevel 100 s)
  | _, _ => s
  end.

(** The effect of [Player] with the dependencies
    [[brightnessLevel, contrastLevel]]: after a render in which one of the
    two has changed it sets the preview filter anew.  ([Pages] has the
    sliders and no preview.) *)
Definition previewFilters_effect (before after : State) : State :=
  if Z.eqb (brightnessLevel before) (brightnessLevel after)
     && Z.eqb (contrastLevel before) (contrastLevel after)
  then after
  else setPreviewFilters
         (filterString (brightnessLevel after) (contrastLevel after)) after.

(** One task of the event loop: the handler, then the effects of the
    render that follows. *)
Definition step (rev : Revision) (e : Event) (s : State) : State :=
  match rev with
  | Pages => handle rev e s
  | Player => previewFilters_effect s (handle rev e s)
  end.

Definition run (rev : Revision) (events : list Event) (s : State) : State :=
  fold_left (fun s e => step rev e s) events s.

(** *** Observations *)

(** The status polls that are set, with the job each one asks about. *)
Definition pollers (s : State) : list (nat * string) :=
  flat_map (fun t => match timer_callback t with
                     | CheckStatus videoId => [(timer_id t, videoId)]
                     | _ => []
                     end) (timers s).

(** The number of status requests made so far for a job. *)
Definition status_fetches (videoId : string) (s : State) : nat :=
  List.length
    (filter (fun r => match r with
                      | GetVideoStatus v => String.eqb v videoId
                      | _ => false
                      end) (requests s)).

(** The two values that the effect of the preview filter watches. *)
Definition levels (s : State) : Z * Z := (brightnessLevel s, contrastLevel s).

(** Is the upload ramp with this handle still set? *)
Definition ramp_set (id : nat) (s : State) : bool :=
  existsb (fun t => Nat.eqb (timer_id t) id) (timers s).

End WithNumber.

Arguments State N : clear implicits.
Arguments Event N : clear implicits.

End Page.

Import JS JS.Exact JS.Binary64 Subtitle.

(* ================================================================== *)
(** ** The specification's own words *)
(* ================================================================== *)

Module Reference.

(** A field of a timestamp: at least two (or three) digits, with zeros in
    front of a shorter numeral. *)
Definition two_digits (n : Z) : string :=
  if (n <? 10)%Z then "0" ++ numeral n else numeral n.





Fixpoint free_of (sep : ascii) (s : string) : bool :=
  match s with
  | EmptyString => true
  | String c rest => negb (Ascii.eqb c sep) && free_of sep rest
  end.


Section WithNumber.

Context {N : Type} `{Number N}.



(** *** Reading SRT text back

    The repository only writes SRT; section 4.4 of the specification asks
    that what it writes can be read back.  The reader below splits the
    text into lines, groups the lines between blank lines into blocks, and
    reads a block as a numeral, a timing line
    [HH:MM:SS,mmm --> HH:MM:SS,mmm] and the text. *)

(** [s.split(sep)] for a separator of one character *)
Fixpoint split_on (sep : ascii) (s : string) : list string :=
  match s with
  | EmptyString => [""]
  | String c rest =>
      match split_on sep rest with
      | piece :: pieces =>
          if Ascii.eqb c sep then "" :: piece :: pieces
          else String c piece :: pieces
      | [] => []
      end
  end.











(** [a < b] *)
Definition lt (a b : N) : Prop := leb a b = true /\ leb b a = false.

(** The invariant of a track in the data model: every cue starts before
    it ends, and ends before the next one starts. *)
Fixpoint chronological (cs : list (SubtitleCue N)) : Prop :=
  match cs with
  | [] => True
  | c :: rest =>
      lt (cue_start c) (cue_end c) /\
      match rest with
      | [] => True
      | next :: _ => lt (cue_end c) (cue_start next)
      end /\
      chronological rest
  end.

(** The cues of a track stand in the order of their starts. *)
Fixpoint starts_ordered (cs : list (SubtitleCue N)) : Prop :=
  match cs with
  | [] => True
  | c :: rest =>
      match rest with
      | [] => True
      | next :: _ => leb (cue_start c) (cue_start next) = true
      end /\
      starts_ordered rest
  end.

(** What the lookup needs of [<=]: it is transitive, and a number that
    compares with another compares with itself (NaN compares with none). *)
Record LawfulOrder : Prop := {
  leb_trans : forall a b c : N,
    leb a b = true -> leb b c = true -> leb a c = true;
  leb_refl_r : forall a b : N, leb a b = true -> leb b b = true
}.

(** *** A polling run on its own *)

(** A terminal status. *)
Definition terminal (data : Page.VideoData) : bool :=
  String.eqb (Page.vd_status data) "completed"
  || String.eqb (Page.vd_status data) "failed".

(** The interval that [startStatusCheck videoId] sets: it repeats every
    two seconds and fetches the status of [videoId]. *)
Definition poll_timer (id : nat) (videoId : string) : Page.Timer :=
  {| Page.timer_id := id; Page.timer_delay := 2000;
     Page.timer_repeats := true;
     Page.timer_callback := Page.CheckStatus videoId |}.

(** The only timer that may be set is the poll [id] of [videoId], which
    the ref then names, and the only calls under way are status fetches
    for [videoId]. *)
Definition polling_alone (videoId : string) (id : nat) (s : Page.State N)
  : Prop :=
  (forall t, In t (Page.timers s) -> t = poll_timer id videoId)
  /\ (Page.timers s <> [] -> Page.statusCheckIntervalRef s = Some id)
  /\ (forall p, In p (Page.pending s) -> snd p = Page.AwaitStatus videoId).

(** The events that come from the runtime alone: a timer is due, a call
    settles. *)
Definition from_runtime (e : Page.Event N) : bool :=
  match e with
  | Page.TimerFired _ _ | Page.Settled _ _ => true
  | _ => false
  end.

End WithNumber.

Arguments LawfulOrder N {_}.

End Reference.

Import Reference.

(* ================================================================== *)
(** ** Sample sessions *)
(* ================================================================== *)

Module Scenario.
Import Page.

Section WithNumber.

Context {N : Type} `{Number N}.

Definition clip : File := {| file_name := "clip.mp4"; file_size := 10485760 |}.
Definition other_clip : File := {| file_name := "other.mp4"; file_size := 2048 |}.

(** A status response for job [v1]. *)
Definition status_of (st : string) : VideoData :=
  {| vd_id := "v1"; vd_filename := "clip.mp4"; vd_status := st;
     vd_metadata := None; vd_outputs := None; vd_error := None |}.

(** The options of [handleProcessAudio]. *)
Definition audio_options : Options :=
  {| cut_silence := Some true; enhance_audio := Some true;
     generate_thumbnail := None; generate_subtitles := None;
     summarize := None |}.

(** A file is selected (the upload ramp is timer 1), the upload succeeds
    with id [v1] (request 0), and the first status fetch (request 1)
    reports [processing]: the poll of the upload is timer 2. *)
Definition uploaded : list (Event N) :=
  [ FileSelected (Some clip);
    Settled 0 (Uploaded (Some "v1"));
    Settled 1 (Status (status_of "processing")) ].

(** Audio processing is requested and accepted (request 2); its ramp is
    timer 3. *)
Definition processing_started : list (Event N) :=
  uploaded ++
  [ ProcessRequested audio_options Audio "Audio processing completed successfully";
    Settled 2 Processing ].

(** The ramp runs three of its steps, of 5 each, ... *)
Definition processing_under_way : list (Event N) :=
  processing_started ++ repeat (TimerFired 3 (1 # 2)) 3.

(** ... or all eleven that it takes to pass 100 with steps of 9.9, and
    then starts a status poll again: timer 4, with its fetch, request 3. *)
Definition processing_finished : list (Event N) :=
  processing_started ++ repeat (TimerFired 3 (99 # 100)) 11.

(** The fetch of the second poll (request 3) reports [completed]. *)
Definition job_completed : list (Event N) :=
  processing_finished ++ [ Settled 3 (Status (status_of "completed")) ].

(** The poll that is still set (timer 2) fires, and its own fetch
    (request 4) reports [completed] as well. *)
Definition leaked_poll_sees_completed : list (Event N) :=
  job_completed ++
  [ TimerFired 2 0; Settled 4 (Status (status_of "completed")) ].

(** In the revision with the player: after an upload, subtitles are
    generated; the five pauses of the generation are timers 4 to 8. *)
Definition subtitles_generated : list (Event N) :=
  [ FileSelected (Some clip);
    Settled 0 (Uploaded (Some "v1"));
    GenerateSubtitlesClicked;
    TimerFired 4 0; TimerFired 5 0; TimerFired 6 0; TimerFired 7 0;
    TimerFired 8 0 ].

(** An upload that the server rejects. *)
Definition upload_rejected : list (Event N) :=
  [ FileSelected (Some clip); Settled 0 (Rejected (Some "Network Error")) ].

(** A player with the English track loaded and nothing shown yet. *)
Definition english_loaded : State N :=
  match generateMockSubtitleData "en" with
  | Returns track =>
      setSubtitleData (Some track) (setVideoSrc (Some 0%nat) (initial Player))
  | Throws _ => setVideoSrc (Some 0%nat) (initial Player)
  end.

(** The caption is shown at second 1, hidden, playback reaches the gap at
    3.75 s, and the caption is shown again. *)
Definition hide_then_show : list (Event N) :=
  [ TimeUpdate (of_Z 1); SubtitlesToggled; TimeUpdate (decimal 375 2);
    SubtitlesToggled ].

(** Two cues that overlap, from 0 to 5 s and from 3 to 8 s. *)
Definition overlapping : list (SubtitleCue N) :=
  [ {| cue_start := of_Z 0; cue_end := of_Z 5; cue_text := "first" |};
    {| cue_start := of_Z 3; cue_end := of_Z 8; cue_text := "second" |} ].

(** The first two cues of the English track. *)
Definition english_opening : list (SubtitleCue N) :=
  [ {| cue_start := of_Z 0; cue_end := decimal 35 1;
       cue_text := "Welcome to this video demonstration." |};
    {| cue_start := of_Z 4; cue_end := decimal 75 1;
       cue_text := "This showcases our advanced subtitle system." |} ].

End WithNumber.

End Scenario.

(* ================================================================== *)
(** ** More of the page: the player's clock and seek bar, the progress
    bar, the subtitle download, the thumbnail handler *)
(* ================================================================== *)

Module Widgets.
Import JS Subtitle Page Reference.

(** What [renderProgressBar] puts on the screen: the line above the bar,
    the width of the filled part in percent, the line below. *)
Record ProgressBar : Type := mkProgressBar {
  bar_label : string;
  bar_width : Q;
  bar_caption : string
}.

(** The file that [downloadSubtitles] hands to the browser. *)
Record Download : Type := mkDownload {
  download_name : string;
  download_content : string
}.

(** The double quote of the log line of [handleGenerateThumbnail]. *)
Definition quote : string := String (ascii_of_nat 34) EmptyString.

(** [skipTime]: the time the player jumps to,
    [Math.max(0, Math.min(duration, currentTime + seconds))], on exact
    numbers. *)
Definition Math_max (a b : Q) : Q := if Qle_bool a b then b else a.

Definition skipTime (duration currentTime seconds : Q) : Q :=
  Math_max 0 (Math_min duration (currentTime + seconds)).


Section WithNumber.

Context {N : Type} `{Number N}.

(** [formatTime], the clock of the player and of the cue list *)
Definition formatTime (seconds : N) : string :=
  let mins := floor (div seconds (of_Z 60)) in
  let secs := floor (rem seconds (of_Z 60)) in
  padStart (Number_toString mins) 2 "0" ++ ":" ++
  padStart (Number_toString secs) 2 "0".

(** [renderProgressBar] of [Player]: nothing while the bar is hidden. *)
Definition renderProgressBar (p : ProgressState) : option ProgressBar :=
  if negb (visible p) then None
  else Some {| bar_label := status p;
               bar_width := percentage p;
               bar_caption := toString (Math_round (percentage p)) ++ "%" |}.

(** [renderProgressBar] of [Pages]: the label is
    [status.split('-')[1]?.trim() || 'Processing...'].  [trim] is the
    method of the language and is left abstract. *)
Definition renderProgressBar_pages (trim : string -> string)
  (p : ProgressState) : option ProgressBar :=
  if negb (visible p) then None
  else
    let piece := option_map trim (nth_error (split_on "-" (status p)) 1) in
    Some {| bar_label := if truthy piece then error_message piece ""
                         else "Processing...";
            bar_width := percentage p;
            bar_caption := toString (Math_round (percentage p)) ++ "%" |}.

(** The track that is stored, if any, came out of the generator. *)
Definition generated_or_none (s : State N) : Prop :=
  subtitleData s = None
  \/ exists lang data, generateMockSubtitleData lang = Returns data
                       /\ subtitleData s = Some data.

(** [downloadSubtitles]; [now] is what [Date.now()] returns. *)
Definition downloadSubtitles (now : Z) (s : State N)
  : State N * option Download :=
  match subtitleData s with
  | None => (toast_error "No subtitles available for download" s, None)
  | Some data =>
      let file :=
        {| download_name := "subtitles_" ++ subtitleLanguage s ++ "_" ++
                            toString now ++ ".srt";
           download_content := srt data |} in
      let s := logToConsole
                 ("Subtitles downloaded: " ++
                  getLanguageName (subtitleLanguage s) ++ " SRT format")
                 success s in
      (toast_success "Subtitles downloaded successfully!" s, Some file)
  end.

(** The options of [handleGenerateThumbnail]. *)
Definition thumbnail_options : Options :=
  {| cut_silence := None; enhance_audio := None;
     generate_thumbnail := Some true; generate_subtitles := None;
     summarize := None |}.

(** [handleGenerateThumbnail] of [Pages], up to the [await] inside
    [processVideo]; the style and the text are the form inputs it logs. *)
Definition handleGenerateThumbnail (thumbnailStyle thumbnailText : string)
  (s : State N) : State N :=
  if negb (truthy (uploadedVideoId s)) then
    toast_error "Please upload a video file first" s
  else
    match selectedFrameIndex s with
    | None => toast_error "Please select a frame first" s
    | Some frame =>
        let s := logToConsole
                   ("Starting thumbnail generation: Style=" ++ thumbnailStyle ++
                    ", Text=" ++ quote ++ thumbnailText ++ quote ++
                    ", Frame=" ++ toString (Z.of_nat frame + 1)) info s in
        let s := setGeneratedThumbnail None s in
        processVideo thumbnail_options Thumbnail
          "Thumbnail generated successfully" s
    end.

(** When the call of [processVideo] settles: [processVideo] handles a
    rejection itself, so the promise it returns is fulfilled either way
    and the [then] callback of the handler runs after it. *)
Definition handleGenerateThumbnail_settled (frame : nat)
  (capturedVideoId : option string) (r : Response) (s : State N) : State N :=
  let s := processVideo_settled Thumbnail "Thumbnail generated successfully"
             capturedVideoId r s in
  let generatedUrl :=
    "https://via.placeholder.com/1280x720.png?text=Generated+Thumb+" ++
    toString (Z.of_nat frame + 1) in
  let s := setGeneratedThumbnail (Some generatedUrl) s in
  logToConsole "Thumbnail preview ready" info s.

End WithNumber.

End Widgets.

(* ================================================================== *)
(** ** The authentication context and the navigation bar *)
(* ================================================================== *)

Module Auth.
Import JS.

(** [interface User] *)
Record User : Type := mkUser {
  email : string;
  firstName : option string;
  lastName : option string
}.

(** The two revisions of the context: the first sets the user and no more,
    the second (src/contexts/AuthContext.tsx) also shows toasts and has the
    demo login. *)
Inductive Revision : Type := Plain | Toasting.

(** The calls on the token store of [ApiService]. *)
Inductive TokenCall : Type :=
  | ClearToken
  | SetToken (token : string).

Record State : Type := mkState {
  user : option User;
  token_calls : list TokenCall;
  toasts : list string;
  console_errors : list string
}.

Definition initial : State :=
  {| user := None; token_calls := []; toasts := []; console_errors := [] |}.

Definition setUser (u : option User) (s : State) : State :=
  {| user := u; token_calls := token_calls s; toasts := toasts s;
     console_errors := console_errors s |}.

Definition toast_success (rev : Revision) (msg : string) (s : State) : State :=
  match rev with
  | Plain => s
  | Toasting =>
      {| user := user s; token_calls := token_calls s;
         toasts := (toasts s ++ [msg])%list;
         console_errors := console_errors s |}
  end.

Definition token_call (c : TokenCall) (s : State) : State :=
  {| user := user s; token_calls := (token_calls s ++ [c])%list;
     toasts := toasts s; console_errors := console_errors s |}.

Definition console_error (msg : string) (s : State) : State :=
  {| user := user s; token_calls := token_calls s; toasts := toasts s;
     console_errors := (console_errors s ++ [msg])%list |}.

Definition demo_user : User :=
  {| email := "demo@snipx.com"; firstName := Some "Demo";
     lastName := Some "User" |}.

(** A string that is present and not empty. *)
Definition truthy (v : option string) : bool :=
  match v with
  | Some x => negb (String.eqb x "")
  | None => false
  end.

(** The effect that runs once when the provider mounts; [token] is what
    [ApiService.getToken()] returns. *)
Definition mount (token : option string) (s : State) : State :=
  if truthy token then setUser (Some demo_user) s else s.

(** [isAuthenticated: !!user] *)
Definition isAuthenticated (s : State) : bool :=
  match user s with
  | Some _ => true
  | None => false
  end.

(** How [ApiService.login] and [ApiService.register] settle: with the
    [user] field of the response (a response may lack it), or with an
    error. *)
Inductive Outcome : Type :=
  | Accepted (response_user : option User)
  | Failed (error : string).

(** [login], after its [await]: the new state, and the error thrown on to
    the caller if there is one. *)
Definition login_settled (rev : Revision) (o : Outcome) (s : State)
  : State * option string :=
  match o with
  | Accepted response_user =>
      (toast_success rev "Login successful!" (setUser response_user s), None)
  | Failed error => (console_error ("Login failed: " ++ error) s, Some error)
  end.

(** [register], after its [await]. *)
Definition register_settled (o : Outcome) (s : State) : State * option string :=
  match o with
  | Accepted _ => (s, None)
  | Failed error => (s, Some error)
  end.

(** [logout] *)
Definition logout (rev : Revision) (s : State) : State :=
  toast_success rev "Logged out successfully"
    (setUser None (token_call ClearToken s)).

(** [loginAsDemo], in the second revision; [now] is [Date.now()]. *)
Definition loginAsDemo (now : Z) (s : State) : State :=
  toast_success Toasting "Logged in as demo user!"
    (setUser (Some demo_user)
       (token_call (SetToken ("demo-token-" ++ toString now)) s)).

(** What can happen to the context. *)
Inductive Event : Type :=
  | Mounted (token : option string)
  | LoginSettled (o : Outcome)
  | RegisterSettled (o : Outcome)
  | LoggedOut
  | DemoLogin (now : Z)
  | UserSet (u : option User).

Definition step (rev : Revision) (e : Event) (s : State) : State :=
  match e with
  | Mounted token => mount token s
  | LoginSettled o => fst (login_settled rev o s)
  | RegisterSettled o => fst (register_settled o s)
  | LoggedOut => logout rev s
  | DemoLogin now =>
      match rev with
      | Plain => s
      | Toasting => loginAsDemo now s
      end
  | UserSet u => setUser u s
  end.

Definition run (rev : Revision) (events : list Event) (s : State) : State :=
  fold_left (fun s e => step rev e s) events s.

(** The events that come from a registration or from a login that
    failed. *)
Definition quiet (e : Event) : bool :=
  match e with
  | RegisterSettled _ | LoginSettled (Failed _) => true
  | _ => false
  end.

(** The calls that an event makes on the token store. *)
Definition token_calls_of (rev : Revision) (e : Event) : list TokenCall :=
  match e, rev with
  | LoggedOut, _ => [ClearToken]
  | DemoLogin now, Toasting => [SetToken ("demo-token-" ++ toString now)]
  | _, _ => []
  end.

(** The name that the navigation bar shows:
    [user?.firstName ? `${user.firstName} ${user.lastName}` : user?.email].
    A missing last name is printed by the template as [undefined]; with no
    user at all nothing is shown. *)
Definition display_name (u : option User) : option string :=
  match u with
  | None => None
  | Some u =>
      if truthy (firstName u)
      then Some (match firstName u with Some f => f | None => "" end ++ " " ++
                 match lastName u with Some l => l | None => "undefined" end)
      else Some (email u)
  end.

(** [handleScroll] of the navigation bar: the bar turns solid once the
    page is scrolled by more than ten pixels. *)
Definition scrolled (scrollY : Q) : bool := negb (Qle_bool scrollY 10).

End Auth.

(* ================================================================== *)
(** ** Timer handles and the calls under way *)
(* ================================================================== *)

Module Handles.
Import Page.

(** The part of the state that decides which timers are set and which are
    cleared: the timers, the next handle, the calls under way and the ref
    of the status poll. *)
Record View : Type := mkView {
  v_timers : list Timer;
  v_next : nat;
  v_pending : list (nat * Continuation);
  v_ref : option nat
}.

Definition view {N : Type} (s : State N) : View :=
  {| v_timers := timers s; v_next := next_timer s; v_pending := pending s;
     v_ref := statusCheckIntervalRef s |}.

(** What the functions of the component do to that part. *)
Definition add_timer (repeats : bool) (cb : Callback) (delay : Z) (r : View)
  : View :=
  {| v_timers := v_timers r ++
                 [ {| timer_id := v_next r; timer_delay := delay;
                      timer_repeats := repeats; timer_callback := cb |} ];
     v_next := S (v_next r); v_pending := v_pending r; v_ref := v_ref r |}.

Definition clear (id : nat) (r : View) : View :=
  {| v_timers := filter (fun t => negb (Nat.eqb (timer_id t) id)) (v_timers r);
     v_next := v_next r; v_pending := v_pending r; v_ref := v_ref r |}.

Definition replace_callback (id : nat) (cb : Callback) (r : View) : View :=
  {| v_timers := map (fun t => if Nat.eqb (timer_id t) id
                               then {| timer_id := id;
                                       timer_delay := timer_delay t;
                                       timer_repeats := timer_repeats t;
                                       timer_callback := cb |}
                               else t) (v_timers r);
     v_next := v_next r; v_pending := v_pending r; v_ref := v_ref r |}.

Definition add_pending (request : nat) (k : Continuation) (r : View) : View :=
  {| v_timers := v_timers r; v_next := v_next r;
     v_pending := v_pending r ++ [(request, k)]; v_ref := v_ref r |}.

Definition drop_pending (request : nat) (r : View) : View :=
  {| v_timers := v_timers r; v_next := v_next r;
     v_pending := filter (fun p => negb (Nat.eqb (fst p) request)) (v_pending r);
     v_ref := v_ref r |}.

Definition set_ref (ref : option nat) (r : View) : View :=
  {| v_timers := v_timers r; v_next := v_next r; v_pending := v_pending r;
     v_ref := ref |}.

(** [startStatusCheck]: the fetch, the interval, the ref. *)
Definition start_poll (request : nat) (videoId : string) (r : View) : View :=
  set_ref (Some (v_next r))
    (add_timer true (CheckStatus videoId) 2000
       (add_pending request (AwaitStatus videoId) r)).

Definition is_poll (cb : Callback) : bool :=
  match cb with
  | CheckStatus _ => true
  | _ => false
  end.

(** The status polls that are set. *)
Definition polls (r : View) : list (nat * string) :=
  flat_map (fun t => match timer_callback t with
                     | CheckStatus videoId => [(timer_id t, videoId)]
                     | _ => []
                     end) (v_timers r).

(** The handle that a suspended [uploadVideo] holds is a handle that was
    given out, and if a timer is still set under it, it is the upload
    ramp. *)
Definition upload_handle_ok (r : View) (p : nat * Continuation) : Prop :=
  match snd p with
  | AwaitUpload progressInterval =>
      (progressInterval < v_next r)%nat
      /\ forall t, In t (v_timers r) -> timer_id t = progressInterval ->
                   timer_callback t = UploadRamp
  | _ => True
  end.

(** Handles are given out once: the timers that are set have distinct
    handles below the next one; status polls are intervals; the ref names
    a handle that was given out. *)
Record ok (r : View) : Prop := mkOk {
  ok_below : forall t, In t (v_timers r) -> (timer_id t < v_next r)%nat;
  ok_distinct : NoDup (map timer_id (v_timers r));
  ok_polls_repeat : forall t, In t (v_timers r) ->
                              is_poll (timer_callback t) = true ->
                              timer_repeats t = true;
  ok_uploads : forall p, In p (v_pending r) -> upload_handle_ok r p;
  ok_ref : forall id, v_ref r = Some id -> (id < v_next r)%nat
}.

Definition well_formed {N : Type} (s : State N) : Prop := ok (view s).

(** The handles of the timers that are set are below the next handle. *)
Definition below {N : Type} (s : State N) : Prop :=
  forall t, In t (timers s) -> (timer_id t < next_timer s)%nat.

(** A status poll that is set and that the ref does not name. *)
Definition unreferenced (id : nat) (videoId : string) (r : View) : Prop :=
  In (id, videoId) (polls r) /\ v_ref r <> Some id.

(** No status poll is set under a handle. *)
Definition no_poll (id : nat) (r : View) : Prop :=
  forall videoId, ~ In (id, videoId) (polls r).

(** Every timer set under a handle is a processing ramp. *)
Definition only_ramps (id : nat) (r : View) : Prop :=
  forall t, In t (v_timers r) -> timer_id t = id ->
            exists f m c p, timer_callback t = ProcessingRamp f m c p.

(** The invariant carried along a run: the handles are in order, and the
    poll that is followed, if there is one, is set and not named by the
    ref. *)
Definition kept (followed : option (nat * string)) (r : View) : Prop :=
  ok r /\ match followed with
          | Some (id, videoId) => unreferenced id videoId r
          | None => True
          end.

End Handles.

(* ================================================================== *)
(** ** Two more sample sessions, in binary64 *)
(* ================================================================== *)

Module Sessions.
Import Page.

(** [Pages]: the processing ramp has finished and started a second status
    poll, timer 4, while the poll of the upload, timer 2, is still set. *)
Definition second_poll_started : State spec_float :=
  run (fun _ => "10 MB") Pages Scenario.processing_finished (initial Pages).

(** [Player]: a video has been uploaded; the next timer handle is 4. *)
Definition video_uploaded : State spec_float :=
  run (fun _ => "10 MB") Player
    [ FileSelected (Some Scenario.clip); Settled 0 (Uploaded (Some "v1")) ]
    (initial Player).

End Sessions.

(* ================================================================== *)
(** ** Properties *)
(* ================================================================== *)

(** *** Numerals and padding *)





(** *** Exact arithmetic of the four timestamp fields *)





Section ExactFields.

Variables (n : Z) (d : positive).
Hypothesis Hn : (0 <= n)%Z.







End ExactFields.

(** *** Padded fields *)

Lemma below_bound (P : Z -> bool) (bound : nat) :
  forallb (fun k => P (Z.of_nat k)) (seq 0 bound) = true ->
  forall n : Z, (0 <= n < Z.of_nat bound)%Z -> P n = true.
Proof.
  intros Hall n Hn.
  rewrite forallb_forall in Hall.
  specialize (Hall (Z.to_nat n)).
  rewrite Z2Nat.id in Hall by lia.
  apply Hall, in_seq. lia.
Qed.




(** *** Reading a timestamp back *)


Lemma free_of_app (sep : ascii) (a b : string) :
  free_of sep (a ++ b) = free_of sep a && free_of sep b.
Proof.
  induction a as [|c a IH]; simpl; [reflexivity|].
  now rewrite IH, andb_assoc.
Qed.

Lemma split_on_free (sep : ascii) (s : string) :
  free_of sep s = true -> split_on sep s = [s].
Proof.
  induction s as [|c s IH]; simpl; [reflexivity|].
  intros Hfree. apply andb_true_iff in Hfree as [Hc Hs].
  rewrite (IH Hs). apply negb_true_iff in Hc. now rewrite Hc.
Qed.












(** *** The SRT writer *)

Section Writer.

Context {N : Type} `{Number N}.




(** *** The generator *)

Lemma map_from_length {A B : Type} (f : A -> nat -> B) (k : nat) (l : list A) :
  List.length (map_from f k l) = List.length l.
Proof.
  revert k; induction l as [|x l IH]; intros k; simpl; [reflexivity|].
  now rewrite IH.
Qed.

Lemma map_from_nth {A B : Type} (f : A -> nat -> B) (k i : nat) (l : list A)
  (x : A) :
  nth_error l i = Some x -> nth_error (map_from f k l) i = Some (f x (k + i)%nat).
Proof.
  revert k i; induction l as [|y l IH]; intros k i Hx.
  - destruct i; discriminate.
  - destruct i as [|i]; simpl in *.
    + injection Hx as ->. now rewrite Nat.add_0_r.
    + rewrite (IH (S k) i Hx). f_equal. f_equal. lia.
Qed.

(** The lines the generator works on. *)
Lemma generate_unfold (lang : string) :
  generateMockSubtitleData (N:=N) lang
  = match or_else (lookup lang subtitleTexts) (lookup "en" subtitleTexts) with
    | Some (Lines texts) =>
        Returns {| language := lang;
                   cues := map_indexed cue_of_line texts;
                   srt := encodeSRT (map_indexed cue_of_line texts) |}
    | Some Inherited => Throws "texts.map is not a function"
    | None => Throws "Cannot read properties of undefined (reading 'map')"
    end.
Proof. reflexivity. Qed.

End Writer.

Lemma own_property_In (key : string) (table : list (string * list string))
  (v : list string) :
  own_property key table = Some v -> In (key, v) table.
Proof.
  induction table as [|[k w] rest IH]; simpl; [discriminate|].
  destruct (String.eqb_spec key k) as [-> | Hne].
  - intros [= ->]. now left.
  - intros Hl. right. now apply IH.
Qed.


(** What a property access on the table finds. *)
Lemma lookup_Lines (key : string) (table : list (string * list string))
  (v : list string) :
  lookup key table = Some (Lines v) -> In (key, v) table.
Proof.
  unfold lookup. destruct (own_property key table) as [w|] eqn:Hown.
  - intros [= ->]. now apply own_property_In.
  - destruct (existsb _ _); discriminate.
Qed.

Lemma lookup_Inherited (key : string) (table : list (string * list string)) :
  lookup key table = Some Inherited ->
  own_property key table = None /\ In key Object_prototype.
Proof.
  unfold lookup. destruct (own_property key table) as [w|]; [discriminate|].
  destruct (existsb (String.eqb key) Object_prototype) eqn:Hin; [|discriminate].
  intros _. split; [reflexivity|].
  apply existsb_exists in Hin as (name & Hname & Heq).
  apply String.eqb_eq in Heq. now subst.
Qed.


(** Whenever the generator returns, it has worked on one of the canned
    lists; otherwise the code it was given names a member of
    [Object.prototype]. *)
Lemma generate_cases {N : Type} `{Number N} (lang : string) :
  (exists texts,
      In texts (map snd subtitleTexts)
      /\ generateMockSubtitleData (N:=N) lang
         = Returns {| language := lang;
                      cues := map_indexed cue_of_line texts;
                      srt := encodeSRT (map_indexed cue_of_line texts) |})
  \/ (In lang Object_prototype
      /\ generateMockSubtitleData (N:=N) lang
         = Throws "texts.map is not a function").
Proof.
  rewrite generate_unfold.
  destruct (lookup lang subtitleTexts) as [[texts|]|] eqn:Hl; cbn [or_else].
  - left. exists texts. split; [|reflexivity].
    apply lookup_Lines in Hl. apply (in_map snd) in Hl. exact Hl.
  - right. split; [|reflexivity]. now apply lookup_Inherited in Hl.
  - left. eexists. split; [|reflexivity]. cbn. now left.
Qed.

Lemma generate_returns {N : Type} `{Number N} (lang : string)
  (track : SubtitleData N) :
  generateMockSubtitleData lang = Returns track ->
  exists texts,
    In texts (map snd subtitleTexts)
    /\ track = {| language := lang;
                  cues := map_indexed cue_of_line texts;
                  srt := encodeSRT (map_indexed cue_of_line texts) |}.
Proof.
  intros Htrack.
  destruct (generate_cases (N:=N) lang) as [(texts & Hin & Hgen) | [_ Hgen]];
    rewrite Hgen in Htrack; [|discriminate].
  injection Htrack as <-. now exists texts.
Qed.

(** The generator returns a track for every code that is not the name of
    a member of [Object.prototype], and throws for the others. *)
Lemma generate_outside_prototype {N : Type} `{Number N} (lang : string) :
  ~ In lang Object_prototype ->
  exists track : SubtitleData N, generateMockSubtitleData lang = Returns track.
Proof.
  intros Hproto.
  destruct (generate_cases (N:=N) lang) as [(texts & _ & Hgen) | [Hin _]].
  - eexists. exact Hgen.
  - contradiction.
Qed.

Lemma generate_inherited {N : Type} `{Number N} (lang : string) :
  In lang Object_prototype ->
  generateMockSubtitleData (N:=N) lang = Throws "texts.map is not a function".
Proof.
  intros Hin. cbn in Hin.
  repeat (destruct Hin as [<- | Hin]; [reflexivity|]). contradiction.
Qed.

(** *** The generated tracks *)

(** The check of a property of the canned lists, list by list. *)
Lemma for_chosen_texts {N : Type} `{Number N}
  (P : list (SubtitleCue N) -> Prop) :
  Forall (fun texts => P (map_indexed cue_of_line texts))
         (map snd subtitleTexts) ->
  forall (lang : string) (track : SubtitleData N),
    generateMockSubtitleData lang = Returns track ->
    P (cues track)
    /\ srt track = encodeSRT (cues track)
    /\ language track = lang.
Proof.
  intros Hall lang track Htrack. rewrite Forall_forall in Hall.
  apply generate_returns in Htrack as (texts & Hin & ->).
  cbn [cues srt language]. split; [now apply Hall|]. split; reflexivity.
Qed.

(** *** The active-cue lookup *)

Section Lookup.

Context {N : Type} `{Number N}.

Lemma active_iff (t : N) (c : SubtitleCue N) :
  active t c = true <-> leb (cue_start c) t = true /\ leb t (cue_end c) = true.
Proof. unfold active, geb. apply andb_true_iff. Qed.

(** The lookup answers with the first cue whose window contains the time. *)
Lemma activeCueText_first (cs : list (SubtitleCue N)) (t : N) (i : nat)
  (c : SubtitleCue N) :
  nth_error cs i = Some c ->
  active t c = true ->
  (forall j c', (j < i)%nat -> nth_error cs j = Some c' -> active t c' = false) ->
  activeCueText cs t = cue_text c.
Proof.
  unfold activeCueText.
  revert i; induction cs as [|c0 rest IH]; intros i Hi Hact Hbefore.
  - destruct i; discriminate.
  - destruct i as [|i]; simpl in Hi |- *.
    + injection Hi as ->. now rewrite Hact.
    + rewrite (Hbefore 0%nat c0) by (simpl; reflexivity || lia).
      apply (IH i Hi Hact).
      intros j c' Hj Hc'. apply (Hbefore (S j) c'); [lia | exact Hc'].
Qed.

(** With no such cue the lookup answers with the empty string. *)
Lemma activeCueText_none (cs : list (SubtitleCue N)) (t : N) :
  (forall c, In c cs -> active t c = false) -> activeCueText cs t = "".
Proof.
  unfold activeCueText. intros Hnone.
  destruct (find (active t) cs) as [c|] eqn:Hfind; [|reflexivity].
  apply find_some in Hfind as [Hin Hact].
  rewrite (Hnone c Hin) in Hact. discriminate.
Qed.

Hypothesis laws : LawfulOrder N.

Lemma lt_trans (a b c : N) : lt a b -> lt b c -> lt a c.
Proof.
  intros [Hab Hba] [Hbc Hcb]. split.
  - exact (leb_trans laws a b c Hab Hbc).
  - destruct (leb c a) eqn:Hca; [|reflexivity].
    rewrite (leb_trans laws c a b Hca Hab) in Hcb. discriminate.
Qed.

Lemma chronological_tail (c : SubtitleCue N) (rest : list (SubtitleCue N)) :
  chronological (c :: rest) -> chronological rest.
Proof. intros (_ & _ & Hrest). exact Hrest. Qed.

(** In a chronological track a cue ends before every later cue starts. *)
Lemma chronological_apart (cs : list (SubtitleCue N)) :
  chronological cs ->
  forall j i c' c, (j < i)%nat ->
    nth_error cs j = Some c' -> nth_error cs i = Some c ->
    lt (cue_end c') (cue_start c).
Proof.
  induction cs as [|c0 rest IH]; intros Hch j i c' c Hji Hj Hi.
  - destruct j; discriminate.
  - destruct i as [|i]; [lia|].
    destruct j as [|j]; simpl in Hj, Hi.
    + injection Hj as <-.
      destruct Hch as (Hc0 & Hnext & Hrest).
      destruct rest as [|c1 rest']; [destruct i; discriminate|].
      destruct i as [|i]; simpl in Hi.
      * injection Hi as <-. exact Hnext.
      * apply (lt_trans _ (cue_start c1)); [exact Hnext|].
        apply (lt_trans _ (cue_end c1)); [apply Hrest|].
        apply (IH Hrest 0%nat (S i) c1 c); [lia | reflexivity | exact Hi].
    + apply (IH (chronological_tail _ _ Hch) j i c' c); [lia | exact Hj | exact Hi].
Qed.

Lemma chronological_window (cs : list (SubtitleCue N)) (i : nat)
  (c : SubtitleCue N) :
  chronological cs -> nth_error cs i = Some c -> lt (cue_start c) (cue_end c).
Proof.
  revert i; induction cs as [|c0 rest IH]; intros i Hch Hi.
  - destruct i; discriminate.
  - destruct i as [|i]; simpl in Hi.
    + injection Hi as <-. apply Hch.
    + apply (IH i (chronological_tail _ _ Hch) Hi).
Qed.

(** A time equal to the end of a cue resolves to that cue. *)
Lemma activeCueText_at_end (cs : list (SubtitleCue N)) (i : nat)
  (c : SubtitleCue N) :
  chronological cs -> nth_error cs i = Some c ->
  activeCueText cs (cue_end c) = cue_text c.
Proof.
  intros Hch Hi.
  destruct (chronological_window cs i c Hch Hi) as [Hle _].
  apply (activeCueText_first cs _ i c Hi).
  - apply active_iff. split; [exact Hle | exact (leb_refl_r laws _ _ Hle)].
  - intros j c' Hj Hc'.
    destruct (active (cue_end c) c') eqn:Hact; [|reflexivity].
    apply active_iff in Hact as [_ Hin].
    destruct (chronological_apart cs Hch j i c' c Hj Hc' Hi) as [_ Hno].
    rewrite (leb_trans laws _ _ _ Hle Hin) in Hno. discriminate.
Qed.

(** A time in the gap between two neighbouring cues resolves to nothing. *)
Lemma activeCueText_in_gap (cs : list (SubtitleCue N)) (i : nat)
  (c next : SubtitleCue N) (t : N) :
  chronological cs ->
  nth_error cs i = Some c -> nth_error cs (S i) = Some next ->
  lt (cue_end c) t -> lt t (cue_start next) ->
  activeCueText cs t = "".
Proof.
  intros Hch Hi Hnext Hafter Hbefore.
  apply activeCueText_none. intros c' Hin.
  apply In_nth_error in Hin as [j Hj].
  destruct (active t c') eqn:Hact; [|reflexivity].
  apply active_iff in Hact as [Hstart Hend].
  destruct (Nat.lt_trichotomy j i) as [Hlt | [-> | Hgt]].
  - (* an earlier cue has ended *)
    pose proof (chronological_apart cs Hch j i c' c Hlt Hj Hi) as Hapart.
    pose proof (chronological_window cs i c Hch Hi) as Hwin.
    destruct (lt_trans _ _ _ (lt_trans _ _ _ Hapart Hwin) Hafter) as [_ Hno].
    rewrite Hend in Hno. discriminate.
  - rewrite Hi in Hj. injection Hj as <-.
    destruct Hafter as [_ Hno]. rewrite Hend in Hno. discriminate.
  - (* a later cue has not started *)
    assert (Hnot : lt t (cue_start c')).
    { destruct (Nat.eq_dec j (S i)) as [-> | Hne].
      - rewrite Hnext in Hj. injection Hj as <-. exact Hbefore.
      - apply (lt_trans _ (cue_start next)); [exact Hbefore|].
        apply (lt_trans _ (cue_end next)).
        + apply (chronological_window cs (S i) next Hch Hnext).
        + apply (chronological_apart cs Hch (S i) j next c'); [lia | exact Hnext | exact Hj]. }
    destruct Hnot as [_ Hno]. rewrite Hstart in Hno. discriminate.
Qed.

(** In a track ordered by start, a cue starts no later than the cues
    behind it. *)
Lemma starts_ordered_behind (cs : list (SubtitleCue N)) :
  starts_ordered cs ->
  forall j i c' c, (j < i)%nat ->
    nth_error cs j = Some c' -> nth_error cs i = Some c ->
    leb (cue_start c') (cue_start c) = true.
Proof.
  induction cs as [|c0 rest IH]; intros Hord j i c' c Hji Hj Hi.
  - destruct j; discriminate.
  - destruct i as [|i]; [lia|].
    destruct Hord as [Hnext Hrest].
    destruct j as [|j]; simpl in Hj, Hi.
    + injection Hj as <-.
      destruct rest as [|c1 rest']; [destruct i; discriminate|].
      destruct i as [|i]; simpl in Hi.
      * injection Hi as <-. exact Hnext.
      * apply (leb_trans laws _ (cue_start c1)); [exact Hnext|].
        apply (IH Hrest 0%nat (S i) c1 c); [lia | reflexivity | exact Hi].
    + apply (IH Hrest j i c' c); [lia | exact Hj | exact Hi].
Qed.

End Lookup.

(** Both interpretations of numbers order them lawfully. *)
Lemma exact_lawful : LawfulOrder Q.
Proof.
  split; cbn [leb Exact.number].
  - intros a b c Hab Hbc. apply Qle_bool_iff.
    apply Qle_bool_iff in Hab, Hbc. now apply (Qle_trans _ b).
  - intros a b _. apply Qle_bool_iff, Qle_refl.
Qed.

Lemma SFleb_trans (a b c : spec_float) :
  SFleb a b = true -> SFleb b c = true -> SFleb a c = true.
Proof.
  unfold SFleb, SFcompare.
  destruct a as [sa|sa| |sa ma ea], b as [sb|sb| |sb mb eb],
           c as [sc|sc| |sc mc ec];
    try destruct sa; try destruct sb; try destruct sc;
    try discriminate; try reflexivity; try (intros; assumption);
    rewrite ?Pos.compare_cont_spec; cbn [CompOpp];
    destruct (Z.compare_spec ea eb), (Z.compare_spec eb ec),
             (Z.compare_spec ea ec);
    try discriminate; try reflexivity; try lia; subst;
    unfold Pos.switch_Eq;
    destruct (Pos.compare_spec ma mb), (Pos.compare_spec mb mc),
             (Pos.compare_spec ma mc);
    cbn [CompOpp]; try discriminate; try reflexivity; try lia.
Qed.

Lemma SFleb_refl_r (a b : spec_float) : SFleb a b = true -> SFleb b b = true.
Proof.
  unfold SFleb, SFcompare.
  destruct a as [sa|sa| |sa ma ea], b as [sb|sb| |sb mb eb];
    try destruct sa; try destruct sb; try discriminate; try reflexivity;
    intros _; rewrite Z.compare_refl, Pos.compare_cont_refl; reflexivity.
Qed.

Lemma binary64_lawful : LawfulOrder spec_float.
Proof. split; [exact SFleb_trans | exact SFleb_refl_r]. Qed.

Lemma SFleb_refl_l (a b : spec_float) : SFleb a b = true -> SFleb a a = true.
Proof.
  unfold SFleb, SFcompare.
  destruct a as [sa|sa| |sa ma ea], b as [sb|sb| |sb mb eb];
    try destruct sa; try destruct sb; try discriminate; try reflexivity;
    intros _; rewrite Z.compare_refl, Pos.compare_cont_refl; reflexivity.
Qed.
Ltac each_canned_list :=
  cbn [map snd subtitleTexts]; repeat constructor; vm_compute; reflexivity.

Lemma binary64_windows (lang : string) (track : SubtitleData spec_float) :
  generateMockSubtitleData lang = Returns track ->
  map (fun c => (cue_start c, cue_end c)) (cues track)
  = [ (of_Z 0, decimal 35 1); (of_Z 4, decimal 75 1); (of_Z 8, decimal 115 1);
      (of_Z 12, decimal 155 1); (of_Z 16, decimal 195 1) ].
Proof.
  intros Htrack.
  apply (for_chosen_texts
           (fun cs => map (fun c : SubtitleCue spec_float =>
                             (cue_start c, cue_end c)) cs = _)
           ltac:(each_canned_list) lang track Htrack).
Qed.

Lemma binary64_chronological (lang : string) (track : SubtitleData spec_float) :
  generateMockSubtitleData lang = Returns track -> chronological (cues track).
Proof.
  intros Htrack.
  apply (for_chosen_texts (fun cs => chronological (N:=spec_float) cs)
           ltac:(cbn [map snd subtitleTexts]; repeat constructor)
           lang track Htrack).
Qed.

Lemma exact_window (lang : string) (track : SubtitleData Q) (i : nat)
  (c : SubtitleCue Q) :
  generateMockSubtitleData lang = Returns track ->
  nth_error (cues track) i = Some c ->
  cue_start c == inject_Z (Z.of_nat i) * 4
  /\ cue_end c == (inject_Z (Z.of_nat i) + 1) * 4 - (1 # 2).
Proof.
  intros Htrack. apply generate_returns in Htrack as (texts & _ & ->).
  cbn [cues]. unfold map_indexed. intros Hc.
  destruct (nth_error texts i) as [text|] eqn:Ht.
  - rewrite (map_from_nth _ 0 i texts text Ht) in Hc. injection Hc as <-.
    cbn [cue_of_line cue_start cue_end mul sub of_Z decimal Exact.number Nat.add].
    rewrite !Qred_correct. split; [reflexivity|].
    rewrite inject_Z_plus.
    change (Pos.of_nat (10 ^ 1)) with 10%positive.
    setoid_replace (5 # 10) with (1 # 2) by reflexivity.
    reflexivity.
  - apply nth_error_None in Ht.
    assert (Hsome : nth_error (map_from (cue_of_line (N:=Q)) 0 texts) i <> None)
      by congruence.
    apply nth_error_Some in Hsome. rewrite map_from_length in Hsome. lia.
Qed.

(** Binary64 next to a millisecond boundary.  The double nearest to 1.001
    lies below it and prints as [,000]; the double nearest to 0.29 lies
    below it too, but its product with 1000 rounds to 290 and it prints as
    [,290].  Exact arithmetic prints [,001] and [,290]. *)
Remark binary64_near_boundaries :
  formatSRTTime (N:=spec_float) (decimal 1001 3) = "00:00:01,000"
  /\ formatSRTTime (N:=spec_float) (decimal 29 2) = "00:00:00,290"
  /\ formatSRTTime (N:=Q) (decimal 1001 3) = "00:00:01,001"
  /\ formatSRTTime (N:=Q) (decimal 29 2) = "00:00:00,290".
Proof. repeat split; vm_compute; reflexivity. Qed.
(** *** Claims about the subtitle model *)






(** C3.  For every supported language code the generator produces one
    cue per canned line of that language, in order, cue [i] running from
    [i * 4] to [(i + 1) * 4 - 0.5] seconds; an unsupported code gets the
    cues of the default language.  In exact arithmetic those bounds are
    [4 i] and [4 (i + 1) - 1/2]; in binary64 they are the doubles 0, 3.5,
    4, 7.5, ..., 19.5.  For ["en"] there are 5 cues, the first is
    [{start: 0, end: 3.5, text: "Welcome to this video demonstration."}]
    and the SRT text starts with its block. *)
Theorem generation_windows :
  forall (N : Type) (H : Number N) (lang : string) (texts : list string),
    lookup lang subtitleTexts = Some (Lines texts) ->
    (exists track : SubtitleData N,
        generateMockSubtitleData lang = Returns track
        /\ language track = lang
        /\ List.length (cues track) = List.length texts
        /\ (forall (i : nat) (text : string),
              nth_error texts i = Some text ->
              nth_error (cues track) i
              = Some {| cue_start := mul (of_Z (Z.of_nat i)) (of_Z 4);
                        cue_end := sub (mul (of_Z (Z.of_nat i + 1)) (of_Z 4))
                                       (decimal 5 1);
                        cue_text := text |}))
    /\ (forall (track : SubtitleData Q) (i : nat) (c : SubtitleCue Q),
          generateMockSubtitleData lang = Returns track ->
          nth_error (cues track) i = Some c ->
          cue_start c == inject_Z (Z.of_nat i) * 4
          /\ cue_end c == (inject_Z (Z.of_nat i) + 1) * 4 - (1 # 2))
    /\ (forall track : SubtitleData spec_float,
          generateMockSubtitleData lang = Returns track ->
          map (fun c => (cue_start c, cue_end c)) (cues track)
          = [ (of_Z 0, decimal 35 1); (of_Z 4, decimal 75 1);
              (of_Z 8, decimal 115 1); (of_Z 12, decimal 155 1);
              (of_Z 16, decimal 195 1) ])
    /\ (forall other : string,
          lookup other subtitleTexts = None ->
          exists track english : SubtitleData N,
            generateMockSubtitleData other = Returns track
            /\ generateMockSubtitleData "en" = Returns english
            /\ cues track = cues english)
    /\ (exists english : SubtitleData spec_float,
          generateMockSubtitleData "en" = Returns english
          /\ List.length (cues english) = 5%nat
          /\ nth_error (cues english) 0
             = Some {| cue_start := of_Z 0; cue_end := decimal 35 1;
                       cue_text := "Welcome to this video demonstration." |}
          /\ prefix ("1" ++ nl ++ "00:00:00,000 --> 00:00:03,500" ++ nl ++
                     "Welcome to this video demonstration." ++ nl)
                    (srt english) = true).
Proof.
  intros N H lang texts Hlookup.
  split; [|split; [|split; [|split]]].
  - eexists. split; [rewrite generate_unfold, Hlookup; reflexivity|].
    cbn [language cues]. split; [reflexivity|].
    split; [apply map_from_length|].
    intros i text Hi. unfold map_indexed.
    now rewrite (map_from_nth _ 0 i texts text Hi).
  - intros track i c Htrack. now apply (exact_window lang).
  - intros track Htrack. now apply (binary64_windows lang).
  - intros other Hnone. do 2 eexists.
    rewrite !generate_unfold, Hnone. cbn [or_else lookup own_property].
    repeat split; reflexivity.
  - eexists. split; [reflexivity|].
    repeat split; vm_compute; reflexivity.
Qed.

(** The claim at the French lines. *)
Lemma generation_windows_witness :
  lookup "fr" subtitleTexts
  = Some (Lines
            [ "Bienvenue dans cette démonstration vidéo.";
              "Ceci présente notre système de sous-titres avancé.";
              "Alimenté par la technologie OpenAI Whisper.";
              "Avec synchronisation précise au niveau des mots.";
              "Prenant en charge plusieurs langues et styles." ])
  /\ exists track : SubtitleData spec_float,
       generateMockSubtitleData "fr" = Returns track
       /\ List.length (cues track) = 5%nat.
Proof.
  split; [reflexivity|].
  destruct (generation_windows spec_float Binary64.number "fr" _ eq_refl)
    as [(track & Htrack & _ & Hlength & _) _].
  exists track. split; [exact Htrack | exact Hlength].
Defined.





(** C5.  For every track and playback time the lookup answers with the
    text of the first cue, in the order of the track, whose window
    [start <= time <= end] contains the time (on a track in the order of
    the starts that is the cue that starts first among those that
    contain the time), and with the empty string when there is none.  A
    time equal to the end of a cue resolves to that cue unless an earlier
    cue of the track contains it too; on a chronological track it always
    does, and a time strictly between the end of a cue and the start of
    the next resolves to the empty string.  Times are binary64 numbers. *)
Theorem active_cue_lookup :
  forall (cs : list (SubtitleCue spec_float)) (t : spec_float),
    (forall (i : nat) (c : SubtitleCue spec_float),
        nth_error cs i = Some c ->
        leb (cue_start c) t = true -> leb t (cue_end c) = true ->
        (forall j c', (j < i)%nat -> nth_error cs j = Some c' ->
                      leb (cue_start c') t && leb t (cue_end c') = false) ->
        activeCueText cs t = cue_text c
        /\ (starts_ordered cs ->
            forall c', In c' cs ->
                       leb (cue_start c') t && leb t (cue_end c') = true ->
                       leb (cue_start c) (cue_start c') = true))
    /\ ((forall c, In c cs -> leb (cue_start c) t && leb t (cue_end c) = false) ->
        activeCueText cs t = "")
    /\ (forall (i : nat) (c : SubtitleCue spec_float),
          nth_error cs i = Some c ->
          leb (cue_start c) (cue_end c) = true ->
          (forall j c', (j < i)%nat -> nth_error cs j = Some c' ->
                        leb (cue_start c') (cue_end c)
                        && leb (cue_end c) (cue_end c') = false) ->
          activeCueText cs (cue_end c) = cue_text c)
    /\ (chronological cs ->
        (forall (i : nat) (c : SubtitleCue spec_float),
            nth_error cs i = Some c -> t = cue_end c ->
            activeCueText cs t = cue_text c)
        /\ (forall (i : nat) (c next : SubtitleCue spec_float),
              nth_error cs i = Some c -> nth_error cs (S i) = Some next ->
              lt (cue_end c) t -> lt t (cue_start next) ->
              activeCueText cs t = "")).
Proof.
  intros cs t.
  split; [|split; [|split]].
  - intros i c Hi Hs He Hbefore. split.
    + apply (activeCueText_first cs t i c Hi).
      * apply active_iff. now split.
      * exact Hbefore.
    + intros Hord c' Hin Hmatch.
      apply In_nth_error in Hin as [k Hk].
      destruct (Nat.lt_trichotomy k i) as [Hlt | [-> | Hgt]].
      * rewrite (Hbefore k c' Hlt Hk) in Hmatch. discriminate.
      * rewrite Hi in Hk. injection Hk as <-.
        exact (SFleb_refl_l _ _ Hs).
      * exact (starts_ordered_behind binary64_lawful cs Hord i k c c' Hgt Hi Hk).
  - intros Hnone. apply activeCueText_none. exact Hnone.
  - intros i c Hi Hwindow Hbefore.
    apply (activeCueText_first cs _ i c Hi).
    + apply active_iff. split; [exact Hwindow|].
      exact (SFleb_refl_r _ _ Hwindow).
    + exact Hbefore.
  - intros Hch. split.
    + intros i c Hi ->.
      apply (activeCueText_at_end binary64_lawful cs i c Hch Hi).
    + intros i c next Hi Hnext Hafter Hbefore.
      apply (activeCueText_in_gap binary64_lawful cs i c next t Hch Hi Hnext
               Hafter Hbefore).
Qed.

(** The claim on a track of two cues that overlap, from 0 to 5 s and from
    3 to 8 s: at second 4 and at second 5, the end of the first cue, both
    cues contain the time and the lookup answers with the first; and on
    the English track, at the end of its first cue (3.5 s) and in the gap
    behind it (3.75 s). *)
Lemma active_cue_lookup_witness :
  activeCueText (N:=spec_float) Scenario.overlapping (of_Z 4) = "first"
  /\ activeCueText (N:=spec_float) Scenario.overlapping (of_Z 5) = "first"
  /\ chronological (N:=spec_float) Scenario.english_opening
  /\ activeCueText (N:=spec_float) Scenario.english_opening (decimal 35 1)
     = "Welcome to this video demonstration."
  /\ activeCueText (N:=spec_float) Scenario.english_opening (decimal 375 2) = "".
Proof.
  assert (Hch : chronological (N:=spec_float) Scenario.english_opening).
  { cbn [chronological Scenario.english_opening cue_start cue_end].
    repeat split; vm_compute; reflexivity. }
  split; [|split; [|split; [exact Hch | split]]].
  - apply (proj1 (active_cue_lookup Scenario.overlapping (of_Z 4)) 0%nat
             {| cue_start := of_Z 0; cue_end := of_Z 5; cue_text := "first" |});
      [reflexivity | vm_compute; reflexivity | vm_compute; reflexivity |].
    intros j c' Hj. lia.
  - apply (proj1 (proj2 (proj2 (active_cue_lookup Scenario.overlapping (of_Z 5))))
             0%nat
             {| cue_start := of_Z 0; cue_end := of_Z 5; cue_text := "first" |});
      [reflexivity | vm_compute; reflexivity |].
    intros j c' Hj. lia.
  - destruct (active_cue_lookup Scenario.english_opening (decimal 35 1))
      as (_ & _ & _ & Hordered).
    apply (proj1 (Hordered Hch) 0%nat
             {| cue_start := of_Z 0; cue_end := decimal 35 1;
                cue_text := "Welcome to this video demonstration." |});
      reflexivity.
  - destruct (active_cue_lookup Scenario.english_opening (decimal 375 2))
      as (_ & _ & _ & Hordered).
    apply (proj2 (Hordered Hch) 0%nat
             {| cue_start := of_Z 0; cue_end := decimal 35 1;
                cue_text := "Welcome to this video demonstration." |}
             {| cue_start := of_Z 4; cue_end := decimal 75 1;
                cue_text := "This showcases our advanced subtitle system." |});
      [reflexivity | reflexivity | vm_compute; split; reflexivity
       | vm_compute; split; reflexivity].
Defined.

(** *** The page component *)

Import Page Scenario.

Lemma run_cons (N : Type) (H : Number N) (formatFileSize : Z -> string)
  (rev : Revision) (e : Event N) (es : list (Event N)) (s : State N) :
  run formatFileSize rev (e :: es) s
  = run formatFileSize rev es (step formatFileSize rev e s).
Proof. reflexivity. Qed.

(** *** The sliders and the preview filter *)

Section Levels.

Context {N : Type} `{Number N}.
Variable formatFileSize : Z -> string.

(** The effect leaves a render alone in which neither has changed. *)
Lemma previewFilters_effect_same (before after : State N) :
  levels after = levels before -> previewFilters_effect before after = after.
Proof.
  unfold levels, previewFilters_effect. intros [= -> ->].
  now rewrite !Z.eqb_refl.
Qed.

Lemma levels_startStatusCheck (videoId : string) (s : State N) :
  levels (startStatusCheck videoId s) = levels s.
Proof. reflexivity. Qed.

Lemma levels_processingRamp_tick (id : nat) (setter : Feature) (msg : string)
  (captured : option string) (progress : spec_float) (random : Q) (s : State N) :
  levels (processingRamp_tick id setter msg captured progress random s) = levels s.
Proof.
  unfold processingRamp_tick.
  destruct (ramp_finished _); [destruct (truthy captured)|]; reflexivity.
Qed.

Lemma levels_subtitleStage_tick (remaining : list (Q * string)) (lang : string)
  (s : State N) :
  levels (subtitleStage_tick remaining lang s) = levels s.
Proof.
  unfold subtitleStage_tick.
  destruct remaining as [|stage [|next rest]]; [reflexivity | | reflexivity].
  destruct (generateMockSubtitleData lang); reflexivity.
Qed.

(** No timer moves a slider. *)
Lemma levels_fire (id : nat) (random : Q) (s : State N) :
  levels (fire id random s) = levels s.
Proof.
  unfold fire. destruct (find_timer id s) as [t|]; [|reflexivity].
  destruct (timer_callback t).
  - destruct (timer_repeats t); reflexivity.
  - destruct (timer_repeats t); reflexivity.
  - rewrite levels_processingRamp_tick. destruct (timer_repeats t); reflexivity.
  - destruct (timer_repeats t); reflexivity.
  - rewrite levels_subtitleStage_tick. destruct (timer_repeats t); reflexivity.
Qed.

Lemma levels_checkStatus_settled (videoId : string) (r : Response) (s : State N) :
  levels (checkStatus_settled videoId r s) = levels s.
Proof.
  unfold checkStatus_settled. destruct r as [v|data| |reason]; try reflexivity.
  destruct (String.eqb (vd_status data) "completed"),
           (String.eqb (vd_status data) "failed"); cbn [orb]; try reflexivity;
    cbn [statusCheckIntervalRef setVideoData];
    destruct (statusCheckIntervalRef s); reflexivity.
Qed.

Lemma levels_uploadVideo_settled (rev : Revision) (id : nat) (r : Response)
  (s : State N) :
  levels (uploadVideo_settled rev id r s) = levels s.
Proof.
  unfold uploadVideo_settled. destruct r as [v|data| |reason]; try reflexivity.
  destruct (truthy v); [destruct rev|]; reflexivity.
Qed.

Lemma levels_processVideo_settled (setter : Feature) (msg : string)
  (captured : option string) (r : Response) (s : State N) :
  levels (processVideo_settled setter msg captured r s) = levels s.
Proof. destruct r; reflexivity. Qed.

(** Nor does a call that settles. *)
Lemma levels_settle (rev : Revision) (request : nat) (r : Response) (s : State N) :
  levels (settle rev request r s) = levels s.
Proof.
  unfold settle. destruct (find_pending request s) as [k|]; [|reflexivity].
  destruct k.
  - now rewrite levels_uploadVideo_settled.
  - now rewrite levels_checkStatus_settled.
  - now rewrite levels_processVideo_settled.
Qed.

Lemma step_TimerFired (rev : Revision) (id : nat) (random : Q) (s : State N) :
  step formatFileSize rev (TimerFired id random) s = fire id random s.
Proof.
  destruct rev; [reflexivity|]. cbn [step handle].
  apply previewFilters_effect_same, levels_fire.
Qed.

Lemma step_Settled (rev : Revision) (request : nat) (r : Response) (s : State N) :
  step formatFileSize rev (Settled request r) s = settle rev request r s.
Proof.
  destruct rev; [reflexivity|]. cbn [step handle].
  apply previewFilters_effect_same, levels_settle.
Qed.

End Levels.

(** A poll that is set keeps fetching: each tick makes one request. *)
Lemma lone_poll_keeps_fetching (N : Type) (H : Number N)
  (formatFileSize : Z -> string) (rev : Revision) (id : nat) (videoId : string)
  (ticks : nat) (s : State N) :
  timers s = [ {| timer_id := id; timer_delay := 2000; timer_repeats := true;
                  timer_callback := CheckStatus videoId |} ] ->
  status_fetches videoId
    (run formatFileSize rev (repeat (TimerFired id 0) ticks) s)
  = (status_fetches videoId s + ticks)%nat.
Proof.
  revert s. induction ticks as [|k IH]; intros s Htimers.
  - cbn. lia.
  - cbn [repeat]. rewrite run_cons.
    assert (Hstep : step formatFileSize rev (TimerFired id 0) s
                    = checkStatus videoId s).
    { rewrite step_TimerFired. unfold fire, find_timer.
      rewrite Htimers. cbn. rewrite Nat.eqb_refl. reflexivity. }
    rewrite Hstep, IH.
    + unfold status_fetches, checkStatus, call. cbn.
      rewrite filter_app, length_app. cbn. rewrite String.eqb_refl. cbn. lia.
    + unfold checkStatus, call. cbn. exact Htimers.
Qed.

(** *** A polling run on its own *)

Section PollingAlone.

Context {N : Type} `{Number N}.
Variable formatFileSize : Z -> string.
Variable rev : Revision.

(** [startStatusCheck] fetches at once and sets the two-second interval,
    which the ref then names; it clears nothing. *)
Lemma startStatusCheck_effect (videoId : string) (s : State N) :
  let s' := startStatusCheck videoId s in
  requests s' = (requests s ++ [GetVideoStatus videoId])%list
  /\ timers s' = (timers s ++ [poll_timer (next_timer s) videoId])%list
  /\ statusCheckIntervalRef s' = Some (next_timer s)
  /\ pending s' = (pending s ++ [(next_request s, AwaitStatus videoId)])%list.
Proof. destruct s; cbn. repeat split; reflexivity. Qed.

Lemma startStatusCheck_alone (videoId : string) (s : State N) :
  timers s = [] -> pending s = [] ->
  polling_alone videoId (next_timer s) (startStatusCheck videoId s).
Proof.
  intros Ht Hp.
  destruct (startStatusCheck_effect videoId s) as (_ & Ht' & Hr' & Hp').
  unfold polling_alone. rewrite Ht', Hr', Hp', Ht, Hp. cbn.
  repeat split.
  - intros t [<- | []]. reflexivity.
  - intros p [<- | []]. reflexivity.
Qed.

Lemma find_timer_In (id : nat) (s : State N) (t : Timer) :
  find_timer id s = Some t -> In t (timers s).
Proof. unfold find_timer. intros Hf. now apply find_some in Hf. Qed.

Lemma find_pending_In (request : nat) (s : State N) (k : Continuation) :
  find_pending request s = Some k -> exists p, In p (pending s) /\ snd p = k.
Proof.
  unfold find_pending.
  destruct (find _ (pending s)) as [p|] eqn:Hf; [|discriminate].
  intros [= <-]. apply find_some in Hf. exists p. now split.
Qed.

(** What a status response does to the timers, the ref, the calls under
    way and the requests made. *)
Lemma checkStatus_settled_effect (videoId : string) (r : Response) (s : State N) :
  let s' := checkStatus_settled videoId r s in
  requests s' = requests s
  /\ pending s' = pending s
  /\ (timers s' = timers s /\ statusCheckIntervalRef s' = statusCheckIntervalRef s
      \/ exists id, statusCheckIntervalRef s = Some id
                    /\ statusCheckIntervalRef s' = None
                    /\ timers s' = filter (fun t => negb (Nat.eqb (timer_id t) id))
                                          (timers s))
  /\ (forall data, r = Status data -> terminal data = true ->
      match statusCheckIntervalRef s with
      | Some id => timers s' = filter (fun t => negb (Nat.eqb (timer_id t) id))
                                      (timers s)
      | None => timers s' = timers s
      end).
Proof.
  destruct s as [? ? ? ? ? ? ? ? ? ? ? ? ? ? ? ? ? ? ? ? ? ? ref tms].
  unfold terminal.
  destruct r as [v|data| |reason]; cbn;
    try (repeat split; try (left; split; reflexivity); intros; discriminate).
  destruct (String.eqb (vd_status data) "completed") eqn:Hc;
    destruct (String.eqb (vd_status data) "failed") eqn:Hf;
    destruct ref as [id|]; cbn;
    repeat split;
    try (left; split; reflexivity);
    try (right; exists id; repeat split; reflexivity);
    try (intros d [= <-]; rewrite ?Hc, ?Hf; cbn; try discriminate; intros _;
         reflexivity).
Qed.

Lemma filter_poll_timer (videoId : string) (id : nat) (l : list Timer) :
  (forall t, In t l -> t = poll_timer id videoId) ->
  filter (fun t => negb (Nat.eqb (timer_id t) id)) l = [].
Proof.
  induction l as [|t l IH]; intros Hall; [reflexivity|].
  cbn. rewrite (Hall t (or_introl eq_refl)). cbn. rewrite Nat.eqb_refl. cbn.
  apply IH. intros t' Ht'. apply Hall. now right.
Qed.

Lemma remove_pending_effect (request : nat) (s : State N) :
  timers (remove_pending request s) = timers s
  /\ statusCheckIntervalRef (remove_pending request s) = statusCheckIntervalRef s
  /\ requests (remove_pending request s) = requests s
  /\ (forall p, In p (pending (remove_pending request s)) -> In p (pending s)).
Proof.
  destruct s; cbn. repeat split.
  intros p Hp. now apply filter_In in Hp.
Qed.

(** An event of the runtime keeps a lone polling run alone. *)
Lemma polling_alone_step (videoId : string) (id : nat) (e : Event N)
  (s : State N) :
  polling_alone videoId id s -> from_runtime e = true ->
  polling_alone videoId id (step formatFileSize rev e s).
Proof.
  intros (Htimers & Href & Hpending) Hquiet.
  destruct e as [| | | |tid random|request r| | | | |]; try discriminate.
  - (* a timer is due *)
    assert (Hstep : step formatFileSize rev (TimerFired tid random) s
                    = fire tid random s) by apply step_TimerFired.
    rewrite Hstep. unfold fire.
    destruct (find_timer tid s) as [t|] eqn:Hfind; [|now repeat split].
    rewrite (Htimers t (find_timer_In _ _ _ Hfind)). cbn.
    destruct s; cbn in *. repeat split; try assumption.
    intros p Hp. apply in_app_or in Hp as [Hp | [<- | []]];
      [now apply Hpending | reflexivity].
  - (* a call settles *)
    assert (Hstep : step formatFileSize rev (Settled request r) s
                    = settle rev request r s) by apply step_Settled.
    rewrite Hstep. unfold settle.
    destruct (find_pending request s) as [k|] eqn:Hfind; [|now repeat split].
    apply find_pending_In in Hfind as (p & Hp & <-).
    rewrite (Hpending p Hp).
    destruct (remove_pending_effect request s) as (Ht & Hr & _ & Hsub).
    destruct (checkStatus_settled_effect videoId r (remove_pending request s))
      as (_ & Hp' & Hcases & _).
    cbv zeta in Hp', Hcases.
    unfold polling_alone. rewrite Hp'.
    destruct Hcases as [[Ht' Hr'] | (id' & Hid' & Hr' & Ht')].
    + rewrite Ht', Hr', Ht, Hr. repeat split; try assumption.
      intros q Hq. apply Hpending, Hsub, Hq.
    + rewrite Ht', Hr', Ht. rewrite Hr in Hid'.
      assert (Hempty : filter (fun t => negb (Nat.eqb (timer_id t) id')) (timers s)
                       = []).
      { destruct (timers s) as [|t0 l] eqn:Hl; [reflexivity|].
        rewrite Href in Hid' by discriminate. injection Hid' as <-.
        rewrite <- Hl. apply (filter_poll_timer videoId). rewrite Hl. exact Htimers. }
      rewrite Hempty. repeat split.
      * intros t [].
      * intros Hne. now contradiction Hne.
      * intros q Hq. apply Hpending, Hsub, Hq.
Qed.

(** When a terminal status arrives, the poll is cleared. *)
Lemma polling_alone_stops (videoId : string) (id request : nat)
  (data : VideoData) (s : State N) :
  polling_alone videoId id s -> find_pending request s <> None ->
  terminal data = true ->
  timers (step formatFileSize rev (Settled request (Status data)) s) = [].
Proof.
  intros (Htimers & Href & Hpending) Hfound Hterminal.
  assert (Hstep : step formatFileSize rev (Settled request (Status data)) s
                  = settle rev request (Status data) s) by apply step_Settled.
  rewrite Hstep. unfold settle.
  destruct (find_pending request s) as [k|] eqn:Hfind; [|congruence].
  apply find_pending_In in Hfind as (p & Hp & <-).
  rewrite (Hpending p Hp).
  destruct (remove_pending_effect request s) as (Ht & Hr & _ & _).
  destruct (checkStatus_settled_effect videoId (Status data)
              (remove_pending request s)) as (_ & _ & _ & Hterm).
  specialize (Hterm data eq_refl Hterminal). rewrite Hr, Ht in Hterm.
  destruct (timers s) as [|t0 l] eqn:Hl.
  - destruct (statusCheckIntervalRef s); exact Hterm.
  - rewrite Href in Hterm by discriminate. rewrite Hterm, <- Hl.
    apply (filter_poll_timer videoId). rewrite Hl. exact Htimers.
Qed.

(** Once the poll is cleared, the runtime makes no further request. *)
Lemma polling_alone_silent (videoId : string) (id : nat) (es : list (Event N))
  (s : State N) :
  polling_alone videoId id s -> timers s = [] ->
  forallb from_runtime es = true ->
  requests (run formatFileSize rev es s) = requests s.
Proof.
  revert s. induction es as [|e es IH]; intros s Halone Hnone Hquiet;
    [reflexivity|].
  cbn [forallb] in Hquiet. apply andb_true_iff in Hquiet as [He Hes].
  rewrite run_cons.
  pose proof (polling_alone_step videoId id e s Halone He) as Halone'.
  assert (Hsame : timers (step formatFileSize rev e s) = []
                  /\ requests (step formatFileSize rev e s) = requests s).
  { destruct Halone as (Htimers & Href & Hpending).
    destruct e as [| | | |tid random|request r| | | | |]; try discriminate.
    - assert (Hstep : step formatFileSize rev (TimerFired tid random) s = s).
      { rewrite step_TimerFired. unfold fire, find_timer. now rewrite Hnone. }
      rewrite Hstep. now split.
    - assert (Hstep : step formatFileSize rev (Settled request r) s
                      = settle rev request r s) by apply step_Settled.
      rewrite Hstep. unfold settle.
      destruct (find_pending request s) as [k|] eqn:Hfind; [|now split].
      apply find_pending_In in Hfind as (p & Hp & <-).
      rewrite (Hpending p Hp).
      destruct (remove_pending_effect request s) as (Ht & Hr & Hq & _).
      destruct (checkStatus_settled_effect videoId r (remove_pending request s))
        as (Hq' & _ & Hcases & _).
      cbv zeta in Hq', Hcases. rewrite Hq', Hq. split; [|reflexivity].
      destruct Hcases as [[Ht' _] | (id' & _ & _ & Ht')]; rewrite Ht', Ht, Hnone;
        reflexivity. }
  destruct Hsame as [Hnone' Hreq'].
  rewrite (IH _ Halone' Hnone' Hes). exact Hreq'.
Qed.

Lemma polling_alone_run (videoId : string) (id : nat) (es : list (Event N))
  (s : State N) :
  polling_alone videoId id s -> forallb from_runtime es = true ->
  polling_alone videoId id (run formatFileSize rev es s).
Proof.
  revert s. induction es as [|e es IH]; intros s Halone Hquiet; [exact Halone|].
  cbn [forallb] in Hquiet. apply andb_true_iff in Hquiet as [He Hes].
  rewrite run_cons. apply IH; [|exact Hes].
  now apply polling_alone_step.
Qed.

End PollingAlone.

(** A polling run that is started with no other timer set and no call
    under way, and that only the runtime acts on: it fetches at once,
    sets its two-second interval, and makes no request after a terminal
    status has arrived. *)
Theorem polling_run_alone_terminates :
  forall (N : Type) (H : Number N) (formatFileSize : Z -> string)
         (rev : Revision) (s : State N) (videoId : string)
         (before after : list (Event N)) (request : nat) (data : VideoData),
    timers s = [] -> pending s = [] ->
    forallb from_runtime before = true ->
    forallb from_runtime after = true ->
    let started := startStatusCheck videoId s in
    let running := run formatFileSize rev before started in
    find_pending request running <> None ->
    terminal data = true ->
    let stopped := step formatFileSize rev (Settled request (Status data)) running in
    status_fetches videoId started = S (status_fetches videoId s)
    /\ timers started = [poll_timer (next_timer s) videoId]
    /\ timers stopped = []
    /\ requests (run formatFileSize rev after stopped) = requests running.
Proof.
  intros N H formatFileSize rev s videoId before after request data
         Htimers Hpending Hbefore Hafter started running Hfound Hterminal stopped.
  pose proof (startStatusCheck_alone videoId s Htimers Hpending) as Halone.
  pose proof (polling_alone_run formatFileSize rev videoId _ before _ Halone Hbefore)
    as Hrunning.
  fold started in Hrunning. fold running in Hrunning.
  pose proof (polling_alone_stops formatFileSize rev videoId _ request data running
                Hrunning Hfound Hterminal) as Hstopped.
  fold stopped in Hstopped.
  assert (Halone' : polling_alone videoId (next_timer s) stopped)
    by (apply polling_alone_step; [exact Hrunning | reflexivity]).
  destruct (startStatusCheck_effect videoId s) as (Hreq & Htm & _ & _).
  repeat split.
  - unfold started, status_fetches. rewrite Hreq, filter_app, length_app. cbn.
    rewrite String.eqb_refl. cbn. lia.
  - unfold started. rewrite Htm, Htimers. reflexivity.
  - exact Hstopped.
  - rewrite (polling_alone_silent formatFileSize rev videoId _ after stopped
               Halone' Hstopped Hafter).
    (* the terminal response itself makes no request *)
    unfold stopped.
    assert (Hstep : step formatFileSize rev (Settled request (Status data)) running
                    = settle rev request (Status data) running)
      by apply step_Settled.
    rewrite Hstep. unfold settle.
    destruct (find_pending request running) as [k|] eqn:Hfind; [|congruence].
    destruct Hrunning as (_ & _ & Hpend).
    apply find_pending_In in Hfind as (p & Hp & <-).
    rewrite (Hpend p Hp).
    destruct (remove_pending_effect request running) as (_ & _ & Hq & _).
    destruct (checkStatus_settled_effect videoId (Status data)
                (remove_pending request running)) as (Hq' & _).
    cbv zeta in Hq'. now rewrite Hq', Hq.
Qed.

(** *** Claims about the page component *)

(** C9 fails as stated: with the English track loaded, the time update at
    second 1 resolves the first cue when subtitles are shown and resolves
    nothing when they are hidden; and a caption that was hidden over the
    end of its cue is displayed again, stale, when subtitles are shown in
    the gap that follows. *)
Lemma lookup_independent_of_toggle_counterexample :
  currentSubtitle
    (handleVideoTimeUpdate (of_Z 1)
       (setShowSubtitles true (english_loaded (N:=spec_float))))
  <> currentSubtitle
       (handleVideoTimeUpdate (of_Z 1)
          (setShowSubtitles false (english_loaded (N:=spec_float))))
  /\ overlay (run (fun _ => "10 MB") Player hide_then_show
                  (english_loaded (N:=spec_float)))
     = Some "Welcome to this video demonstration."
  /\ exists english : SubtitleData spec_float,
       generateMockSubtitleData "en" = Returns english
       /\ activeCueText (cues english) (decimal 375 2) = "".
Proof.
  split; [|split].
  - vm_compute. discriminate.
  - vm_compute. reflexivity.
  - destruct (generateMockSubtitleData (N:=spec_float) "en") as [english|message]
      eqn:Hgen; [|vm_compute in Hgen; discriminate Hgen].
    exists english. split; [reflexivity|].
    apply (f_equal (fun r => match r with
                             | Returns track =>
                                 activeCueText (cues track) (decimal 375 2)
                             | Throws _ => ""
                             end)) in Hgen.
    rewrite <- Hgen. vm_compute. reflexivity.
Qed.

(** C9, amended.  [showSubtitles] gates the lookup as well as the display:
    a time update runs the lookup and stores its result only while a track
    is loaded and subtitles are shown, and the result then depends on the
    track and the time alone; while subtitles are hidden a time update
    leaves the stored caption as it was.  The overlay displays the stored
    caption exactly when subtitles are shown and the caption is not empty
    (and a video is loaded).  Neither step changes the toggle or the
    track. *)
Theorem toggle_gates_lookup_and_display :
  forall (N : Type) (H : Number N) (s : State N) (time : N),
    currentSubtitle (handleVideoTimeUpdate time s)
    = match subtitleData s with
      | Some data =>
          if showSubtitles s then activeCueText (cues data) time
          else currentSubtitle s
      | None => currentSubtitle s
      end
    /\ showSubtitles (handleVideoTimeUpdate time s) = showSubtitles s
    /\ subtitleData (handleVideoTimeUpdate time s) = subtitleData s
    /\ overlay s
       = (if match videoSrc s with Some _ => true | None => false end
             && showSubtitles s
             && negb (String.eqb (currentSubtitle s) "")
          then Some (currentSubtitle s) else None).
Proof.
  intros N H s time. unfold handleVideoTimeUpdate, overlay.
  destruct s as [? src ? ? ? ? ? ? ? data shown]; cbn.
  destruct data, shown, src; cbn; repeat split; reflexivity.
Qed.

(** C7 fails as stated.  In [Pages]: while audio processing of job [v1] is
    under way a new file is selected; the audio progress bar keeps its
    state instead of going back to [{visible: false, percentage: 0,
    status: ''}], the status poll and the ramp of the old job stay set,
    and the old poll goes on asking for [v1].  In [Player]: after
    subtitles were generated a new file is selected; the track is cleared
    but the subtitle progress bar still shows the finished run. *)
Lemma file_select_discards_everything_counterexample :
  let before := run (N:=spec_float) (fun _ => "10 MB") Pages processing_under_way
                    (initial Pages) in
  let after := step (fun _ => "2 KB") Pages (FileSelected (Some other_clip)) before in
  let generated := run (N:=spec_float) (fun _ => "10 MB") Player
                       subtitles_generated (initial Player) in
  let replaced := step (fun _ => "2 KB") Player (FileSelected (Some other_clip))
                       generated in
  option_map language (subtitleData generated) = Some "en"
  /\ subtitleData replaced = None
  /\ progressOf replaced Subtitles
     = {| visible := true; percentage := 100;
          status := "Subtitles generated successfully!" |}
  /\ progressOf replaced Subtitles <> noProgress
  /\ progressOf after Audio
     = {| visible := true; percentage := 15; status := "15% - Processing..." |}
  /\ progressOf after Audio <> noProgress
  /\ pollers after = [(2%nat, "v1")]
  /\ map timer_callback (timers after)
     = [ CheckStatus "v1";
         ProcessingRamp Audio "Audio processing completed successfully"
                        (Some "v1") (Binary64.b64_of_Z 15);
         UploadRamp ]
  /\ status_fetches "v1" (step (fun _ => "2 KB") Pages (TimerFired 2 0) after)
     = S (status_fetches "v1" after).
Proof.
  vm_compute. repeat split; try reflexivity; discriminate.
Qed.

(** C7, amended.  Whenever a new video file is selected, the handler
    records the file and a fresh preview URL and clears the job id, the
    job metadata and the thumbnail selections; the revision with the
    player also clears the subtitle track and the caption and puts
    brightness and contrast back to 100; its preview filter is then the
    empty string when both were at 100 already, and
    [brightness(1) contrast(1)], which the effect on the two levels sets
    after the handler, when one of them was not.  Every feature's
    ProgressState is left exactly as it was.  The upload of the new file
    starts at once. *)
Theorem file_select_resets :
  forall (N : Type) (H : Number N) (formatFileSize : Z -> string)
         (rev : Revision) (s : State N) (file : File),
    let s' := step formatFileSize rev (FileSelected (Some file)) s in
    selectedFile s' = Some file
    /\ videoSrc s' = Some (next_url s)
    /\ uploadedVideoId s' = None
    /\ videoData s' = None
    /\ generatedThumbnail s' = None
    /\ thumbnailFrames s' = []
    /\ selectedFrameIndex s' = None
    /\ match rev with
       | Player =>
           subtitleData s' = None /\ currentSubtitle s' = ""
           /\ brightnessLevel s' = 100%Z /\ contrastLevel s' = 100%Z
           /\ previewFilters s'
              = (if Z.eqb (brightnessLevel s) 100 && Z.eqb (contrastLevel s) 100
                 then "" else "brightness(1) contrast(1)")
       | Pages =>
           subtitleData s' = subtitleData s
           /\ currentSubtitle s' = currentSubtitle s
       end
    /\ (forall f : Feature, progressOf s' f = progressOf s f)
    /\ isUploading s' = true
    /\ uploadProgress s' = 0
    /\ requests s' = (requests s ++ [UploadVideo file])%list.
Proof.
  intros N H formatFileSize rev s file.
  destruct rev.
  - destruct s; cbv -[String.append]; repeat split; reflexivity.
  - cbn [step]. unfold previewFilters_effect.
    set (handled := handle formatFileSize Player (FileSelected (Some file)) s).
    assert (Hb : brightnessLevel handled = 100%Z)
      by (subst handled; destruct s as [? ? ? ? ? ? ? ? ? ? ? ? ? ? ? ? ? ? ? ? ? ? ref];
          destruct ref; reflexivity).
    assert (Hc : contrastLevel handled = 100%Z)
      by (subst handled; destruct s as [? ? ? ? ? ? ? ? ? ? ? ? ? ? ? ? ? ? ? ? ? ? ref];
          destruct ref; reflexivity).
    assert (Hhandled :
              selectedFile handled = Some file
              /\ videoSrc handled = Some (next_url s)
              /\ uploadedVideoId handled = None
              /\ videoData handled = None
              /\ generatedThumbnail handled = None
              /\ thumbnailFrames handled = []
              /\ selectedFrameIndex handled = None
              /\ subtitleData handled = None
              /\ currentSubtitle handled = ""
              /\ previewFilters handled = ""
              /\ (forall f : Feature, progressOf handled f = progressOf s f)
              /\ isUploading handled = true
              /\ uploadProgress handled = 0
              /\ requests handled = (requests s ++ [UploadVideo file])%list).
    { subst handled.
      destruct s as [? ? ? ? ? ? ? ? ? ? ? ? ? ? ? ? ? ? ? ? ? ? ref];
        destruct ref; cbv -[String.append]; repeat split; reflexivity. }
    destruct Hhandled as (? & ? & ? & ? & ? & ? & ? & ? & ? & ? & ? & ? & ? & ?).
    clearbody handled. rewrite Hb, Hc.
    assert (Hone : filterString 100 100 = "brightness(1) contrast(1)")
      by (vm_compute; reflexivity).
    rewrite Hone.
    destruct (Z.eqb (brightnessLevel s) 100 && Z.eqb (contrastLevel s) 100);
      cbn; repeat split; assumption.
Qed.

(** C8 (the code departs from it).  In every state the rest of
    [uploadVideo] clears the ramp when the upload succeeds and leaves all
    timers as they are when it is rejected.  So when an upload is
    rejected, in either revision: no job id is stored, the failure is
    logged and shown, the upload flag is dropped; but the progress ramp,
    timer 1, is still set and its next tick still moves the progress
    bar. *)
Theorem rejected_upload_leaves_ramp_running :
  forall (N : Type) (H : Number N) (formatFileSize : Z -> string)
         (rev : Revision) (any : State N) (progressInterval : nat)
         (reason : option string),
    let s := run (N:=N) formatFileSize rev upload_rejected (initial rev) in
    timers (uploadVideo_settled rev progressInterval (Rejected reason) any)
    = timers any
    /\ timers (uploadVideo_settled rev progressInterval (Uploaded None) any)
       = filter (fun t => negb (Nat.eqb (timer_id t) progressInterval))
                (timers any)
    /\ uploadedVideoId s = None
    /\ isUploading s = false
    /\ last (consoleLogs s) {| message := ""; type := info |}
       = {| message := "Upload failed: Network Error"; type := error |}
    /\ toasts s = [ErrorToast "Upload failed. Please try again."]
    /\ pending s = []
    /\ map timer_callback (timers s) = [UploadRamp]
    /\ ramp_set 1 s = true
    /\ uploadProgress s = 0
    /\ uploadProgress (step formatFileSize rev (TimerFired 1 (1 # 2)) s) = 15 # 2.
Proof.
  intros N H formatFileSize rev any progressInterval reason.
  split; [destruct any; reflexivity|].
  split; [destruct any; reflexivity|].
  destruct rev; vm_compute; repeat split; reflexivity.
Qed.

(** C6 (the code departs from it).  [startStatusCheck] adds a poll to the
    polls that are set, in every state, and clears none.  In [Pages], when
    the processing ramp of job [v1] finishes while the poll started by the
    upload is still set, two status polls are set for [v1], and the ref
    names only the second: the cleanup of the component then clears the
    second and leaves the first. *)
Theorem second_poll_leaks_the_first :
  forall (N : Type) (H : Number N) (formatFileSize : Z -> string)
         (any : State N) (videoId : string),
    let before := run (N:=N) formatFileSize Pages processing_started (initial Pages) in
    let s := run (N:=N) formatFileSize Pages processing_finished (initial Pages) in
    pollers (startStatusCheck videoId any)
    = (pollers any ++ [(next_timer any, videoId)])%list
    /\ pollers before = [(2%nat, "v1")]
    /\ statusCheckIntervalRef before = Some 2%nat
    /\ pollers s = [(2%nat, "v1"); (4%nat, "v1")]
    /\ statusCheckIntervalRef s = Some 4%nat
    /\ pollers (effect_cleanup s) = [(2%nat, "v1")].
Proof.
  intros N H formatFileSize any videoId. split.
  - unfold pollers.
    destruct (startStatusCheck_effect videoId any) as (_ & -> & _).
    rewrite flat_map_app. reflexivity.
  - vm_compute. repeat split; reflexivity.
Qed.

(** C1 (the code departs from it).  In the same session the second poll
    then fetches the status [completed]: [checkStatus] clears the interval
    named by the ref, which is the second poll, and the first poll stays
    set.  Its ticks go on fetching the status of [v1] after the terminal
    status was seen, one fetch a tick, and when such a fetch reports
    [completed] in its turn the ref is empty and the poll is still not
    cleared. *)
Theorem leaked_poll_fetches_after_terminal_status :
  forall (N : Type) (H : Number N) (formatFileSize : Z -> string) (ticks : nat),
    let s := run (N:=N) formatFileSize Pages job_completed (initial Pages) in
    let again := run (N:=N) formatFileSize Pages leaked_poll_sees_completed
                     (initial Pages) in
    pollers again = [(2%nat, "v1")]
    /\ status_fetches "v1" again = 3%nat
    /\ option_map vd_status (videoData s) = Some "completed"
    /\ statusCheckIntervalRef s = None
    /\ pollers s = [(2%nat, "v1")]
    /\ status_fetches "v1" s = 2%nat
    /\ status_fetches "v1"
         (run formatFileSize Pages (repeat (TimerFired 2 0) ticks) s)
       = (2 + ticks)%nat.
Proof.
  intros N H formatFileSize ticks.
  set (s := run formatFileSize Pages job_completed (initial Pages)).
  assert (Hcount : status_fetches "v1" s = 2%nat) by (vm_compute; reflexivity).
  do 6 (split; [vm_compute; reflexivity|]).
  rewrite <- Hcount. apply lone_poll_keeps_fetching.
  vm_compute. reflexivity.
Qed.

(* ================================================================== *)
(** ** Further properties of the code *)
(* ================================================================== *)

From Stdlib Require Import Lqa.

Import Widgets.

(** *** The clock of the player *)

(** X1.  The clock shows whole minutes and the seconds within the
    minute, fraction dropped, each with at least two digits, and the
    minutes are not wrapped at sixty: one hour reads [60:00].  Computed on
    doubles, for every time of whole and half seconds below 100 minutes.
    A time that is not finite, as the duration of a video is before its
    metadata is known or for a live stream, reads [NaN:NaN] or
    [Infinity:NaN]. *)
Theorem formatTime_binary64 :
  (forall n half : Z,
      (0 <= n < 6000)%Z -> (0 <= half < 2)%Z ->
      formatTime (N:=spec_float) (div (of_Z (2 * n + half)) (of_Z 2))
      = two_digits (n / 60) ++ ":" ++ two_digits (n mod 60))
  /\ formatTime (N:=spec_float) (of_Z 3600) = "60:00"
  /\ formatTime (N:=spec_float) (of_Z 6000) = "100:00"
  /\ formatTime S754_nan = "NaN:NaN"
  /\ formatTime (S754_infinity false) = "Infinity:NaN".
Proof.
  split; [|repeat split; vm_compute; reflexivity].
  intros n half Hn Hhalf.
  pose (reads := fun half n : Z =>
                   String.eqb
                     (formatTime (N:=spec_float)
                        (div (of_Z (2 * n + half)) (of_Z 2)))
                     (two_digits (n / 60) ++ ":" ++ two_digits (n mod 60))).
  assert (Hbound : Z.of_nat (Z.to_nat 6000) = 6000%Z) by reflexivity.
  assert (Hwhole : reads 0%Z n = true).
  { apply (below_bound (reads 0%Z) (Z.to_nat 6000)); [|lia].
    vm_compute. reflexivity. }
  assert (Hhalves : reads 1%Z n = true).
  { apply (below_bound (reads 1%Z) (Z.to_nat 6000)); [|lia].
    vm_compute. reflexivity. }
  apply String.eqb_eq.
  assert (Hcase : half = 0%Z \/ half = 1%Z) by lia.
  destruct Hcase as [-> | ->]; assumption.
Qed.

Lemma formatTime_binary64_witness :
  (0 <= 754 < 6000)%Z /\ (0 <= 1 < 2)%Z
  /\ formatTime (N:=spec_float) (decimal 7545 1) = "12:34".
Proof.
  assert (Hn : (0 <= 754 < 6000)%Z) by lia.
  assert (Hhalf : (0 <= 1 < 2)%Z) by lia.
  split; [exact Hn|]. split; [exact Hhalf|].
  exact (proj1 formatTime_binary64 754%Z 1%Z Hn Hhalf).
Defined.

(** *** Seeking stays inside the video *)

Lemma Math_min_cases (a b : Q) :
  (a <= b /\ Math_min a b = a) \/ (b <= a /\ Math_min a b = b).
Proof.
  unfold Math_min. destruct (Qle_bool a b) eqn:Hab.
  - left. split; [now apply Qle_bool_iff | reflexivity].
  - right. split; [|reflexivity].
    destruct (Qlt_le_dec b a) as [Hlt | Hle]; [now apply Qlt_le_weak|].
    apply Qle_bool_iff in Hle. congruence.
Qed.

Lemma Math_max_cases (a b : Q) :
  (a <= b /\ Math_max a b = b) \/ (b <= a /\ Math_max a b = a).
Proof.
  unfold Math_max. destruct (Qle_bool a b) eqn:Hab.
  - left. split; [now apply Qle_bool_iff | reflexivity].
  - right. split; [|reflexivity].
    destruct (Qlt_le_dec b a) as [Hlt | Hle]; [now apply Qlt_le_weak|].
    apply Qle_bool_iff in Hle. congruence.
Qed.

(** X3.  A skip never leaves the video: whatever the step and the current
    time, the target lies between the start and the end of the video, and
    a step that stays inside is taken as it is. *)
Theorem skipTime_in_range :
  forall duration currentTime seconds : Q,
    0 <= duration ->
    0 <= skipTime duration currentTime seconds
    /\ skipTime duration currentTime seconds <= duration
    /\ (0 <= currentTime + seconds -> currentTime + seconds <= duration ->
        skipTime duration currentTime seconds == currentTime + seconds).
Proof.
  intros duration currentTime seconds Hd. unfold skipTime.
  set (target := currentTime + seconds).
  destruct (Math_min_cases duration target) as [[Hle ->] | [Hle ->]];
    [destruct (Math_max_cases 0 duration) as [[H0 ->] | [H0 ->]]
    |destruct (Math_max_cases 0 target) as [[H0 ->] | [H0 ->]]];
    repeat split; try intros Hlow Hhigh; lra.
Qed.

Lemma skipTime_in_range_witness :
  0 <= 42 # 1
  /\ skipTime (42 # 1) (5 # 1) (-10 # 1) = 0
  /\ skipTime (42 # 1) (40 # 1) (10 # 1) <= 42 # 1.
Proof.
  assert (Hd : 0 <= 42 # 1) by (unfold Qle; simpl; lia).
  split; [exact Hd|]. split; [reflexivity|].
  exact (proj1 (proj2 (skipTime_in_range (42 # 1) (40 # 1) (10 # 1) Hd))).
Defined.



(** *** Language names *)

(** X5.  [getLanguageName] gives every code of the selector its own name and
    every other string the name [English]. *)
Theorem getLanguageName_total :
  forall code : string,
    (forall name, In (code, name) languageOptions -> getLanguageName code = name)
    /\ (~ In code (map fst languageOptions) -> getLanguageName code = "English").
Proof.
  intros code. split.
  - intros name Hin. cbn in Hin.
    repeat (destruct Hin as [[= <- <-] | Hin]; [reflexivity|]).
    contradiction.
  - intros Hout. unfold getLanguageName.
    destruct (find _ languageOptions) as [[c n]|] eqn:Hfind; [|reflexivity].
    apply find_some in Hfind as [Hin Heq]. cbn [fst] in Heq.
    apply String.eqb_eq in Heq. subst c.
    exfalso. apply Hout. apply (in_map fst) in Hin. exact Hin.
Qed.

Lemma getLanguageName_total_witness :
  In ("ru-ur", "Roman Urdu") languageOptions
  /\ getLanguageName "ru-ur" = "Roman Urdu"
  /\ getLanguageName "tlh" = "English".
Proof.
  assert (Hin : In ("ru-ur", "Roman Urdu") languageOptions)
    by (cbn; right; right; left; reflexivity).
  split; [exact Hin|]. split.
  - exact (proj1 (getLanguageName_total "ru-ur") _ Hin).
  - apply (proj2 (getLanguageName_total "tlh")).
    cbn. intros Hin'.
    repeat (destruct Hin' as [E | Hin']; [discriminate E|]). exact Hin'.
Defined.

(** *** The tracks of the generator *)

Lemma exact_chronological (lang : string) (track : SubtitleData Q) :
  generateMockSubtitleData lang = Returns track -> chronological (cues track).
Proof.
  intros Htrack.
  apply (for_chosen_texts (fun cs => chronological (N:=Q) cs)
           ltac:(cbn [map snd subtitleTexts]; repeat constructor)
           lang track Htrack).
Qed.

Lemma generated_length (N : Type) (H : Number N) (lang : string)
  (track : SubtitleData N) :
  generateMockSubtitleData lang = Returns track ->
  List.length (cues track) = 5%nat.
Proof.
  intros Htrack.
  apply generate_returns in Htrack as (texts & Hin & ->).
  cbn [cues]. unfold map_indexed. rewrite map_from_length.
  cbn in Hin. repeat (destruct Hin as [<- | Hin]; [reflexivity|]).
  contradiction.
Qed.

(** X6.  Whatever language is asked for, a track that comes back satisfies
    the invariants of the data model: it carries the language that was
    asked for, its [srt] field is the SRT text of its own cues, it has
    five cues, and the cues are in chronological order without overlap, in
    binary64 as in exact arithmetic.  A track comes back for every code
    that is not the name of a member of [Object.prototype]; for those
    names the generator throws. *)
Theorem generated_track_invariant :
  forall lang : string,
    (forall track : SubtitleData spec_float,
        generateMockSubtitleData lang = Returns track ->
        language track = lang
        /\ srt track = encodeSRT (cues track)
        /\ List.length (cues track) = 5%nat
        /\ chronological (cues track))
    /\ (forall track : SubtitleData Q,
          generateMockSubtitleData lang = Returns track ->
          chronological (cues track))
    /\ (~ In lang Object_prototype ->
        exists track : SubtitleData spec_float,
          generateMockSubtitleData lang = Returns track)
    /\ (In lang Object_prototype ->
        generateMockSubtitleData (N:=spec_float) lang
        = Throws "texts.map is not a function").
Proof.
  intros lang. split; [|split; [|split]].
  - intros track Htrack.
    destruct (for_chosen_texts (fun _ => True)
                ltac:(cbn [map snd subtitleTexts]; repeat constructor)
                lang track Htrack) as (_ & Hsrt & Hlang).
    split; [exact Hlang|]. split; [exact Hsrt|].
    split; [exact (generated_length _ _ lang track Htrack)|].
    exact (binary64_chronological lang track Htrack).
  - intros track Htrack. exact (exact_chronological lang track Htrack).
  - apply generate_outside_prototype.
  - apply generate_inherited.
Qed.

Lemma generated_track_invariant_witness :
  ~ In "de" Object_prototype
  /\ In "valueOf" Object_prototype
  /\ (exists track : SubtitleData spec_float,
         generateMockSubtitleData "de" = Returns track
         /\ language track = "de"
         /\ List.length (cues track) = 5%nat)
  /\ generateMockSubtitleData (N:=spec_float) "valueOf"
     = Throws "texts.map is not a function".
Proof.
  assert (Hde : ~ In "de" Object_prototype).
  { simpl. intros Hin.
    repeat (destruct Hin as [E | Hin]; [discriminate E|]). exact Hin. }
  assert (Hin : In "valueOf" Object_prototype)
    by (simpl; do 7 right; left; reflexivity).
  split; [exact Hde|]. split; [exact Hin|].
  destruct (generated_track_invariant "de") as (Hinv & _ & Hsome & _).
  destruct (generated_track_invariant "valueOf") as (_ & _ & _ & Hthrows).
  split; [|exact (Hthrows Hin)].
  destruct (Hsome Hde) as [track Htrack].
  destruct (Hinv track Htrack) as (Hlang & _ & Hlength & _).
  exists track. split; [exact Htrack|]. split; [exact Hlang | exact Hlength].
Defined.

(** X7.  In exact arithmetic, on the track of any language: line [i] is the
    caption from second [4 i] to second [4 i + 3.5], both included, and
    there is no caption at any other time. *)
Theorem generated_caption_times :
  forall (lang : string) (track : SubtitleData Q) (t : Q),
    generateMockSubtitleData lang = Returns track ->
    (forall (i : nat) (c : SubtitleCue Q),
        nth_error (cues track) i = Some c ->
        inject_Z (Z.of_nat i) * 4 <= t ->
        t <= inject_Z (Z.of_nat i) * 4 + (7 # 2) ->
        activeCueText (cues track) t = cue_text c)
    /\ ((forall i : nat, (i < 5)%nat ->
           ~ (inject_Z (Z.of_nat i) * 4 <= t
              /\ t <= inject_Z (Z.of_nat i) * 4 + (7 # 2))) ->
        activeCueText (cues track) t = "").
Proof.
  intros lang track t Htrack. split.
  - intros i c Hi Hlow Hhigh.
    destruct (exact_window lang track i c Htrack Hi) as [Hs He].
    apply (activeCueText_first _ t i c Hi).
    + apply active_iff. cbn [leb Exact.number].
      split; apply Qle_bool_iff; [rewrite Hs | rewrite He]; lra.
    + intros j c' Hj Hc'.
      destruct (exact_window lang track j c' Htrack Hc') as [_ He'].
      destruct (active t c') eqn:Hact; [|reflexivity].
      apply active_iff in Hact as [_ Hend]. cbn [leb Exact.number] in Hend.
      apply Qle_bool_iff in Hend. rewrite He' in Hend.
      assert (Hji : inject_Z (Z.of_nat j) + 1 <= inject_Z (Z.of_nat i)).
      { rewrite <- (inject_Z_plus _ 1), <- Zle_Qle. lia. }
      lra.
  - intros Hnone. apply activeCueText_none. intros c Hin.
    apply In_nth_error in Hin as [i Hi].
    assert (Hlt : (i < 5)%nat).
    { rewrite <- (generated_length Q Exact.number lang track Htrack).
      apply nth_error_Some. congruence. }
    destruct (exact_window lang track i c Htrack Hi) as [Hs He].
    destruct (active t c) eqn:Hact; [|reflexivity].
    apply active_iff in Hact as [Hstart Hend]. cbn [leb Exact.number] in *.
    apply Qle_bool_iff in Hstart, Hend. rewrite Hs in Hstart. rewrite He in Hend.
    exfalso. apply (Hnone i Hlt). split; lra.
Qed.

Lemma generated_caption_times_witness :
  exists track : SubtitleData Q,
    generateMockSubtitleData "es" = Returns track
    /\ activeCueText (cues track) (23 # 2)
       = "Impulsado por la tecnología OpenAI Whisper."
    /\ activeCueText (cues track) (47 # 4) = "".
Proof.
  eexists. split; [reflexivity|]. split.
  - apply (proj1 (generated_caption_times "es" _ (23 # 2) eq_refl) 2%nat
             {| cue_start := 8; cue_end := 23 # 2;
                cue_text := "Impulsado por la tecnología OpenAI Whisper." |});
      [reflexivity | unfold Qle; simpl; lia | unfold Qle; simpl; lia].
  - apply (proj2 (generated_caption_times "es" _ (47 # 4) eq_refl)).
    intros i Hi [Hlow Hhigh]. unfold Qle in Hlow, Hhigh. simpl in Hlow, Hhigh.
    lia.
Defined.

(** *** Upload progress *)

(** X8.  The simulated upload progress never shows more than 95: whatever
    [Math.random] returns, a tick of the ramp leaves the bar at 95 or
    below, and it does not move the bar backwards while the bar is at 95
    or below and the random number is not negative.  A tick touches
    nothing but the bar. *)
Theorem upload_ramp_capped :
  forall (N : Type) (H : Number N) (s : State N) (random : Q),
    uploadProgress (uploadRamp_tick random s) <= 95
    /\ (0 <= random -> uploadProgress s <= 95 ->
        uploadProgress s <= uploadProgress (uploadRamp_tick random s))
    /\ timers (uploadRamp_tick random s) = timers s
    /\ requests (uploadRamp_tick random s) = requests s
    /\ uploadedVideoId (uploadRamp_tick random s) = uploadedVideoId s.
Proof.
  intros N H s random.
  assert (Hvalue : uploadProgress (uploadRamp_tick random s)
                   = Math_min (Qred (uploadProgress s + random * 15)) 95)
    by (destruct s; reflexivity).
  rewrite Hvalue.
  destruct (Math_min_cases (Qred (uploadProgress s + random * 15)) 95)
    as [[Hle ->] | [Hle ->]];
    rewrite ?Qred_correct in *;
    repeat split; try (destruct s; reflexivity); try intros Hr Hp; lra.
Qed.

Lemma upload_ramp_capped_witness :
  0 <= 99 # 100
  /\ uploadProgress (setUploadProgress 90 (initial (N:=spec_float) Pages)) <= 95
  /\ uploadProgress (setUploadProgress 90 (initial (N:=spec_float) Pages))
     <= uploadProgress
          (uploadRamp_tick (99 # 100)
             (setUploadProgress 90 (initial (N:=spec_float) Pages))).
Proof.
  assert (Hr : 0 <= 99 # 100) by (unfold Qle; simpl; lia).
  assert (Hp : uploadProgress
                 (setUploadProgress 90 (initial (N:=spec_float) Pages)) <= 95)
    by (unfold Qle; simpl; lia).
  split; [exact Hr|]. split; [exact Hp|].
  exact (proj1 (proj2 (upload_ramp_capped spec_float Binary64.number
                         (setUploadProgress 90 (initial Pages)) (99 # 100)))
               Hr Hp).
Defined.

(** X9.  An upload that the server accepts without giving an id (no
    [video_id], or an empty one) ends silently: the ramp is cleared, the
    bar jumps to 100 and the upload flag is dropped, but no job id is
    stored, no status poll starts, and nothing is logged or shown. *)
Theorem upload_without_id_is_silent :
  forall (N : Type) (H : Number N) (rev : Revision) (progressInterval : nat)
         (video_id : option string) (s : State N),
    truthy video_id = false ->
    let s' := uploadVideo_settled rev progressInterval (Uploaded video_id) s in
    uploadProgress s' = 100
    /\ isUploading s' = false
    /\ uploadedVideoId s' = uploadedVideoId s
    /\ timers s' = filter (fun t => negb (Nat.eqb (timer_id t) progressInterval))
                          (timers s)
    /\ statusCheckIntervalRef s' = statusCheckIntervalRef s
    /\ requests s' = requests s
    /\ consoleLogs s' = consoleLogs s
    /\ toasts s' = toasts s.
Proof.
  intros N H rev progressInterval video_id s Hid.
  unfold uploadVideo_settled. rewrite Hid.
  destruct s; cbn. repeat split; reflexivity.
Qed.

Lemma upload_without_id_is_silent_witness :
  truthy (Some "") = false
  /\ uploadProgress
       (uploadVideo_settled Pages 1 (Uploaded (Some ""))
          (initial (N:=spec_float) Pages)) = 100.
Proof.
  split; [reflexivity|].
  exact (proj1 (upload_without_id_is_silent spec_float Binary64.number Pages 1
                  (Some "") (initial Pages) eq_refl)).
Defined.

(** *** Processing a feature *)



(** X11.  One tick of a processing ramp.  The counter is a double:
    [progress += Math.random() * 10] and the test [progress >= 100] are
    made on doubles.  While the new counter is a number below 100 the bar
    of the feature shows it, with its rounded value in the status line, the
    counter is kept in the timer, and every timer stays set.  Once it is
    100 or above the bar shows exactly 100 with the success message, the
    success is logged, the ramp clears itself, and a status poll with an
    immediate fetch is started for the job the ramp was started with.
    From 93, with the double 0.7 for [Math.random()], the ramp finishes,
    although the exact sum of 93 and ten times that double is below 100. *)
Theorem processing_ramp_tick :
  forall (N : Type) (H : Number N) (s : State N) (id : nat) (setter : Feature)
         (msg : string) (videoId : string) (progress : spec_float) (random : Q),
    (id < next_timer s)%nat -> videoId <> "" ->
    let s' := processingRamp_tick id setter msg (Some videoId) progress random s in
    let counter := ramp_next progress random in
    (ramp_finished counter = false -> Binary64.is_finite counter = true ->
       progressOf s' setter
       = {| visible := visible (progressOf s setter);
            percentage := Binary64.b64_value counter;
            status := toString (Math_round (Binary64.b64_value counter))
                      ++ "% - Processing..." |}
       /\ map timer_id (timers s') = map timer_id (timers s)
       /\ (forall t, In t (timers s') -> timer_id t = id ->
                     timer_callback t
                     = ProcessingRamp setter msg (Some videoId) counter)
       /\ requests s' = requests s)
    /\ (ramp_finished counter = true ->
        progressOf s' setter
        = {| visible := visible (progressOf s setter); percentage := 100;
             status := msg |}
        /\ consoleLogs s'
           = (consoleLogs s ++ [ {| message := msg; type := success |} ])%list
        /\ ramp_set id s' = false
        /\ requests s' = (requests s ++ [GetVideoStatus videoId])%list
        /\ pollers s' = (pollers (clearInterval id s) ++ [(next_timer s, videoId)])%list)
    /\ Binary64.b64_of_Q (7 # 10) = S754_finite false 6305039478318694 (-53)
    /\ ramp_finished (ramp_next (Binary64.b64_of_Z 93) (7 # 10)) = true
    /\ 93 + Binary64.b64_value (Binary64.b64_of_Q (7 # 10)) * 10 < 100.
Proof.
  intros N H s id setter msg videoId progress random Hid Hvid s' counter.
  subst s' counter. unfold processingRamp_tick.
  assert (Htruthy : truthy (Some videoId) = true).
  { cbn. destruct (String.eqb_spec videoId ""); [contradiction | reflexivity]. }
  split; [|split; [|repeat split; vm_compute; reflexivity]]; intros Hp; rewrite Hp.
  - intros _. generalize (ramp_next progress random). intros counter.
    generalize (toString (Math_round (Binary64.b64_value counter))).
    generalize (Binary64.b64_value counter). intros value label.
    split; [destruct s, setter; reflexivity|].
    split; [|split; [|destruct s; reflexivity]].
    + destruct s as [? ? ? ? ? ? ? ? ? ? ? ? ? ? ? ? ? ? ? ? ? ? ? tms]; cbn.
      rewrite map_map. apply map_ext. intros t.
      destruct (Nat.eqb_spec (timer_id t) id); [symmetry; assumption | reflexivity].
    + destruct s as [? ? ? ? ? ? ? ? ? ? ? ? ? ? ? ? ? ? ? ? ? ? ? tms]; cbn.
      intros t Hin Ht. apply in_map_iff in Hin as (t0 & <- & _).
      destruct (Nat.eqb_spec (timer_id t0) id) as [Heq | Hne]; [reflexivity|].
      contradiction.
  - rewrite Htruthy.
    destruct s as [? ? ? ? ? ? ? ? ? ? ? ? ? ? ? ? ? ? ? ? ? ? ? tms nt];
      cbn in Hid |- *.
    split; [destruct setter; reflexivity|].
    split; [reflexivity|].
    split.
    + unfold ramp_set. cbn. rewrite existsb_app. cbn.
      rewrite orb_false_r.
      replace (Nat.eqb nt id) with false
        by (symmetry; apply Nat.eqb_neq; lia).
      rewrite orb_false_r.
      induction tms as [|t tms IH]; [reflexivity|].
      cbn. destruct (Nat.eqb (timer_id t) id) eqn:Ht; cbn; [exact IH|].
      rewrite Ht. exact IH.
    + split; [reflexivity|].
      unfold pollers. cbn. rewrite flat_map_app. reflexivity.
Qed.

Lemma processing_ramp_tick_witness :
  (3 < 4)%nat /\ "v1" <> ""
  /\ ramp_finished (ramp_next (Binary64.b64_of_Z 93) (7 # 10)) = true
  /\ progressOf
       (processingRamp_tick 3 Audio "done" (Some "v1") (Binary64.b64_of_Z 93)
          (7 # 10) (set_next_timer 4 (initial (N:=spec_float) Pages))) Audio
     = {| visible := false; percentage := 100; status := "done" |}
  /\ ramp_finished (ramp_next (Binary64.b64_of_Z 90) (1 # 2)) = false
  /\ Binary64.is_finite (ramp_next (Binary64.b64_of_Z 90) (1 # 2)) = true
  /\ progressOf
       (processingRamp_tick 3 Audio "done" (Some "v1") (Binary64.b64_of_Z 90)
          (1 # 2) (set_next_timer 4 (initial (N:=spec_float) Pages))) Audio
     = {| visible := false; percentage := 95; status := "95% - Processing..." |}.
Proof.
  assert (Hid : (3 < next_timer (set_next_timer 4 (initial (N:=spec_float) Pages)))%nat)
    by (cbn; lia).
  assert (Hv : "v1" <> "") by discriminate.
  assert (Hdone : ramp_finished (ramp_next (Binary64.b64_of_Z 93) (7 # 10)) = true)
    by (vm_compute; reflexivity).
  assert (Hnot : ramp_finished (ramp_next (Binary64.b64_of_Z 90) (1 # 2)) = false)
    by (vm_compute; reflexivity).
  assert (Hfinite : Binary64.is_finite
                      (ramp_next (Binary64.b64_of_Z 90) (1 # 2)) = true)
    by (vm_compute; reflexivity).
  split; [lia|]. split; [exact Hv|]. split; [exact Hdone|].
  split; [|split; [exact Hnot|split; [exact Hfinite|]]].
  - destruct (processing_ramp_tick spec_float Binary64.number _ 3%nat Audio "done"
                "v1" (Binary64.b64_of_Z 93) (7 # 10) Hid Hv) as (_ & Hfinish & _).
    exact (proj1 (Hfinish Hdone)).
  - destruct (processing_ramp_tick spec_float Binary64.number _ 3%nat Audio "done"
                "v1" (Binary64.b64_of_Z 90) (1 # 2) Hid Hv) as (Hgoes & _).
    rewrite (proj1 (Hgoes Hnot Hfinite)). vm_compute. reflexivity.
Defined.

(** X12.  The progress bars do not interfere: processing one feature, from the
    request to the last tick of its ramp, never changes the bar of another
    feature, and neither does a stage of the subtitle generation change
    any bar but the subtitle bar. *)
Theorem progress_bars_isolated :
  forall (N : Type) (H : Number N) (s : State N) (setter other : Feature)
         (options : Options) (msg : string) (captured : option string)
         (r : Response) (id : nat) (progress : spec_float) (random : Q)
         (remaining : list (Q * string)) (lang : string),
    other <> setter ->
    progressOf (processVideo options setter msg s) other = progressOf s other
    /\ progressOf (processVideo_settled setter msg captured r s) other
       = progressOf s other
    /\ progressOf (processingRamp_tick id setter msg captured progress random s)
                  other
       = progressOf s other
    /\ (other <> Subtitles ->
        progressOf (subtitleStage_tick remaining lang s) other
        = progressOf s other).
Proof.
  intros N H s setter other options msg captured r id progress random
         remaining lang Hne.
  assert (Heqb : Feature_eqb other setter = false)
    by (destruct other, setter; try reflexivity; contradiction Hne; reflexivity).
  repeat split.
  - unfold processVideo. destruct (negb (truthy (uploadedVideoId s)));
      destruct s; cbn; rewrite ?Heqb; reflexivity.
  - destruct r; destruct s; cbn; rewrite ?Heqb; reflexivity.
  - unfold processingRamp_tick.
    generalize (ramp_next progress random). intros counter.
    generalize (toString (Math_round (Binary64.b64_value counter))).
    generalize (Binary64.b64_value counter). intros value label.
    destruct (ramp_finished counter);
      [destruct (truthy captured)|]; destruct s; cbn; rewrite ?Heqb; reflexivity.
  - intros Hsub.
    assert (Hsubb : Feature_eqb other Subtitles = false)
      by (destruct other; try reflexivity; contradiction Hsub; reflexivity).
    unfold subtitleStage_tick.
    destruct remaining as [|stage [|next rest]];
      try destruct (generateMockSubtitleData lang); destruct s; cbn;
      rewrite ?Hsubb; reflexivity.
Qed.

Lemma progress_bars_isolated_witness :
  Subtitles <> Audio
  /\ progressOf
       (processVideo Scenario.audio_options Audio "done"
          (setUploadedVideoId (Some "v1") (initial (N:=spec_float) Pages)))
       Subtitles
     = progressOf
         (setUploadedVideoId (Some "v1") (initial (N:=spec_float) Pages))
         Subtitles.
Proof.
  assert (Hne : Subtitles <> Audio) by discriminate.
  split; [exact Hne|].
  exact (proj1 (progress_bars_isolated spec_float Binary64.number
                  (setUploadedVideoId (Some "v1") (initial Pages))
                  Audio Subtitles Scenario.audio_options "done" None Processing
                  0%nat (Binary64.b64_of_Z 0) 0 [] "en" Hne)).
Defined.

(** *** What the progress bar of the feature page shows *)

Lemma label_without_dash (trim : string -> string) (p : ProgressState) :
  visible p = true -> free_of "-" (status p) = true ->
  renderProgressBar_pages trim p
  = Some {| bar_label := "Processing...";
            bar_width := percentage p;
            bar_caption := toString (Math_round (percentage p)) ++ "%" |}.
Proof.
  intros Hvisible Hfree. unfold renderProgressBar_pages.
  rewrite Hvisible, (split_on_free _ _ Hfree). reflexivity.
Qed.

(** X13.  The feature page takes the label of a bar from what follows the first
    dash of the status.  A status without a dash is therefore never shown:
    when a ramp finishes with a success message that has no dash, the bar
    is full and still labelled "Processing..."; and when the server
    rejects the request with a reason that has no dash, the bar is
    labelled "Processing..." too, not with the error. *)
Theorem status_without_dash_not_shown :
  forall (N : Type) (H : Number N) (trim : string -> string) (s : State N)
         (id : nat) (setter : Feature) (msg : string)
         (captured : option string) (progress : spec_float) (random : Q)
         (reason : string),
    visible (progressOf s setter) = true ->
    (free_of "-" msg = true -> ramp_finished (ramp_next progress random) = true ->
     renderProgressBar_pages trim
       (progressOf
          (processingRamp_tick id setter msg captured progress random s) setter)
     = Some {| bar_label := "Processing..."; bar_width := 100;
               bar_caption := "100%" |})
    /\ (free_of "-" reason = true ->
        renderProgressBar_pages trim
          (progressOf
             (processVideo_settled setter msg captured (Rejected (Some reason)) s)
             setter)
        = Some {| bar_label := "Processing...";
                  bar_width := percentage (progressOf s setter);
                  bar_caption :=
                    toString (Math_round (percentage (progressOf s setter)))
                    ++ "%" |}).
Proof.
  intros N H trim s id setter msg captured progress random reason Hvisible.
  split.
  - intros Hfree Hb.
    assert (Hbar : progressOf
                     (processingRamp_tick id setter msg captured progress random s)
                     setter
                   = {| visible := visible (progressOf s setter);
                        percentage := 100; status := msg |}).
    { unfold processingRamp_tick. rewrite Hb.
      destruct (truthy captured); destruct s, setter; reflexivity. }
    rewrite Hbar, Hvisible.
    rewrite label_without_dash; [reflexivity | reflexivity | exact Hfree].
  - intros Hfree.
    assert (Hbar : progressOf
                     (processVideo_settled setter msg captured
                        (Rejected (Some reason)) s) setter
                   = {| visible := visible (progressOf s setter);
                        percentage := percentage (progressOf s setter);
                        status := "Error: " ++ reason |})
      by (destruct s, setter; reflexivity).
    rewrite Hbar, Hvisible.
    rewrite label_without_dash; [reflexivity | reflexivity |].
    cbn [status]. rewrite free_of_app, Hfree. reflexivity.
Qed.

Lemma status_without_dash_not_shown_witness :
  free_of "-" "Audio processing completed successfully" = true
  /\ free_of "-" "Subtitles generated successfully" = true
  /\ free_of "-" "Video summarized successfully" = true
  /\ free_of "-" "Video enhancement completed successfully" = true
  /\ free_of "-" "Thumbnail generated successfully" = true
  /\ ramp_finished (ramp_next (Binary64.b64_of_Z 95) (99 # 100)) = true
  /\ renderProgressBar_pages (fun x => x)
       (progressOf
          (processingRamp_tick 1 Audio "Audio processing completed successfully"
             (Some "v1") (Binary64.b64_of_Z 95) (99 # 100)
             (processVideo Scenario.audio_options Audio
                "Audio processing completed successfully"
                (setUploadedVideoId (Some "v1")
                   (initial (N:=spec_float) Pages)))) Audio)
     = Some {| bar_label := "Processing..."; bar_width := 100;
               bar_caption := "100%" |}.
Proof.
  assert (Hp : ramp_finished (ramp_next (Binary64.b64_of_Z 95) (99 # 100)) = true)
    by (vm_compute; reflexivity).
  do 5 (split; [reflexivity|]). split; [exact Hp|].
  exact (proj1 (status_without_dash_not_shown spec_float Binary64.number
                  (fun x => x)
                  (processVideo Scenario.audio_options Audio
                     "Audio processing completed successfully"
                     (setUploadedVideoId (Some "v1") (initial Pages)))
                  1%nat Audio "Audio processing completed successfully"
                  (Some "v1") (Binary64.b64_of_Z 95) (99 # 100) "" eq_refl)
               eq_refl Hp).
Defined.

(** *** The thumbnail handler *)

(** X14.  The thumbnail handler asks for nothing unless a video is uploaded and a
    frame is selected: otherwise it only shows a toast. *)
Theorem thumbnail_needs_upload_and_frame :
  forall (N : Type) (H : Number N) (style text : string) (s : State N),
    truthy (uploadedVideoId s) = false \/ selectedFrameIndex s = None ->
    let s' := handleGenerateThumbnail style text s in
    requests s' = requests s
    /\ pending s' = pending s
    /\ consoleLogs s' = consoleLogs s
    /\ generatedThumbnail s' = generatedThumbnail s
    /\ (forall f, progressOf s' f = progressOf s f)
    /\ exists msg, toasts s' = (toasts s ++ [ErrorToast msg])%list.
Proof.
  intros N H style text s Hguard. unfold handleGenerateThumbnail.
  destruct (truthy (uploadedVideoId s)) eqn:Hid; cbn [negb].
  - destruct Hguard as [Hfalse | Hframe]; [discriminate|]. rewrite Hframe.
    destruct s; cbn. repeat split; try reflexivity. eexists. reflexivity.
  - destruct s; cbn. repeat split; try reflexivity. eexists. reflexivity.
Qed.

Lemma thumbnail_needs_upload_and_frame_witness :
  (truthy (uploadedVideoId
             (setUploadedVideoId (Some "v1") (initial (N:=spec_float) Pages)))
   = false
   \/ selectedFrameIndex
        (setUploadedVideoId (Some "v1") (initial (N:=spec_float) Pages)) = None)
  /\ requests
       (handleGenerateThumbnail "bold" "Hello"
          (setUploadedVideoId (Some "v1") (initial (N:=spec_float) Pages))) = [].
Proof.
  assert (Hguard :
            truthy (uploadedVideoId
                      (setUploadedVideoId (Some "v1")
                         (initial (N:=spec_float) Pages))) = false
            \/ selectedFrameIndex
                 (setUploadedVideoId (Some "v1")
                    (initial (N:=spec_float) Pages)) = None)
    by (right; reflexivity).
  split; [exact Hguard|].
  exact (proj1 (thumbnail_needs_upload_and_frame spec_float Binary64.number
                  "bold" "Hello" _ Hguard)).
Defined.

(** X15.  The preview of the generated thumbnail is set whatever the server
    answered.  In particular, when the server rejects the request the page
    shows the error toast, sets no ramp, and still stores the preview of
    the selected frame and logs that it is ready. *)
Theorem thumbnail_preview_set_on_rejection :
  forall (N : Type) (H : Number N) (frame : nat) (captured : option string)
         (s : State N),
    let url := "https://via.placeholder.com/1280x720.png?text=Generated+Thumb+"
               ++ toString (Z.of_nat frame + 1) in
    (forall r : Response,
       let s' := handleGenerateThumbnail_settled frame captured r s in
       generatedThumbnail s' = Some url
       /\ last (consoleLogs s') {| message := ""; type := info |}
          = {| message := "Thumbnail preview ready"; type := info |})
    /\ (forall reason : option string,
          let s' := handleGenerateThumbnail_settled frame captured
                      (Rejected reason) s in
          timers s' = timers s
          /\ toasts s'
             = (toasts s ++
                [ErrorToast (error_message reason "Processing failed")])%list
          /\ status (progressOf s' Thumbnail)
             = "Error: " ++ error_message reason "Processing failed").
Proof.
  intros N H frame captured s url. subst url. split.
  - intros r. unfold handleGenerateThumbnail_settled.
    split; [destruct r; destruct s; reflexivity|].
    unfold logToConsole at 1.
    match goal with
    | |- context [setConsoleLogs (?l ++ [?x])%list ?t] =>
        change (consoleLogs (setConsoleLogs (l ++ [x])%list t))
          with (l ++ [x])%list
    end.
    apply last_last.
  - intros reason. destruct s; cbn. repeat split; reflexivity.
Qed.

(** *** Timer handles *)

Import Handles.

Lemma polls_In (r : View) (id : nat) (videoId : string) :
  In (id, videoId) (polls r)
  <-> exists t, In t (v_timers r) /\ timer_id t = id
                /\ timer_callback t = CheckStatus videoId.
Proof.
  unfold polls. rewrite in_flat_map. split.
  - intros (t & Ht & Hin). exists t. split; [exact Ht|].
    destruct (timer_callback t); try contradiction.
    destruct Hin as [[= <- <-] | []]. split; reflexivity.
  - intros (t & Ht & <- & Hcb). exists t. split; [exact Ht|].
    rewrite Hcb. left. reflexivity.
Qed.

Lemma same_handle (l : list Timer) (t t' : Timer) :
  NoDup (map timer_id l) -> In t l -> In t' l -> timer_id t = timer_id t' ->
  t = t'.
Proof.
  induction l as [|a l IH]; intros Hnd Ht Ht' Hid; [contradiction|].
  cbn in Hnd. inversion Hnd as [|? ? Hnotin Hnd']; subst.
  destruct Ht as [<- | Ht], Ht' as [<- | Ht'].
  - reflexivity.
  - exfalso. apply Hnotin. rewrite Hid. now apply in_map.
  - exfalso. apply Hnotin. rewrite <- Hid. now apply in_map.
  - now apply IH.
Qed.

(** Clearing a handle leaves the handles of the other timers distinct. *)
Lemma distinct_after_clear (id : nat) (tms : list Timer) :
  NoDup (map timer_id tms) ->
  NoDup (map timer_id
           (filter (fun t => negb (Nat.eqb (timer_id t) id)) tms)).
Proof.
  induction tms as [|t tms IH]; cbn; intros Hdistinct; [constructor|].
  apply NoDup_cons_iff in Hdistinct as [Hfresh Hrest].
  destruct (Nat.eqb (timer_id t) id); cbn; [now apply IH|].
  apply NoDup_cons; [|now apply IH].
  contradict Hfresh.
  apply in_map_iff in Hfresh as (t' & Hsame & Hset).
  apply filter_In in Hset as [Hset _].
  rewrite <- Hsame. now apply in_map.
Qed.

Lemma no_poll_clear (id id' : nat) (r : View) :
  no_poll id r -> no_poll id (clear id' r).
Proof.
  intros Hno v Hin. apply (Hno v).
  apply polls_In in Hin as (t & Ht & Hid & Hcb). apply polls_In.
  exists t. cbn in Ht. apply filter_In in Ht as [Ht _]. now repeat split.
Qed.

Lemma no_poll_of_timer (r : View) (t : Timer) :
  ok r -> In t (v_timers r) -> is_poll (timer_callback t) = false ->
  no_poll (timer_id t) r.
Proof.
  intros Hok Ht Hcb v Hin. apply polls_In in Hin as (t' & Ht' & Hid & Hcb').
  assert (t' = t) by (eapply same_handle; eauto using ok_distinct).
  subst t'. rewrite Hcb' in Hcb. discriminate.
Qed.

Lemma no_poll_of_upload (r : View) (request progressInterval : nat) :
  ok r -> In (request, AwaitUpload progressInterval) (v_pending r) ->
  no_poll progressInterval r.
Proof.
  intros Hok Hp v Hin. apply polls_In in Hin as (t & Ht & Hid & Hcb).
  destruct (ok_uploads r Hok _ Hp) as [_ Hramp]. cbn in Hramp.
  rewrite (Hramp t Ht Hid) in Hcb. discriminate.
Qed.

Lemma only_ramps_of_timer (r : View) (t : Timer) (f : Feature) (m : string)
  (c : option string) (p : spec_float) :
  ok r -> In t (v_timers r) -> timer_callback t = ProcessingRamp f m c p ->
  only_ramps (timer_id t) r.
Proof.
  intros Hok Ht Hcb t' Ht' Hid.
  assert (t' = t) by (eapply same_handle; eauto using ok_distinct).
  subst t'. eauto.
Qed.

Lemma only_ramps_clear (id : nat) (r : View) : only_ramps id (clear id r).
Proof.
  intros t Ht Hid. cbn in Ht. apply filter_In in Ht as [_ Hne].
  rewrite Hid, Nat.eqb_refl in Hne. discriminate.
Qed.

Section Kept.

Variable followed : option (nat * string).

Lemma kept_add_timer (repeats : bool) (cb : Callback) (delay : Z) (r : View) :
  kept followed r -> (is_poll cb = true -> repeats = true) ->
  kept followed (add_timer repeats cb delay r).
Proof.
  intros [Hok Hfollowed] Hcb. split.
  - constructor; cbn.
    + intros t Ht. apply in_app_or in Ht as [Ht | [<- | []]]; cbn;
        [apply (ok_below r Hok) in Ht|]; lia.
    + rewrite map_app. cbn. apply NoDup_app.
      * apply (ok_distinct r Hok).
      * repeat constructor. intros [].
      * intros x Hx [<- | []]. apply in_map_iff in Hx as (t & Hid & Ht).
        apply (ok_below r Hok) in Ht. lia.
    + intros t Ht. apply in_app_or in Ht as [Ht | [<- | []]]; cbn;
        [now apply (ok_polls_repeat r Hok) | exact Hcb].
    + intros p Hp. pose proof (ok_uploads r Hok p Hp) as Hup.
      unfold upload_handle_ok in *. destruct (snd p); try exact I.
      destruct Hup as [Hlt Hramp]. cbn. split; [lia|].
      intros t Ht Hid. apply in_app_or in Ht as [Ht | [<- | []]];
        [now apply Hramp | cbn in Hid; lia].
    + intros id Hid. apply (ok_ref r Hok) in Hid. lia.
  - destruct followed as [[id v]|]; [|exact I].
    destruct Hfollowed as [Hin Href]. split; [|exact Href].
    unfold polls in *. cbn. rewrite flat_map_app. apply in_or_app. now left.
Qed.

Lemma kept_clear (id' : nat) (r : View) :
  kept followed r -> no_poll id' r \/ v_ref r = Some id' ->
  kept followed (clear id' r).
Proof.
  intros [Hok Hfollowed] Hclear. split.
  - constructor; cbn.
    + intros t Ht. apply filter_In in Ht as [Ht _]. now apply (ok_below r Hok).
    + apply distinct_after_clear, (ok_distinct r Hok).
    + intros t Ht. apply filter_In in Ht as [Ht _].
      now apply (ok_polls_repeat r Hok).
    + intros p Hp. pose proof (ok_uploads r Hok p Hp) as Hup.
      unfold upload_handle_ok in *. destruct (snd p); try exact I.
      destruct Hup as [Hlt Hramp]. cbn. split; [exact Hlt|].
      intros t Ht. apply filter_In in Ht as [Ht _]. now apply Hramp.
    + apply (ok_ref r Hok).
  - destruct followed as [[id v]|]; [|exact I].
    destruct Hfollowed as [Hin Href]. split; [|exact Href].
    assert (Hne : id <> id').
    { intros ->. destruct Hclear as [Hno | Hr];
        [exact (Hno v Hin) | exact (Href Hr)]. }
    apply polls_In in Hin as (t & Ht & Hid & Hcb). apply polls_In.
    exists t. split; [|now split]. cbn. apply filter_In. split; [exact Ht|].
    apply negb_true_iff, Nat.eqb_neq. lia.
Qed.

Lemma kept_replace_callback (id' : nat) (cb : Callback) (r : View) :
  kept followed r -> only_ramps id' r -> is_poll cb = false ->
  kept followed (replace_callback id' cb r).
Proof.
  intros [Hok Hfollowed] Hramps Hcb.
  assert (Hids : forall l : list Timer,
             map timer_id
               (map (fun t => if Nat.eqb (timer_id t) id'
                              then {| timer_id := id';
                                      timer_delay := timer_delay t;
                                      timer_repeats := timer_repeats t;
                                      timer_callback := cb |}
                              else t) l)
             = map timer_id l).
  { intros l. rewrite map_map. apply map_ext. intros t.
    destruct (Nat.eqb_spec (timer_id t) id'); [symmetry; assumption | reflexivity]. }
  split.
  - constructor; cbn.
    + intros t' Ht'. apply in_map_iff in Ht' as (t & <- & Ht).
      destruct (Nat.eqb_spec (timer_id t) id') as [<- | _]; cbn;
        now apply (ok_below r Hok).
    + rewrite Hids. apply (ok_distinct r Hok).
    + intros t' Ht'. apply in_map_iff in Ht' as (t & <- & Ht).
      destruct (Nat.eqb_spec (timer_id t) id') as [_ | _]; cbn;
        [rewrite Hcb; discriminate | now apply (ok_polls_repeat r Hok)].
    + intros p Hp. pose proof (ok_uploads r Hok p Hp) as Hup.
      unfold upload_handle_ok in *. destruct (snd p); try exact I.
      destruct Hup as [Hlt Hramp]. cbn. split; [exact Hlt|].
      intros t' Ht' Hid'. apply in_map_iff in Ht' as (t & <- & Ht).
      destruct (Nat.eqb_spec (timer_id t) id') as [Heq | _];
        [|now apply Hramp].
      cbn in Hid'. exfalso.
      destruct (Hramps t Ht Heq) as (f & m & c & q & Hq).
      rewrite (Hramp t Ht) in Hq by congruence. discriminate.
    + apply (ok_ref r Hok).
  - destruct followed as [[id v]|]; [|exact I].
    destruct Hfollowed as [Hin Href]. split; [|exact Href].
    apply polls_In in Hin as (t & Ht & Hid & Hpoll). apply polls_In.
    exists t. split; [|now split]. cbn. apply in_map_iff. exists t.
    split; [|exact Ht].
    destruct (Nat.eqb_spec (timer_id t) id') as [Heq | _]; [|reflexivity].
    exfalso. destruct (Hramps t Ht Heq) as (f & m & c & q & Hq).
    rewrite Hq in Hpoll. discriminate.
Qed.

Lemma kept_add_pending (request : nat) (k : Continuation) (r : View) :
  kept followed r -> upload_handle_ok r (request, k) ->
  kept followed (add_pending request k r).
Proof.
  intros [Hok Hfollowed] Hk. split.
  - constructor; cbn; try apply Hok.
    intros p Hp. apply in_app_or in Hp as [Hp | [<- | []]];
      [exact (ok_uploads r Hok p Hp) | exact Hk].
  - destruct followed as [[id v]|]; [|exact I]. exact Hfollowed.
Qed.

Lemma kept_drop_pending (request : nat) (r : View) :
  kept followed r -> kept followed (drop_pending request r).
Proof.
  intros [Hok Hfollowed]. split.
  - constructor; cbn; try apply Hok.
    intros p Hp. apply filter_In in Hp as [Hp _].
    exact (ok_uploads r Hok p Hp).
  - destruct followed as [[id v]|]; [|exact I]. exact Hfollowed.
Qed.

Lemma kept_set_ref_none (r : View) :
  kept followed r -> kept followed (set_ref None r).
Proof.
  intros [Hok Hfollowed]. split.
  - constructor; cbn; try apply Hok. discriminate.
  - destruct followed as [[id v]|]; [|exact I].
    destruct Hfollowed as [Hin _]. split; [exact Hin | discriminate].
Qed.

Lemma kept_start_poll (request : nat) (videoId : string) (r : View) :
  kept followed r -> kept followed (start_poll request videoId r).
Proof.
  intros Hkept. unfold start_poll.
  assert (Hnext : kept followed
                    (add_timer true (CheckStatus videoId) 2000
                       (add_pending request (AwaitStatus videoId) r))).
  { apply kept_add_timer; [|reflexivity].
    apply kept_add_pending; [exact Hkept | exact I]. }
  destruct Hnext as [Hok Hfollowed]. split.
  - constructor; cbn; try apply Hok.
    intros id [= <-]. lia.
  - destruct followed as [[id v]|]; [|exact I].
    destruct Hfollowed as [Hin _]. split; [exact Hin|].
    cbn. intros [= Heq].
    destruct Hkept as [Hok0 [Hin0 _]].
    apply polls_In in Hin0 as (t & Ht & Hid & _).
    apply (ok_below r Hok0) in Ht. lia.
Qed.

Lemma kept_upload (request : nat) (r : View) :
  kept followed r ->
  kept followed
    (add_pending request (AwaitUpload (v_next r)) (add_timer true UploadRamp 200 r)).
Proof.
  intros Hkept. apply kept_add_pending.
  - apply kept_add_timer; [exact Hkept | discriminate].
  - cbn. split; [lia|].
    intros t Ht Hid. apply in_app_or in Ht as [Ht | [<- | []]]; [|reflexivity].
    destruct Hkept as [Hok _]. apply (ok_below r Hok) in Ht. lia.
Qed.

End Kept.

Section StepKept.

Context {N : Type} `{Number N}.
Variable formatFileSize : Z -> string.
Variable followed : option (nat * string).

Lemma find_timer_handle (id : nat) (s : State N) (t : Timer) :
  find_timer id s = Some t -> In t (timers s) /\ timer_id t = id.
Proof.
  unfold find_timer. intros Hf. apply find_some in Hf as [Ht Hid].
  apply Nat.eqb_eq in Hid. now split.
Qed.

Lemma find_pending_handle (request : nat) (s : State N) (k : Continuation) :
  find_pending request s = Some k -> In (request, k) (pending s).
Proof.
  unfold find_pending.
  destruct (find _ (pending s)) as [[rq k']|] eqn:Hf; [|discriminate].
  intros [= <-]. apply find_some in Hf as [Hp Hid].
  apply Nat.eqb_eq in Hid. cbn in Hid. now subst.
Qed.

Lemma view_startStatusCheck (videoId : string) (s : State N) :
  view (startStatusCheck videoId s)
  = start_poll (next_request s) videoId (view s).
Proof. destruct s; reflexivity. Qed.

Lemma view_handleFileSelect (rev : Revision) (file : File) (s : State N) :
  view (handleFileSelect formatFileSize rev (Some file) s)
  = add_pending (next_request s) (AwaitUpload (next_timer s))
      (add_timer true UploadRamp 200 (view s)).
Proof. destruct s, rev; reflexivity. Qed.

Lemma view_effect_cleanup (s : State N) :
  view (effect_cleanup s)
  = match v_ref (view s) with
    | Some id => clear id (view s)
    | None => view s
    end.
Proof. destruct s as [? ? ? ? ? ? ? ? ? ? ? ? ? ? ? ? ? ? ? ? ? ? [id|]]; reflexivity. Qed.

Lemma view_processVideo (options : Options) (setter : Feature) (msg : string)
  (s : State N) :
  view (processVideo options setter msg s)
  = if truthy (uploadedVideoId s)
    then add_pending (next_request s)
           (AwaitProcess setter msg (uploadedVideoId s)) (view s)
    else view s.
Proof.
  unfold processVideo. destruct (truthy (uploadedVideoId s));
    destruct s; reflexivity.
Qed.

Lemma view_generateAdvancedSubtitles (s : State N) :
  view (generateAdvancedSubtitles s)
  = if truthy (uploadedVideoId s)
    then add_timer false (SubtitleStage stages (subtitleLanguage s)) 1000 (view s)
    else view s.
Proof.
  unfold generateAdvancedSubtitles. destruct (truthy (uploadedVideoId s));
    destruct s; reflexivity.
Qed.

Lemma view_clearInterval (id : nat) (s : State N) :
  view (clearInterval id s) = clear id (view s).
Proof. destruct s; reflexivity. Qed.

Lemma view_remove_pending (request : nat) (s : State N) :
  view (remove_pending request s) = drop_pending request (view s).
Proof. destruct s; reflexivity. Qed.

Lemma view_checkStatus (videoId : string) (s : State N) :
  view (checkStatus videoId s)
  = add_pending (next_request s) (AwaitStatus videoId) (view s).
Proof. destruct s; reflexivity. Qed.

Lemma view_processingRamp_tick (id : nat) (setter : Feature) (msg : string)
  (captured : option string) (progress : spec_float) (random : Q)
  (s : State N) :
  view (processingRamp_tick id setter msg captured progress random s)
  = if ramp_finished (ramp_next progress random)
    then if truthy captured
         then start_poll (next_request s) (error_message captured "")
                (clear id (view s))
         else clear id (view s)
    else replace_callback id
           (ProcessingRamp setter msg captured (ramp_next progress random))
           (view s).
Proof.
  unfold processingRamp_tick.
  destruct (ramp_finished (ramp_next progress random));
    [destruct (truthy captured)|]; destruct s; reflexivity.
Qed.

Lemma view_subtitleStage_tick (remaining : list (Q * string)) (lang : string)
  (s : State N) :
  view (subtitleStage_tick remaining lang s)
  = match remaining with
    | _ :: (_ :: _) as rest =>
        add_timer false (SubtitleStage rest lang) 1000 (view s)
    | _ => view s
    end.
Proof.
  unfold subtitleStage_tick.
  destruct remaining as [|stage [|next rest]];
    try destruct (generateMockSubtitleData lang); destruct s; reflexivity.
Qed.

Lemma view_uploadVideo_settled (rev : Revision) (progressInterval : nat)
  (r : Response) (s : State N) :
  view (uploadVideo_settled rev progressInterval r s)
  = match r with
    | Uploaded video_id =>
        if truthy video_id
        then let polling := start_poll (next_request s)
                              (error_message video_id "")
                              (clear progressInterval (view s)) in
             match rev with
             | Pages => polling
             | Player => add_timer false SwitchToEnhancement 1000 polling
             end
        else clear progressInterval (view s)
    | _ => view s
    end.
Proof.
  destruct r as [video_id|data| |reason]; try (destruct s; reflexivity).
  unfold uploadVideo_settled. destruct (truthy video_id);
    destruct rev, s; reflexivity.
Qed.

Lemma view_checkStatus_settled (videoId : string) (r : Response) (s : State N) :
  view (checkStatus_settled videoId r s) = view s
  \/ exists id, v_ref (view s) = Some id
                /\ view (checkStatus_settled videoId r s)
                   = set_ref None (clear id (view s)).
Proof.
  destruct r as [video_id|data| |reason]; try (left; destruct s; reflexivity).
  unfold checkStatus_settled.
  destruct (String.eqb (vd_status data) "completed" ||
            String.eqb (vd_status data) "failed");
    [|left; destruct s; reflexivity].
  destruct s as [? ? ? ? ? ? ? ? ? ? ? ? ? ? ? ? ? ? ? ? ? ? [id|]]; cbn.
  - right. exists id. split; [reflexivity|].
    destruct (String.eqb (vd_status data) "completed"); reflexivity.
  - left. destruct (String.eqb (vd_status data) "completed"); reflexivity.
Qed.

Lemma view_processVideo_settled (setter : Feature) (msg : string)
  (captured : option string) (r : Response) (s : State N) :
  view (processVideo_settled setter msg captured r s)
  = match r with
    | Processing =>
        add_timer true
          (ProcessingRamp setter msg captured (Binary64.b64_of_Z 0)) 300 (view s)
    | _ => view s
    end.
Proof. destruct r; destruct s; reflexivity. Qed.

Lemma fire_kept (id : nat) (random : Q) (s : State N) :
  kept followed (view s) -> kept followed (view (fire id random s)).
Proof.
  intros Hkept. unfold fire.
  destruct (find_timer id s) as [t|] eqn:Hfind; [|exact Hkept].
  apply find_timer_handle in Hfind as [Ht Hid].
  pose proof (proj1 Hkept) as Hok.
  set (s1 := if timer_repeats t then s else clearInterval id s).
  assert (Hs1 : view s1 = view s
                \/ (timer_repeats t = false /\ view s1 = clear id (view s))).
  { subst s1. destruct (timer_repeats t); [left; reflexivity|].
    right. split; [reflexivity | apply view_clearInterval]. }
  assert (Hnot_poll : timer_repeats t = false -> no_poll id (view s)).
  { intros Hrep. rewrite <- Hid. apply no_poll_of_timer; [exact Hok | exact Ht|].
    destruct (is_poll (timer_callback t)) eqn:Hp; [|reflexivity].
    rewrite (ok_polls_repeat _ Hok t Ht Hp) in Hrep. discriminate. }
  assert (Hkept1 : kept followed (view s1)).
  { destruct Hs1 as [-> | [Hrep ->]]; [exact Hkept|].
    apply kept_clear; [exact Hkept | left; auto]. }
  assert (Hnext : next_request s1 = next_request s)
    by (subst s1; destruct (timer_repeats t); [reflexivity | destruct s; reflexivity]).
  destruct (timer_callback t) as [|videoId|setter msg captured progress| |remaining lang]
    eqn:Hcb.
  - replace (view (uploadRamp_tick random s1)) with (view s1)
      by (destruct s1; reflexivity).
    exact Hkept1.
  - rewrite view_checkStatus. apply kept_add_pending; [exact Hkept1 | exact I].
  - rewrite view_processingRamp_tick.
    assert (Hramps : only_ramps id (view s1)).
    { destruct Hs1 as [-> | [_ ->]]; [|apply only_ramps_clear].
      rewrite <- Hid. eapply only_ramps_of_timer; eauto. }
    assert (Hno : no_poll id (view s1)).
    { assert (Hno0 : no_poll id (view s)).
      { rewrite <- Hid. apply no_poll_of_timer; [exact Hok | exact Ht|].
        rewrite Hcb. reflexivity. }
      destruct Hs1 as [-> | [_ ->]]; [exact Hno0 | now apply no_poll_clear]. }
    destruct (ramp_finished (ramp_next progress random));
      [destruct (truthy captured)|].
    + apply kept_start_poll, kept_clear; [exact Hkept1 | now left].
    + apply kept_clear; [exact Hkept1 | now left].
    + apply kept_replace_callback; [exact Hkept1 | exact Hramps | reflexivity].
  - replace (view (logToConsole
                     "Switched to Enhancement tab - ready for processing" info
                     (setActiveTab "enhancement" s1))) with (view s1)
      by (destruct s1; reflexivity).
    exact Hkept1.
  - rewrite view_subtitleStage_tick.
    destruct remaining as [|stage [|next rest]]; try exact Hkept1.
    apply kept_add_timer; [exact Hkept1 | discriminate].
Qed.

Lemma settle_kept (rev : Revision) (request : nat) (r : Response) (s : State N) :
  kept followed (view s) -> kept followed (view (settle rev request r s)).
Proof.
  intros Hkept. unfold settle.
  destruct (find_pending request s) as [k|] eqn:Hfind; [|exact Hkept].
  apply find_pending_handle in Hfind.
  pose proof (proj1 Hkept) as Hok.
  assert (Hkept1 : kept followed (view (remove_pending request s)))
    by (rewrite view_remove_pending; now apply kept_drop_pending).
  destruct k as [progressInterval|videoId|setter msg captured].
  - rewrite view_uploadVideo_settled.
    assert (Hno : no_poll progressInterval (view (remove_pending request s))).
    { rewrite view_remove_pending.
      exact (no_poll_of_upload (view s) request progressInterval Hok Hfind). }
    destruct r as [video_id|data| |reason]; try exact Hkept1.
    destruct (truthy video_id); cbn zeta.
    + destruct rev.
      * apply kept_start_poll, kept_clear; [exact Hkept1 | now left].
      * apply kept_add_timer; [|discriminate].
        apply kept_start_poll, kept_clear; [exact Hkept1 | now left].
    + apply kept_clear; [exact Hkept1 | now left].
  - destruct (view_checkStatus_settled videoId r (remove_pending request s))
      as [-> | (id & Href & ->)]; [exact Hkept1|].
    apply kept_set_ref_none, kept_clear; [exact Hkept1 | now right].
  - rewrite view_processVideo_settled.
    destruct r; try exact Hkept1.
    apply kept_add_timer; [exact Hkept1 | discriminate].
Qed.

(** The effect on the preview filter touches no timer and no call. *)
Lemma view_previewFilters_effect (before after : State N) :
  view (previewFilters_effect before after) = view after.
Proof.
  unfold previewFilters_effect.
  destruct (_ && _); [reflexivity | destruct after; reflexivity].
Qed.

Lemma handle_kept (rev : Revision) (e : Event N) (s : State N) :
  kept followed (view s) -> kept followed (view (handle formatFileSize rev e s)).
Proof.
  intros Hkept.
  destruct e as [file|options setter msg| |code|id random|request r|time| | | |];
    destruct rev; cbn [handle]; try exact Hkept;
    try (now apply fire_kept); try (now apply settle_kept).
  - destruct file as [file|]; [|exact Hkept].
    rewrite view_handleFileSelect. now apply kept_upload.
  - destruct file as [file|]; [|exact Hkept].
    rewrite view_effect_cleanup, view_handleFileSelect.
    assert (Hup := kept_upload followed (next_request s) (view s) Hkept).
    cbn [v_ref add_pending add_timer].
    destruct (v_ref (view s)) as [id|] eqn:Href; [|exact Hup].
    apply kept_clear; [exact Hup | right; exact Href].
  - rewrite view_processVideo.
    destruct (truthy (uploadedVideoId s)); [|exact Hkept].
    apply kept_add_pending; [exact Hkept | exact I].
  - rewrite view_generateAdvancedSubtitles.
    destruct (truthy (uploadedVideoId s)); [|exact Hkept].
    apply kept_add_timer; [exact Hkept | discriminate].
  - replace (view (handleVideoTimeUpdate time s)) with (view s); [exact Hkept|].
    unfold handleVideoTimeUpdate.
    destruct s as [? ? ? ? ? ? ? ? ? [data|] [|]]; reflexivity.
Qed.

Lemma step_kept (rev : Revision) (e : Event N) (s : State N) :
  kept followed (view s) -> kept followed (view (step formatFileSize rev e s)).
Proof.
  intros Hkept. destruct rev; cbn [step].
  - now apply handle_kept.
  - rewrite view_previewFilters_effect. now apply handle_kept.
Qed.

Lemma run_kept (rev : Revision) (events : list (Event N)) (s : State N) :
  kept followed (view s) ->
  kept followed (view (run formatFileSize rev events s)).
Proof.
  revert s. induction events as [|e events IH]; intros s Hkept; [exact Hkept|].
  rewrite run_cons. apply IH. now apply step_kept.
Qed.

End StepKept.

Lemma initial_well_formed (N : Type) (H : Number N) (rev : Revision) :
  well_formed (initial (N:=N) rev).
Proof.
  constructor; cbn.
  - intros t [].
  - constructor.
  - intros t [].
  - intros p [].
  - discriminate.
Qed.

(** X16.  A status poll that is set while the ref names another handle, or none,
    is never cleared: after every further sequence of events, in either
    revision, it is still set and still not named by the ref, so neither a
    terminal status nor the cleanup of the effect reaches it, and every
    one of its ticks makes one more status request. *)
Theorem unreferenced_poll_never_cleared :
  forall (N : Type) (H : Number N) (formatFileSize : Z -> string)
         (rev : Revision) (events : list (Event N)) (s : State N)
         (id : nat) (videoId : string),
    well_formed s ->
    In (id, videoId) (pollers s) ->
    statusCheckIntervalRef s <> Some id ->
    let s' := run formatFileSize rev events s in
    In (id, videoId) (pollers s')
    /\ statusCheckIntervalRef s' <> Some id
    /\ In (id, videoId) (pollers (effect_cleanup s'))
    /\ forall random : Q,
         status_fetches videoId (step formatFileSize rev (TimerFired id random) s')
         = S (status_fetches videoId s').
Proof.
  intros N H formatFileSize rev events s id videoId Hwf Hin Href s'.
  assert (Hkept : kept (Some (id, videoId)) (view s'))
    by (apply run_kept; split; [exact Hwf | split; assumption]).
  destruct Hkept as [Hok [Hin' Href']].
  split; [exact Hin'|]. split; [exact Href'|]. split.
  - change (In (id, videoId) (polls (view (effect_cleanup s')))).
    rewrite view_effect_cleanup.
    assert (Hkept : kept (Some (id, videoId)) (view s'))
      by (split; [exact Hok | split; assumption]).
    destruct (v_ref (view s')) as [named|] eqn:Hnamed; [|exact Hin'].
    assert (Hcleared : kept (Some (id, videoId)) (clear named (view s')))
      by (apply kept_clear; [exact Hkept | right; exact Hnamed]).
    exact (proj1 (proj2 Hcleared)).
  - intros random.
    apply polls_In in Hin' as (t & Ht & Hid & Hcb).
    assert (Hfind : find_timer id s' = Some t).
    { unfold find_timer.
      destruct (find (fun t0 => Nat.eqb (timer_id t0) id) (timers s'))
        as [t'|] eqn:Hf.
      - apply find_some in Hf as [Ht' Hid']. apply Nat.eqb_eq in Hid'.
        f_equal. apply (same_handle (timers s'));
          [exact (ok_distinct _ Hok) | exact Ht' | exact Ht | congruence].
      - apply (find_none _ _ Hf) in Ht. rewrite Hid, Nat.eqb_refl in Ht.
        discriminate. }
    assert (Hrepeats : timer_repeats t = true)
      by (apply (ok_polls_repeat _ Hok t Ht); rewrite Hcb; reflexivity).
    assert (Hstep : step formatFileSize rev (TimerFired id random) s'
                    = checkStatus videoId s').
    { rewrite step_TimerFired. unfold fire.
      rewrite Hfind, Hrepeats, Hcb. reflexivity. }
    rewrite Hstep. unfold status_fetches, checkStatus, call. cbn.
    rewrite filter_app, length_app. cbn. rewrite String.eqb_refl. cbn. lia.
Qed.

(** The property at the session in which the processing ramp has started
    a second poll: the first poll, timer 2, is then out of reach, whatever
    happens next. *)
Lemma unreferenced_poll_never_cleared_witness :
  well_formed Sessions.second_poll_started
  /\ In (2%nat, "v1") (pollers Sessions.second_poll_started)
  /\ statusCheckIntervalRef Sessions.second_poll_started <> Some 2%nat
  /\ In (2%nat, "v1")
        (pollers
           (run (fun _ => "10 MB") Pages
              [ Settled 3 (Status (Scenario.status_of "completed"));
                FileSelected (Some Scenario.other_clip) ]
              Sessions.second_poll_started)).
Proof.
  assert (Hwf : well_formed Sessions.second_poll_started)
    by (apply (run_kept (fun _ => "10 MB") None),
              (conj (initial_well_formed _ _ Pages) I)).
  assert (Hin : In (2%nat, "v1") (pollers Sessions.second_poll_started))
    by (vm_compute; left; reflexivity).
  assert (Href : statusCheckIntervalRef Sessions.second_poll_started
                 <> Some 2%nat)
    by (vm_compute; discriminate).
  split; [exact Hwf|]. split; [exact Hin|]. split; [exact Href|].
  exact (proj1 (unreferenced_poll_never_cleared spec_float Binary64.number
                  (fun _ => "10 MB") Pages
                  [ Settled 3 (Status (Scenario.status_of "completed"));
                    FileSelected (Some Scenario.other_clip) ]
                  Sessions.second_poll_started 2%nat "v1" Hwf Hin Href)).
Defined.

(** *** The stored track and its download *)

Section StoredTrack.

Context {N : Type} `{Number N}.
Variable formatFileSize : Z -> string.

Lemma track_clearInterval (id : nat) (s : State N) :
  subtitleData (clearInterval id s) = subtitleData s.
Proof. destruct s; reflexivity. Qed.

Lemma track_uploadVideo_settled (rev : Revision) (progressInterval : nat)
  (r : Response) (s : State N) :
  subtitleData (uploadVideo_settled rev progressInterval r s) = subtitleData s.
Proof.
  unfold uploadVideo_settled.
  destruct r as [video_id|data| |reason]; try (destruct s; reflexivity).
  destruct (truthy video_id); destruct rev, s; reflexivity.
Qed.

Lemma track_checkStatus_settled (videoId : string) (r : Response) (s : State N) :
  subtitleData (checkStatus_settled videoId r s) = subtitleData s.
Proof.
  unfold checkStatus_settled.
  destruct r as [video_id|data| |reason]; try (destruct s; reflexivity).
  destruct (String.eqb (vd_status data) "completed");
    destruct (String.eqb (vd_status data) "failed");
    destruct s as [? ? ? ? ? ? ? ? ? ? ? ? ? ? ? ? ? ? ? ? ? ? [id|]];
    reflexivity.
Qed.

Lemma track_processVideo_settled (setter : Feature) (msg : string)
  (captured : option string) (r : Response) (s : State N) :
  subtitleData (processVideo_settled setter msg captured r s) = subtitleData s.
Proof. destruct r; destruct s; reflexivity. Qed.

Lemma track_processingRamp_tick (id : nat) (setter : Feature) (msg : string)
  (captured : option string) (progress : spec_float) (random : Q)
  (s : State N) :
  subtitleData (processingRamp_tick id setter msg captured progress random s)
  = subtitleData s.
Proof.
  unfold processingRamp_tick.
  destruct (ramp_finished (ramp_next progress random));
    [destruct (truthy captured)|]; destruct s; reflexivity.
Qed.

Lemma track_subtitleStage_tick (remaining : list (Q * string)) (lang : string)
  (s : State N) :
  subtitleData (subtitleStage_tick remaining lang s)
  = match remaining with
    | [_] =>
        match generateMockSubtitleData lang with
        | Returns track => Some track
        | Throws _ => subtitleData s
        end
    | _ => subtitleData s
    end.
Proof.
  unfold subtitleStage_tick.
  destruct remaining as [|stage [|next rest]];
    try destruct (generateMockSubtitleData lang); destruct s; reflexivity.
Qed.

Lemma fire_generated (id : nat) (random : Q) (s : State N) :
  generated_or_none s -> generated_or_none (fire id random s).
Proof.
  intros Hs. unfold fire.
  destruct (find_timer id s) as [t|]; [|exact Hs].
  set (s1 := if timer_repeats t then s else clearInterval id s).
  assert (Hs1 : subtitleData s1 = subtitleData s)
    by (subst s1; destruct (timer_repeats t);
        [reflexivity | apply track_clearInterval]).
  unfold generated_or_none in *.
  destruct (timer_callback t) as [|videoId|setter msg captured progress|
                                  |remaining lang].
  - replace (subtitleData (uploadRamp_tick random s1)) with (subtitleData s1)
      by (destruct s1; reflexivity).
    now rewrite Hs1.
  - replace (subtitleData (checkStatus videoId s1)) with (subtitleData s1)
      by (destruct s1; reflexivity).
    now rewrite Hs1.
  - now rewrite track_processingRamp_tick, Hs1.
  - replace (subtitleData
               (logToConsole "Switched to Enhancement tab - ready for processing"
                  info (setActiveTab "enhancement" s1)))
      with (subtitleData s1) by (destruct s1; reflexivity).
    now rewrite Hs1.
  - rewrite track_subtitleStage_tick.
    destruct remaining as [|stage [|next rest]]; rewrite ?Hs1; try exact Hs.
    destruct (generateMockSubtitleData lang) as [track|message] eqn:Htrack;
      rewrite ?Hs1; [|exact Hs].
    right. exists lang, track. split; [exact Htrack | reflexivity].
Qed.

Lemma settle_generated (rev : Revision) (request : nat) (r : Response)
  (s : State N) :
  generated_or_none s -> generated_or_none (settle rev request r s).
Proof.
  intros Hs. unfold settle.
  destruct (find_pending request s) as [k|]; [|exact Hs].
  assert (Hs1 : subtitleData (remove_pending request s) = subtitleData s)
    by (destruct s; reflexivity).
  unfold generated_or_none in *.
  destruct k as [progressInterval|videoId|setter msg captured].
  - now rewrite track_uploadVideo_settled, Hs1.
  - now rewrite track_checkStatus_settled, Hs1.
  - now rewrite track_processVideo_settled, Hs1.
Qed.

Lemma handle_generated (rev : Revision) (e : Event N) (s : State N) :
  generated_or_none s -> generated_or_none (handle formatFileSize rev e s).
Proof.
  intros Hs.
  destruct e as [file|options setter msg| |code|id random|request r|time| | | |];
    destruct rev; cbn [handle]; try exact Hs;
    try (now apply fire_generated); try (now apply settle_generated).
  - destruct file as [file|]; [|exact Hs].
    replace (subtitleData (handleFileSelect formatFileSize Pages (Some file) s))
      with (subtitleData s) by (destruct s; reflexivity).
    exact Hs.
  - destruct file as [file|]; [|exact Hs]. left.
    destruct s as [? ? ? ? ? ? ? ? ? ? ? ? ? ? ? ? ? ? ? ? ? ? [id|]];
      reflexivity.
  - unfold generated_or_none, processVideo in *.
    destruct (negb (truthy (uploadedVideoId s))); destruct s; exact Hs.
  - unfold generated_or_none, generateAdvancedSubtitles in *.
    destruct (negb (truthy (uploadedVideoId s))); destruct s; exact Hs.
  - unfold generated_or_none, handleVideoTimeUpdate in *.
    destruct s as [? ? ? ? ? ? ? ? ? [data|] [|]]; exact Hs.
Qed.

Lemma track_previewFilters_effect (before after : State N) :
  subtitleData (previewFilters_effect before after) = subtitleData after.
Proof.
  unfold previewFilters_effect.
  destruct (_ && _); [reflexivity | destruct after; reflexivity].
Qed.

Lemma step_generated (rev : Revision) (e : Event N) (s : State N) :
  generated_or_none s -> generated_or_none (step formatFileSize rev e s).
Proof.
  intros Hs. destruct rev; cbn [step].
  - now apply handle_generated.
  - unfold generated_or_none. rewrite track_previewFilters_effect.
    now apply handle_generated.
Qed.

Lemma run_generated (rev : Revision) (events : list (Event N)) (s : State N) :
  generated_or_none s ->
  generated_or_none (run formatFileSize rev events s).
Proof.
  revert s. induction events as [|e events IH]; intros s Hs; [exact Hs|].
  rewrite run_cons. apply IH. now apply step_generated.
Qed.

End StoredTrack.

(** X17.  In every state that the component can reach, the stored track came out
    of the generator, so the file that [downloadSubtitles] hands over holds
    the SRT text of the very cues that the overlay shows; with no track
    stored there is no file, only the error toast.  The name of the file
    carries the code that the language selector shows at the time of the
    download, not the language of the track: changing the selector changes
    the name and leaves the content. *)
Theorem download_holds_generated_track :
  forall (N : Type) (H : Number N) (formatFileSize : Z -> string)
         (events : list (Event N)) (now : Z),
    let s := run formatFileSize Player events (initial Player) in
    match snd (downloadSubtitles now s) with
    | Some file =>
        exists (lang : string) (track : SubtitleData N),
          generateMockSubtitleData lang = Returns track
          /\ subtitleData s = Some track
          /\ download_content file = encodeSRT (cues track)
          /\ download_name file
             = "subtitles_" ++ subtitleLanguage s ++ "_" ++ toString now ++ ".srt"
    | None =>
        subtitleData s = None
        /\ fst (downloadSubtitles now s)
           = toast_error "No subtitles available for download" s
    end
    /\ forall code : string,
         snd (downloadSubtitles now
                (step formatFileSize Player (LanguageSelected code) s))
         = option_map
             (fun file =>
                {| download_name := "subtitles_" ++ code ++ "_" ++
                                    toString now ++ ".srt";
                   download_content := download_content file |})
             (snd (downloadSubtitles now s)).
Proof.
  intros N H formatFileSize events now s.
  assert (Hs : generated_or_none s) by (apply run_generated; left; reflexivity).
  split.
  - unfold downloadSubtitles.
    destruct Hs as [Hnone | (lang & track & Htrack & Hsome)].
    + rewrite Hnone. cbn. split; reflexivity.
    + rewrite Hsome. cbn [snd]. exists lang, track.
      split; [exact Htrack|]. split; [reflexivity|]. split; [|reflexivity].
      cbn [download_content].
      exact (proj1 (proj2 (for_chosen_texts (fun _ => True)
                             ltac:(cbn [map snd subtitleTexts]; repeat constructor)
                             lang track Htrack))).
  - intros code.
    assert (Hstep : step formatFileSize Player (LanguageSelected code) s
                    = setSubtitleLanguage code s).
    { cbn [step handle]. apply previewFilters_effect_same. reflexivity. }
    rewrite Hstep. unfold downloadSubtitles.
    replace (subtitleData (setSubtitleLanguage code s)) with (subtitleData s)
      by (destruct s; reflexivity).
    destruct (subtitleData s) as [data|]; [|reflexivity].
    cbn [snd option_map download_content]. destruct s; reflexivity.
Qed.

(** *** A run of the subtitle generation *)

Section Generation.

Context {N : Type} `{Number N}.
Variable formatFileSize : Z -> string.

Lemma below_later (s s' : State N) :
  timers s' = timers s -> (next_timer s <= next_timer s')%nat ->
  below s -> below s'.
Proof.
  intros Ht Hn Hs t Hin. rewrite Ht in Hin. apply Hs in Hin. lia.
Qed.

Lemma find_fresh (l : list Timer) (x : Timer) (id : nat) :
  timer_id x = id -> (forall t, In t l -> (timer_id t < id)%nat) ->
  find (fun t => Nat.eqb (timer_id t) id) (l ++ [x]) = Some x.
Proof.
  intros <-. induction l as [|a l IH]; intros Hl; cbn.
  - now rewrite Nat.eqb_refl.
  - assert (Ha : Nat.eqb (timer_id a) (timer_id x) = false)
      by (apply Nat.eqb_neq; specialize (Hl a (or_introl eq_refl)); lia).
    rewrite Ha. apply IH. intros t Ht. apply Hl. now right.
Qed.

Lemma filter_fresh (l : list Timer) (x : Timer) (id : nat) :
  timer_id x = id -> (forall t, In t l -> (timer_id t < id)%nat) ->
  filter (fun t => negb (Nat.eqb (timer_id t) id)) (l ++ [x]) = l.
Proof.
  intros <-. induction l as [|a l IH]; intros Hl; cbn.
  - now rewrite Nat.eqb_refl.
  - assert (Ha : Nat.eqb (timer_id a) (timer_id x) = false)
      by (apply Nat.eqb_neq; specialize (Hl a (or_introl eq_refl)); lia).
    rewrite Ha. cbn. f_equal. apply IH. intros t Ht. apply Hl. now right.
Qed.

(** A pause that was just set fires: the timeout is gone and the stage
    runs. *)
Lemma pause_fires (s : State N) (remaining : list (Q * string)) (lang : string)
  (id : nat) (random : Q) :
  id = next_timer s -> below s ->
  fire id random (snd (setTimeout (SubtitleStage remaining lang) 1000 s))
  = subtitleStage_tick remaining lang (set_next_timer (S id) s).
Proof.
  intros -> Hbelow. unfold below in Hbelow.
  destruct s as [? ? ? ? ? ? ? ? ? ? ? ? ? ? ? ? ? ? ? ? ? ? ? tms n].
  cbn in Hbelow. unfold fire, find_timer. cbn [setTimeout setTimer snd timers
    next_timer set_next_timer set_timers].
  set (x := {| timer_id := n; timer_delay := 1000; timer_repeats := false;
               timer_callback := SubtitleStage remaining lang |}).
  rewrite (find_fresh tms x n eq_refl Hbelow). cbn [timer_repeats timer_callback x].
  unfold clearInterval. cbn [timers set_timers set_next_timer].
  rewrite (filter_fresh tms x n eq_refl Hbelow). reflexivity.
Qed.

Lemma stage_sets_next_pause (stage next : Q * string)
  (rest : list (Q * string)) (lang : string) (s : State N) :
  subtitleStage_tick (stage :: next :: rest) lang s
  = snd (setTimeout (SubtitleStage (next :: rest) lang) 1000
           (progressSetter Subtitles
              (fun prev => {| visible := visible prev; percentage := fst stage;
                              status := snd stage |}) s)).
Proof. reflexivity. Qed.

Lemma language_after_pause (code : string) (cb : Callback) (s : State N) :
  setSubtitleLanguage code (snd (setTimeout cb 1000 s))
  = snd (setTimeout cb 1000 (setSubtitleLanguage code s)).
Proof. destruct s; reflexivity. Qed.

End Generation.

(** X18.  A generation runs with the language that the selector showed when the
    button was clicked.  From a state with an uploaded video: the click,
    a change of the selector, and the five pauses of the generation end
    with the bar full, the flag that disables the button dropped, and no
    timer of the run left.  When the generator returns, the track of the
    language of the click is stored, not of the new one, and the success
    is logged under the name of the language of the click and shown.  When
    the generator throws, as it does for the name of a member of
    [Object.prototype], no track is stored: the one that was there stays,
    and the message of the error is logged and shown; the bar is full all
    the same. *)
Theorem generation_keeps_language_of_click :
  forall (N : Type) (H : Number N) (formatFileSize : Z -> string)
         (s : State N) (code : string) (r1 r2 r3 r4 r5 : Q),
    well_formed s ->
    truthy (uploadedVideoId s) = true ->
    let n := next_timer s in
    let clicked := step formatFileSize Player GenerateSubtitlesClicked s in
    let s' := run formatFileSize Player
                [ LanguageSelected code;
                  TimerFired n r1; TimerFired (S n) r2;
                  TimerFired (S (S n)) r3; TimerFired (S (S (S n))) r4;
                  TimerFired (S (S (S (S n)))) r5 ] clicked in
    isGeneratingSubtitles clicked = true
    /\ subtitleData clicked = subtitleData s
    /\ subtitleLanguage s' = code
    /\ isGeneratingSubtitles s' = false
    /\ progressOf s' Subtitles
       = {| visible := true; percentage := 100;
            status := "Subtitles generated successfully!" |}
    /\ timers s' = timers s
    /\ match generateMockSubtitleData (subtitleLanguage s) with
       | Returns track =>
           subtitleData s' = Some track
           /\ language track = subtitleLanguage s
           /\ last (consoleLogs s') {| message := ""; type := info |}
              = {| message := "Advanced subtitles generated in " ++
                              getLanguageName (subtitleLanguage s) ++
                              " with word-level timing";
                   type := success |}
           /\ toasts s'
              = (toasts s ++
                 [SuccessToast "Subtitles generated with Whisper AI!"])%list
       | Throws errorMessage =>
           subtitleData s' = subtitleData s
           /\ last (consoleLogs s') {| message := ""; type := info |}
              = {| message := "Subtitle generation failed: " ++ errorMessage;
                   type := error |}
           /\ toasts s' = (toasts s ++ [ErrorToast errorMessage])%list
       end
    /\ (In (subtitleLanguage s) Object_prototype <->
        generateMockSubtitleData (N:=N) (subtitleLanguage s)
        = Throws "texts.map is not a function").
Proof.
  intros N H formatFileSize s code r1 r2 r3 r4 r5 Hwf Hid n clicked s'.
  assert (Hbelow : below s) by (exact (ok_below _ Hwf)).
  assert (Hclicked :
            clicked
            = snd (setTimeout (SubtitleStage stages (subtitleLanguage s)) 1000
                     (logToConsole
                        ("Starting advanced subtitle generation: Language=" ++
                         subtitleLanguage s ++ ", Style=" ++ subtitleStyle s)
                        info
                        (progressSetter Subtitles
                           (fun _ => {| visible := true; percentage := 0;
                                        status := "Initializing Whisper AI..." |})
                           (setIsGeneratingSubtitles true s))))).
  { subst clicked. cbn [step handle].
    rewrite previewFilters_effect_same.
    - unfold generateAdvancedSubtitles. rewrite Hid. destruct s; reflexivity.
    - unfold generateAdvancedSubtitles. rewrite Hid. destruct s; reflexivity. }
  assert (Hthrows : In (subtitleLanguage s) Object_prototype <->
                    generateMockSubtitleData (N:=N) (subtitleLanguage s)
                    = Throws "texts.map is not a function").
  { split; [apply generate_inherited|]. intros Hgen.
    destruct (generate_cases (N:=N) (subtitleLanguage s))
      as [(texts & _ & Hreturns) | [Hin _]]; [|exact Hin].
    rewrite Hreturns in Hgen. discriminate. }
  split; [rewrite Hclicked; destruct s; reflexivity|].
  split; [rewrite Hclicked; destruct s; reflexivity|].
  split; [|split; [|split; [|split; [|split; [|exact Hthrows]]]]];
    subst s'; unfold run; cbn [fold_left];
    rewrite !step_TimerFired;
    (assert (Hselect : step formatFileSize Player (LanguageSelected code) clicked
                       = setSubtitleLanguage code clicked)
       by (cbn [step handle]; apply previewFilters_effect_same; reflexivity));
    rewrite Hselect, Hclicked, language_after_pause; unfold stages;
    (rewrite pause_fires;
     [| reflexivity | eapply below_later; [| |exact Hbelow]; [reflexivity | cbn; lia]]);
    do 4 (rewrite stage_sets_next_pause, pause_fires;
          [| reflexivity
           | eapply below_later; [| |exact Hbelow]; [reflexivity | cbn; lia]]);
    unfold subtitleStage_tick;
    destruct (generateMockSubtitleData (subtitleLanguage s))
      as [track|errorMessage] eqn:Hgen.
  - destruct s; reflexivity.
  - destruct s; reflexivity.
  - destruct s; reflexivity.
  - destruct s; reflexivity.
  - destruct s; reflexivity.
  - destruct s; reflexivity.
  - destruct s; reflexivity.
  - destruct s; reflexivity.
  - assert (Hlang : language track = subtitleLanguage s)
      by exact (proj2 (proj2 (for_chosen_texts (fun _ => True)
                                ltac:(cbn [map snd subtitleTexts];
                                      repeat constructor)
                                _ track Hgen))).
    split; [destruct s; reflexivity|]. split; [exact Hlang|].
    split; [|destruct s; reflexivity].
    clear Hgen Hlang Hthrows.
    destruct s; cbn -[getLanguageName String.append]. apply last_last.
  - split; [destruct s; reflexivity|].
    split; [|destruct s; reflexivity].
    clear Hgen Hthrows.
    destruct s; cbn -[String.append]. apply last_last.
Qed.

(** The run after an upload in the revision with the player: the click
    comes while the selector shows English, the selector is then set to
    Spanish, and the track that is stored is the English one. *)
Lemma generation_keeps_language_of_click_witness :
  well_formed Sessions.video_uploaded
  /\ truthy (uploadedVideoId Sessions.video_uploaded) = true
  /\ exists english : SubtitleData spec_float,
       generateMockSubtitleData "en" = Returns english
       /\ subtitleData
            (run (fun _ => "10 MB") Player
               [ GenerateSubtitlesClicked; LanguageSelected "es";
                 TimerFired 4 0; TimerFired 5 0; TimerFired 6 0; TimerFired 7 0;
                 TimerFired 8 0 ] Sessions.video_uploaded)
          = Some english.
Proof.
  assert (Hwf : well_formed Sessions.video_uploaded)
    by (apply (run_kept (fun _ => "10 MB") None),
              (conj (initial_well_formed _ _ Player) I)).
  assert (Hid : truthy (uploadedVideoId Sessions.video_uploaded) = true)
    by (vm_compute; reflexivity).
  assert (Hnext : next_timer Sessions.video_uploaded = 4%nat)
    by (vm_compute; reflexivity).
  assert (Hlang : subtitleLanguage Sessions.video_uploaded = "en")
    by (vm_compute; reflexivity).
  split; [exact Hwf|]. split; [exact Hid|].
  pose proof (generation_keeps_language_of_click
                spec_float Binary64.number (fun _ => "10 MB")
                Sessions.video_uploaded "es" 0 0 0 0 0 Hwf Hid) as Hrun.
  cbv zeta in Hrun. destruct Hrun as (_ & _ & _ & _ & _ & _ & Htrack & _).
  rewrite Hnext, Hlang in Htrack.
  destruct (generateMockSubtitleData (N:=spec_float) "en") as [english|message]
    eqn:Hgen; [|vm_compute in Hgen; discriminate Hgen].
  exists english. split; [reflexivity|].
  rewrite run_cons. exact (proj1 Htrack).
Defined.

(** *** The authentication context *)

Lemma auth_run_app (rev : Auth.Revision) (a b : list Auth.Event)
  (s : Auth.State) :
  Auth.run rev (a ++ b) s = Auth.run rev b (Auth.run rev a s).
Proof. unfold Auth.run. apply fold_left_app. Qed.

(** X19.  A registration never signs the user in, not even one that the server
    accepts, and neither does a login that fails: after any sequence of
    such events the user, the token store and the toasts are what they
    were. *)
Theorem registration_does_not_sign_in :
  forall (rev : Auth.Revision) (events : list Auth.Event) (s : Auth.State),
    forallb Auth.quiet events = true ->
    Auth.user (Auth.run rev events s) = Auth.user s
    /\ Auth.isAuthenticated (Auth.run rev events s) = Auth.isAuthenticated s
    /\ Auth.token_calls (Auth.run rev events s) = Auth.token_calls s
    /\ Auth.toasts (Auth.run rev events s) = Auth.toasts s.
Proof.
  intros rev events. induction events as [|e events IH]; intros s Hquiet.
  - repeat split.
  - cbn in Hquiet. apply andb_true_iff in Hquiet as [He Hrest].
    change (Auth.run rev (e :: events) s)
      with (Auth.run rev events (Auth.step rev e s)).
    destruct (IH (Auth.step rev e s) Hrest) as (Hu & Ha & Ht & Hto).
    rewrite Hu, Ha, Ht, Hto.
    destruct e as [token|[u|err]|[u|err]| | |u]; try discriminate;
      destruct s; repeat split.
Qed.

Lemma registration_does_not_sign_in_witness :
  forallb Auth.quiet
    [ Auth.RegisterSettled (Auth.Accepted (Some Auth.demo_user));
      Auth.LoginSettled (Auth.Failed "401") ] = true
  /\ Auth.isAuthenticated
       (Auth.run Auth.Toasting
          [ Auth.RegisterSettled (Auth.Accepted (Some Auth.demo_user));
            Auth.LoginSettled (Auth.Failed "401") ] Auth.initial)
     = Auth.isAuthenticated Auth.initial.
Proof.
  split; [reflexivity|].
  exact (proj1 (proj2 (registration_does_not_sign_in Auth.Toasting
                         [ Auth.RegisterSettled
                             (Auth.Accepted (Some Auth.demo_user));
                           Auth.LoginSettled (Auth.Failed "401") ]
                         Auth.initial eq_refl))).
Defined.

(** X20.  The context calls the token store once for each logout, to clear it,
    and once for each demo login, to store the demo token; nothing else,
    and in particular no login, makes it touch the store. *)
Theorem token_store_calls :
  forall (rev : Auth.Revision) (events : list Auth.Event) (s : Auth.State),
    Auth.token_calls (Auth.run rev events s)
    = (Auth.token_calls s ++ flat_map (Auth.token_calls_of rev) events)%list.
Proof.
  intros rev events. induction events as [|e events IH]; intros s.
  - cbn. now rewrite app_nil_r.
  - change (Auth.run rev (e :: events) s)
      with (Auth.run rev events (Auth.step rev e s)).
    rewrite IH. cbn [flat_map]. rewrite app_assoc. f_equal.
    destruct e as [token|[u|err]|[u|err]| |now|u]; destruct rev, s; cbn;
      rewrite ?app_nil_r; try reflexivity;
      unfold Auth.mount; destruct (Auth.truthy token); reflexivity.
Qed.

(** X21.  A logout signs out whatever came before it: no user is left, the
    navigation bar has no name to show, and the last call on the token
    store clears it. *)
Theorem logout_signs_out :
  forall (rev : Auth.Revision) (events : list Auth.Event) (s : Auth.State),
    let s' := Auth.run rev (events ++ [Auth.LoggedOut]) s in
    Auth.isAuthenticated s' = false
    /\ Auth.display_name (Auth.user s') = None
    /\ last (Auth.token_calls s') (Auth.SetToken "") = Auth.ClearToken.
Proof.
  intros rev events s s'. subst s'. rewrite auth_run_app.
  set (before := Auth.run rev events s).
  change (Auth.run rev [Auth.LoggedOut] before) with (Auth.logout rev before).
  destruct before as [u calls ts errs], rev; cbn;
    repeat split; apply last_last.
Qed.

(** X22.  The name in the navigation bar after a login.  A user that the server
    returns with a first name and no last name is shown with the word
    "undefined" in place of the last name; a user without a first name, or
    with an empty one, is shown by the e-mail address. *)
Theorem navbar_name_after_login :
  forall (rev : Auth.Revision) (s : Auth.State) (u : Auth.User),
    let s' := Auth.step rev (Auth.LoginSettled (Auth.Accepted (Some u))) s in
    Auth.isAuthenticated s' = true
    /\ (forall first : string,
          Auth.firstName u = Some first -> first <> "" ->
          Auth.lastName u = None ->
          Auth.display_name (Auth.user s') = Some (first ++ " undefined"))
    /\ (Auth.truthy (Auth.firstName u) = false ->
        Auth.display_name (Auth.user s') = Some (Auth.email u)).
Proof.
  intros rev s u s'.
  assert (Huser : Auth.user s' = Some u) by (destruct rev, s; reflexivity).
  split; [unfold Auth.isAuthenticated; now rewrite Huser|].
  rewrite Huser. unfold Auth.display_name. split.
  - intros first Hfirst Hne Hlast. rewrite Hfirst, Hlast. cbn.
    destruct (String.eqb_spec first ""); [contradiction | reflexivity].
  - intros ->. reflexivity.
Qed.

Lemma navbar_name_after_login_witness :
  Auth.display_name
    (Auth.user
       (Auth.step Auth.Toasting
          (Auth.LoginSettled
             (Auth.Accepted
                (Some {| Auth.email := "ana@example.com";
                         Auth.firstName := Some "Ana";
                         Auth.lastName := None |}))) Auth.initial))
  = Some "Ana undefined".
Proof.
  apply (proj1 (proj2 (navbar_name_after_login Auth.Toasting Auth.initial
                         {| Auth.email := "ana@example.com";
                            Auth.firstName := Some "Ana";
                            Auth.lastName := None |})) "Ana");
    [reflexivity | discriminate | reflexivity].
Defined.
